(** * DMX control app: gamepad input pipeline, profile store and focus navigation

    A shallow embedding of the logic of
    - [core/gamepad_manager.py]  ([GamepadWorker], [GamepadManager]),
    - [core/config_manager.py]   ([ConfigManager]: gamepad profiles and
                                  configuration entries),
    - [ui/main_window.py]        (tab switching, spatial focus navigation),
    - [core/api_client.py]       (the addresses of the requests),
    followed by the properties established about it.

    Python [int] is [Z], Python [float] is the kernel's binary64 [float]
    (same format, same round-to-nearest operations), [str] is [string].
    Values whose type is only known at run time (everything read back from a
    JSON profile) live in [pyval]; operations that can raise return a
    [result]. *)

From Stdlib Require Import ZArith List Bool Floats Ascii.
From stdpp Require Import base strings list gmap pretty sorting.

Set Warnings "-inexact-float,-register-all,-clear-no-such-hyp".
Open Scope Z_scope.

(** ** Exceptions and results *)

(** Exceptions by their class. [IOError] is [OSError] with all its
    subclasses; [JSONDecodeError] and [UnicodeDecodeError] are two unrelated
    subclasses of [ValueError], which stands for the remaining ones. *)
Inductive exn :=
  | AttributeError
  | TypeError
  | KeyError
  | IndexError
  | ValueError
  | UnicodeDecodeError
  | JSONDecodeError
  | IOError
  | RecursionError
  | OverflowError
  | ZeroDivisionError.

#[global] Instance exn_eq_dec : EqDecision exn.
Proof. solve_decision. Defined.

Inductive result (A : Type) :=
  | Ok (a : A)
  | Raise (e : exn).
Arguments Ok {A} a.
Arguments Raise {A} e.

Definition rbind {A B} (r : result A) (k : A -> result B) : result B :=
  match r with
  | Ok a => k a
  | Raise e => Raise e
  end.

Notation "x <-! r ; k" := (rbind r (fun x => k))
  (at level 100, r at next level, right associativity).

(** ** Dynamically typed values *)

(** Dictionary keys met in this program: button indices ([int]) in the
    built-in table, strings in everything that went through JSON. An [int]
    key and a [str] key are never equal, whatever their spelling. *)
Inductive pykey :=
  | KInt (i : Z)
  | KStr (s : string).

#[global] Instance pykey_eq_dec : EqDecision pykey.
Proof. solve_decision. Defined.

(** A [dict] is kept as its items in insertion order, keys pairwise distinct. *)
Inductive pyval :=
  | VNone
  | VBool (b : bool)
  | VInt (i : Z)
  | VFloat (x : float)
  | VStr (s : string)
  | VList (l : list pyval)
  | VDict (d : list (pykey * pyval)).

Definition items := list (pykey * pyval).

Fixpoint dict_lookup (k : pykey) (d : items) : option pyval :=
  match d with
  | [] => None
  | (k', v) :: d' => if decide (k = k') then Some v else dict_lookup k d'
  end.

(** [d[k] = v]: overwrite in place, or append a new item. *)
Fixpoint dict_store (k : pykey) (v : pyval) (d : items) : items :=
  match d with
  | [] => [(k, v)]
  | (k', v') :: d' =>
      if decide (k = k') then (k, v) :: d' else (k', v') :: dict_store k v d'
  end.

(** [bool(v)] *)
Definition py_truthy (v : pyval) : bool :=
  match v with
  | VNone => false
  | VBool b => b
  | VInt i => negb (i =? 0)
  | VFloat x => negb (x =? 0)%float
  | VStr s => negb (String.eqb s "")
  | VList l => match l with [] => false | _ => true end
  | VDict d => match d with [] => false | _ => true end
  end.

(** [o.get(k, default)]: only a [dict] has the method. *)
Definition py_get (o : pyval) (k : pykey) (default : pyval) : result pyval :=
  match o with
  | VDict d => Ok (match dict_lookup k d with Some v => v | None => default end)
  | _ => Raise AttributeError
  end.

(** [o[k]] for a string key [k]: a missing key is a [KeyError]; a list or a
    string wants integer indices and scalars are not subscriptable, both a
    [TypeError]. *)
Definition py_getitem (o : pyval) (k : string) : result pyval :=
  match o with
  | VDict d =>
      match dict_lookup (KStr k) d with
      | Some v => Ok v
      | None => Raise KeyError
      end
  | _ => Raise TypeError
  end.

(** [o[k] = v]. A dict takes any key. A list takes an integer index from
    [-len] to [len - 1], counted from the end when negative, and raises
    [IndexError] for any other integer; a string key on a list, and any
    assignment into a value of another type, is a [TypeError]. *)
Definition py_setitem (o : pyval) (k : pykey) (v : pyval) : result pyval :=
  match o, k with
  | VDict d, _ => Ok (VDict (dict_store k v d))
  | VList l, KInt i =>
      let n := Z.of_nat (length l) in
      if (- n <=? i) && (i <? n)
      then Ok (VList (<[Z.to_nat (if i <? 0 then i + n else i) := v]> l))
      else Raise IndexError
  | _, _ => Raise TypeError
  end.

(** [v != s] for a string literal [s]: a value of another type is unequal. *)
Definition py_ne_str (v : pyval) (s : string) : bool :=
  match v with
  | VStr t => negb (String.eqb t s)
  | _ => true
  end.

(** [float(i)]: correctly rounded, an [OverflowError] beyond the range. *)
Definition float_of_int (i : Z) : result float :=
  let x := SF2Prim (binary_normalize prec emax i 0 false) in
  if is_infinity x then Raise OverflowError else Ok x.

(** [x * v] with [x] a float. *)
Definition py_float_mul (x : float) (v : pyval) : result float :=
  match v with
  | VFloat y => Ok (x * y)%float
  | VInt i => y <-! float_of_int i; Ok (x * y)%float
  | VBool b => Ok (x * (if b then 1 else 0))%float
  | _ => Raise TypeError
  end.

(** The built-ins [min(a, b)] and [max(a, b)] on floats: the first argument is
    kept unless the second compares strictly below (above) it. *)
Definition py_min (a b : float) : float := if (b <? a)%float then b else a.
Definition py_max (a b : float) : float := if (a <? b)%float then b else a.

(** [a % b] on ints: the result takes the sign of the divisor. *)
Definition py_mod (a b : Z) : result Z :=
  if b =? 0 then Raise ZeroDivisionError else Ok (a mod b).

(** [base.update(other)], also [{**base, **other}]: the items of [other]
    are stored into [base] one after the other. *)
Definition dict_update (base other : items) : items :=
  fold_left (fun acc kv => dict_store (fst kv) (snd kv) acc) other base.

(** The items an iteration over a dict yields, one per key. (Should a list
    name a key twice, its first item counts, as it does for a lookup.) *)
Fixpoint dict_items (d : list (pykey * pyval)) : list (pykey * pyval) :=
  match d with
  | [] => []
  | (k, v) :: d' => (k, v) :: filter (fun kv => fst kv ≠ k) (dict_items d')
  end.

(** What [json.load] gives back for what [json.dump] wrote. [dump] writes
    the items in order, an integer key as its decimal string; [load] stores
    them one after the other into a new dict, so that of two keys written
    with the same spelling (the int [0] and the str ['0']) the first fixes
    the position and the last the value. Other values come back unchanged. *)
Definition key_str (k : pykey) : string :=
  match k with
  | KInt i => pretty i
  | KStr s => s
  end.

Definition json_object (d : items) : items :=
  dict_update [] (map (fun kv => (KStr (key_str (fst kv)), snd kv)) (dict_items d)).

Fixpoint jsonify (v : pyval) : pyval :=
  match v with
  | VList l => VList (map jsonify l)
  | VDict d => VDict (json_object (map (fun kv => (fst kv, jsonify (snd kv))) d))
  | _ => v
  end.

(** An [int] carried by a Qt signal is a C [int]: the index is cut to 32
    bits, two's complement. *)
Definition c_int (i : Z) : Z := (i + 2147483648) mod 4294967296 - 2147483648.

(** The value of a computation that does not raise. *)
Definition outcome {A} (otherwise : A) (r : result A) : A :=
  match r with
  | Ok a => a
  | Raise _ => otherwise
  end.

(** [s.endswith(suffix)] and the slice [s[:-n]] (for [n > 0]). *)
Definition endswith (s suffix : string) : bool :=
  (String.length suffix <=? String.length s)%nat
  && String.eqb
       (String.substring (String.length s - String.length suffix) (String.length suffix) s)
       suffix.

Definition drop_last (n : nat) (s : string) : string :=
  String.substring 0 (String.length s - n) s.

(** * [core/config_manager.py]: the profile store *)

Module ConfigManager.

(** What is in a file. [json.load] returns the value of a [Document] and
    raises [JSONDecodeError] on [Garbled] text, which is text but no JSON.
    Reading an [Unreadable] file raises [e]: [UnicodeDecodeError] for bytes
    that are no text in the encoding in use, [RecursionError] for JSON
    nested deeper than the interpreter allows, [IOError] for a file that
    may not be read. *)
Inductive file :=
  | Garbled (text : string)
  | Unreadable (e : exn)
  | Document (v : pyval).

(** [json.load(f)] *)
Definition json_load (f : file) : result pyval :=
  match f with
  | Garbled _ => Raise JSONDecodeError
  | Unreadable e => Raise e
  | Document v => Ok v
  end.

(** [except (json.JSONDecodeError, IOError)] *)
Definition caught (e : exn) : bool :=
  match e with
  | JSONDecodeError | IOError => true
  | _ => false
  end.

(** Where the operating system finds the file that a path names: an entry
    of the profile directory, a file elsewhere (under its canonical path),
    or no file at all, opening the path raising [e] ([IOError] for a
    directory that does not exist or a name that is too long, [ValueError]
    for a path with a NUL in it). The file system is a POSIX one: names
    are compared byte by byte. *)
Inductive place :=
  | Profile (filename : string)
  | Outside (path : string)
  | Nowhere (e : exn).

#[global] Instance place_eq_dec : EqDecision place.
Proof. solve_decision. Defined.

(** [config_dir] is [self.config_dir]. [active_profile] is the entry of
    [self._config] under that key, when there is one. [profiles_dir] holds
    the entries of the directory [self.profiles_dir], file name to content;
    [files] are the files elsewhere, by canonical path. [resolve] is the
    operating system's reading of a path; none of the operations below
    creates or removes a directory, so it is the same before and after. *)
Record t := {
  config_dir : string;
  active_profile : option string;
  profiles_dir : gmap string file;
  files : gmap string file;
  resolve : string -> place;
}.

(** The name of a directory entry: not empty, not ['.'] or ['..'], at most
    255 bytes, without ['/'] and without NUL. *)
Definition is_filename (s : string) : bool :=
  negb (String.eqb s "") && negb (String.eqb s ".") && negb (String.eqb s "..")
  && (String.length s <=? 255)%nat
  && forallb (fun c => negb (Ascii.eqb c "/") && negb (Ascii.eqb c "000"))
       (String.list_ascii_of_string s).

(** [os.path.join(a, b)] *)
Definition os_path_join (a b : string) : string :=
  match b with
  | String "/" _ => b
  | _ => if String.eqb a "" || endswith a "/" then a +:+ b else a +:+ "/" +:+ b
  end.

(** [os.path.join(self.profiles_dir, f'{name}.json')], as the place it
    leads to: the entry of that name when [f'{name}.json'] is a file name,
    and wherever the operating system resolves the joined path when it is
    not (a name with a ['/'] or a NUL in it, or too long). *)
Definition profile_path (self : t) (name : string) : place :=
  let filename := name +:+ ".json" in
  if is_filename filename then Profile filename
  else resolve self (os_path_join (os_path_join (config_dir self) "profiles") filename).

(** The file at a place, when there is one. *)
Definition file_at (self : t) (p : place) : option file :=
  match p with
  | Profile filename => profiles_dir self !! filename
  | Outside path => files self !! path
  | Nowhere _ => None
  end.

(** [os.path.exists(path)] *)
Definition os_path_exists (self : t) (p : place) : bool :=
  match file_at self p with
  | Some _ => true
  | None => false
  end.

(** [open(path, 'r')] *)
Definition open_read (self : t) (p : place) : result file :=
  match file_at self p with
  | Some f => Ok f
  | None => Raise match p with Nowhere e => e | _ => IOError end
  end.

(** [with open(path, 'w') as f: json.dump(v, f, indent=2)] *)
Definition open_write (self : t) (p : place) (v : pyval) : result t :=
  match p with
  | Profile filename =>
      Ok {| config_dir := config_dir self;
            active_profile := active_profile self;
            profiles_dir := <[filename := Document (jsonify v)]> (profiles_dir self);
            files := files self;
            resolve := resolve self |}
  | Outside path =>
      Ok {| config_dir := config_dir self;
            active_profile := active_profile self;
            profiles_dir := profiles_dir self;
            files := <[path := Document (jsonify v)]> (files self);
            resolve := resolve self |}
  | Nowhere e => Raise e
  end.

(** [os.remove(path)] of a file that exists. *)
Definition os_remove (self : t) (p : place) : t :=
  match p with
  | Profile filename =>
      {| config_dir := config_dir self;
         active_profile := active_profile self;
         profiles_dir := delete filename (profiles_dir self);
         files := files self;
         resolve := resolve self |}
  | Outside path =>
      {| config_dir := config_dir self;
         active_profile := active_profile self;
         profiles_dir := profiles_dir self;
         files := delete path (files self);
         resolve := resolve self |}
  | Nowhere _ => self
  end.

(** [os.listdir(self.profiles_dir)]: the names of the entries. (A key of
    [profiles_dir] that is no file name stands for no entry.) *)
Definition os_listdir (self : t) : list string :=
  filter (fun filename => is_filename filename = true)
    (map fst (map_to_list (profiles_dir self))).

Definition steam_deck_buttons : items :=
  [ (KStr "0", VStr "select"); (KStr "1", VStr "back");
    (KStr "2", VStr "refresh"); (KStr "3", VStr "context");
    (KStr "4", VStr "prev_tab"); (KStr "5", VStr "next_tab");
    (KStr "6", VStr "modifier"); (KStr "7", VStr "none");
    (KStr "8", VStr "reset"); (KStr "9", VStr "save");
    (KStr "12", VStr "nav_up"); (KStr "13", VStr "nav_down");
    (KStr "14", VStr "nav_left"); (KStr "15", VStr "nav_right") ].

Definition default_profile (title : string) (deadzone : float) : pyval :=
  VDict
    [ (KStr "name", VStr title);
      (KStr "buttons", VDict steam_deck_buttons);
      (KStr "analog",
        VDict [ (KStr "deadzone", VFloat deadzone);
                (KStr "sensitivity", VFloat 1.0);
                (KStr "invert_y", VBool false) ]) ].

(** The three built-in profiles; their button tables are identical. *)
Definition defaults : list (string * pyval) :=
  [ ("default", default_profile "Default (Steam Deck)" 0.2);
    ("xbox", default_profile "Xbox Controller" 0.15);
    ("playstation", default_profile "PlayStation Controller" 0.2) ].

Definition save_gamepad_profile (self : t) (name : string) (profile : pyval) : result t :=
  open_write self (profile_path self name) profile.

(** Each built-in profile is written unless its file is already there. *)
Definition _create_default_profiles (self : t) : result t :=
  fold_left
    (fun acc np =>
       cfg <-! acc;
       let '(name, profile) := np in
       let profile_path := profile_path cfg name in
       if os_path_exists cfg profile_path then Ok cfg
       else open_write cfg profile_path profile)
    defaults (Ok self).

Definition get_profile_list (self : t) : list string :=
  merge_sort String.le
    (map (drop_last 5)
       (filter (fun filename => endswith filename ".json" = true) (os_listdir self))).

(** Returns [VNone] where the source returns [None]. *)
Definition get_gamepad_profile (self : t) (name : option string) : result pyval :=
  let name :=
    match name with
    | Some n => n
    | None => default "default" (active_profile self)
    end in
  let profile_path := profile_path self name in
  if os_path_exists self profile_path then
    match (f <-! open_read self profile_path; json_load f) with
    | Ok profile => Ok profile
    | Raise e => if caught e then Ok VNone else Raise e
    end
  else Ok VNone.

Definition builtin_names : list string := ["default"; "xbox"; "playstation"].

Definition delete_gamepad_profile (self : t) (name : string) : bool * t :=
  if bool_decide (name ∈ builtin_names) then (false, self)
  else
    let profile_path := profile_path self name in
    if os_path_exists self profile_path then (true, os_remove self profile_path)
    else (false, self).

Definition get_active_profile (self : t) : string :=
  default "default" (active_profile self).

Definition export_profile (self : t) (name export_path : string) : result (bool * t) :=
  profile <-! get_gamepad_profile self (Some name);
  if py_truthy profile then
    self' <-! open_write self (resolve self export_path) profile;
    Ok (true, self')
  else Ok (false, self).

(** The handler catches [JSONDecodeError] and [IOError] only: the
    [TypeError] of [profile['name'] = name] on a document that is not an
    object leaves the function, and so does what reading the file raises
    beyond these two. *)
Definition import_profile (self : t) (import_path name : string) : result (bool * t) :=
  match (f <-! open_read self (resolve self import_path);
         profile <-! json_load f;
         profile <-! py_setitem profile (KStr "name") (VStr name);
         save_gamepad_profile self name profile) with
  | Ok self' => Ok (true, self')
  | Raise e => if caught e then Ok (false, self) else Raise e
  end.

End ConfigManager.

(** * [core/gamepad_manager.py]: the polling worker *)

Module GamepadWorker.

Inductive signal :=
  | button_pressed (i : Z)
  | button_released (i : Z)
  | axis_moved (i : Z) (value : float)
  | connected (name : string)
  | disconnected.

(** What the device backend answers during one pass of the loop:
    [pygame.joystick.get_count()], and for joystick 0 its name and the
    readings [get_button(i)], [get_axis(i)], [get_hat(i)] by index. *)
Record device := {
  get_count : Z;
  get_name : string;
  buttons : list bool;
  axes : list float;
  hats : list (Z * Z);
}.

(** [joystick] is the open joystick (kept by its name), [None] when there
    is none; [last_button_states] is the dict of the last seen button
    levels. *)
Record t := {
  running : bool;
  joystick : option string;
  last_button_states : gmap Z bool;
  last_hat_state : Z * Z;
  deadzone : float;
}.

Definition init : t :=
  {| running := false;
     joystick := None;
     last_button_states := ∅;
     last_hat_state := (0, 0);
     deadzone := 0.2 |}.

(** 12=up, 13=down, 14=left, 15=right; a diagonal gives its vertical part. *)
Definition hat_buttons_table : list ((Z * Z) * Z) :=
  [ ((0, 1), 12); ((0, -1), 13); ((-1, 0), 14); ((1, 0), 15);
    ((1, 1), 12); ((-1, 1), 12); ((1, -1), 13); ((-1, -1), 13) ].

Fixpoint table_lookup (hat : Z * Z) (table : list ((Z * Z) * Z)) : option Z :=
  match table with
  | [] => None
  | (k, b) :: table' => if decide (hat = k) then Some b else table_lookup hat table'
  end.

Definition hat_buttons (hat : Z * Z) : option Z :=
  table_lookup hat hat_buttons_table.

(** Buttons [i], [i+1], ... with readings [bs]: edge detection against the
    stored level, which is overwritten in every case. *)
Fixpoint poll_buttons (i : Z) (bs : list bool) (last : gmap Z bool)
  : gmap Z bool * list signal :=
  match bs with
  | [] => (last, [])
  | pressed :: bs' =>
      let was_pressed := default false (last !! i) in
      let ev :=
        if pressed && negb was_pressed then [button_pressed i]
        else if negb pressed && was_pressed then [button_released i]
        else [] in
      let '(last', evs) := poll_buttons (i + 1) bs' (<[i := pressed]> last) in
      (last', ev ++ evs)
  end.

(** One axis: reported only when [abs(value) > self.deadzone]. *)
Definition poll_axis (deadzone : float) (i : Z) (value : float) : list signal :=
  if (deadzone <? abs value)%float then [axis_moved i value] else [].

Fixpoint poll_axes (deadzone : float) (i : Z) (vs : list float) : list signal :=
  match vs with
  | [] => []
  | value :: vs' => poll_axis deadzone i value ++ poll_axes deadzone (i + 1) vs'
  end.

(** One hat reading against [self.last_hat_state]: on a change, release
    the old direction, then press the new one, then store the reading. *)
Definition poll_hat (last hat : Z * Z) : (Z * Z) * list signal :=
  if decide (hat = last) then (last, [])
  else
    let released :=
      match hat_buttons last with
      | Some b => [button_released b]
      | None => []
      end in
    let pressed :=
      match hat_buttons hat with
      | Some b => [button_pressed b]
      | None => []
      end in
    (hat, released ++ pressed).

(** All hats of the joystick go through the one [last_hat_state]. *)
Fixpoint poll_hats (last : Z * Z) (hs : list (Z * Z)) : (Z * Z) * list signal :=
  match hs with
  | [] => (last, [])
  | hat :: hs' =>
      let '(last1, ev1) := poll_hat last hat in
      let '(last2, ev2) := poll_hats last1 hs' in
      (last2, ev1 ++ ev2)
  end.

(** One pass of the [while self.running] loop. *)
Definition tick (self : t) (dev : device) : t * list signal :=
  let '(joy, ev_conn) :=
    match joystick self with
    | None =>
        if 0 <? get_count dev
        then (Some (get_name dev), [connected (get_name dev)])
        else (None, [])
    | Some j =>
        if get_count dev =? 0 then (None, [disconnected]) else (Some j, [])
    end in
  match joy with
  | Some _ =>
      let '(states, ev_buttons) := poll_buttons 0 (buttons dev) (last_button_states self) in
      let ev_axes := poll_axes (deadzone self) 0 (axes dev) in
      let '(hat, ev_hats) := poll_hats (last_hat_state self) (hats dev) in
      ({| running := running self;
          joystick := joy;
          last_button_states := states;
          last_hat_state := hat;
          deadzone := deadzone self |},
       ev_conn ++ ev_buttons ++ ev_axes ++ ev_hats)
  | None =>
      ({| running := running self;
          joystick := None;
          last_button_states := last_button_states self;
          last_hat_state := last_hat_state self;
          deadzone := deadzone self |},
       ev_conn)
  end.

Fixpoint ticks (self : t) (devs : list device) : t * list signal :=
  match devs with
  | [] => (self, [])
  | dev :: devs' =>
      let '(self1, ev1) := tick self dev in
      let '(self2, ev2) := ticks self1 devs' in
      (self2, ev1 ++ ev2)
  end.

Definition set_running (b : bool) (self : t) : t :=
  {| running := b;
     joystick := joystick self;
     last_button_states := last_button_states self;
     last_hat_state := last_hat_state self;
     deadzone := deadzone self |}.

(** [run]: nothing without pygame; otherwise one [tick] per pass, over the
    device snapshots [devs] seen until [stop] cleared [running]. *)
Definition run (pygame_available : bool) (self : t) (devs : list device)
  : t * list signal :=
  if pygame_available then
    let '(self', evs) := ticks (set_running true self) devs in
    (set_running false self', evs)
  else (self, []).

End GamepadWorker.

(** * [core/gamepad_manager.py]: mappings and analog settings *)

Module GamepadManager.

(** [button_pressed] carries the action as found in the mapping, and the
    index as the C [int] that the signal is declared with. *)
Inductive signal :=
  | button_pressed (button_index : Z) (action : pyval)
  | axis_moved (axis_name : string) (value : float)
  | gamepad_connected (name : string)
  | gamepad_disconnected.

Definition DEFAULT_MAPPINGS : items :=
  [ (KInt 0, VStr "select"); (KInt 1, VStr "back");
    (KInt 2, VStr "refresh"); (KInt 3, VStr "context");
    (KInt 4, VStr "prev_tab"); (KInt 5, VStr "next_tab");
    (KInt 6, VStr "modifier"); (KInt 7, VStr "none");
    (KInt 8, VStr "reset"); (KInt 9, VStr "save");
    (KInt 10, VStr "none"); (KInt 11, VStr "none");
    (KInt 12, VStr "nav_up"); (KInt 13, VStr "nav_down");
    (KInt 14, VStr "nav_left"); (KInt 15, VStr "nav_right") ].

Definition default_analog_settings : items :=
  [ (KStr "deadzone", VFloat 0.2);
    (KStr "sensitivity", VFloat 1.0);
    (KStr "invert_y", VBool false) ].

(** [self.config] is a reference to a shared [ConfigManager]: the
    operations that use it take its current state as an argument. *)
Record t := {
  worker : option GamepadWorker.t;
  connected : bool;
  gamepad_name : option string;
  mappings : pyval;
  analog_settings : pyval;
}.

Definition with_mappings (m : pyval) (self : t) : t :=
  {| worker := worker self; connected := connected self;
     gamepad_name := gamepad_name self;
     mappings := m; analog_settings := analog_settings self |}.

Definition with_analog_settings (a : pyval) (self : t) : t :=
  {| worker := worker self; connected := connected self;
     gamepad_name := gamepad_name self;
     mappings := mappings self; analog_settings := a |}.

Definition with_worker (w : option GamepadWorker.t) (self : t) : t :=
  {| worker := w; connected := connected self;
     gamepad_name := gamepad_name self;
     mappings := mappings self; analog_settings := analog_settings self |}.

Definition load_profile (config : option ConfigManager.t) (self : t)
    (name : option string) : result t :=
  match config with
  | None => Ok self
  | Some cfg =>
      profile <-! ConfigManager.get_gamepad_profile cfg name;
      if py_truthy profile then
        buttons <-! py_get profile (KStr "buttons") (VDict DEFAULT_MAPPINGS);
        analog <-! py_get profile (KStr "analog") (analog_settings self);
        Ok (with_analog_settings analog (with_mappings buttons self))
      else Ok self
  end.

(** The fields as [__init__] sets them before it calls [load_profile]. *)
Definition fresh : t :=
  {| worker := None;
     connected := false;
     gamepad_name := None;
     mappings := VDict DEFAULT_MAPPINGS;
     analog_settings := VDict default_analog_settings |}.

Definition init (config : option ConfigManager.t) : result t :=
  load_profile config fresh None.

Definition start (pygame_available : bool) (self : t) : t :=
  if pygame_available then with_worker (Some GamepadWorker.init) self else self.

Definition stop (self : t) : t := with_worker None self.

Definition _on_button_pressed (self : t) (button_index : Z) : result (list signal) :=
  action <-! py_get (mappings self) (KInt button_index) (VStr "none");
  if py_ne_str action "none" then Ok [button_pressed (c_int button_index) action]
  else Ok [].

Definition _on_button_released (self : t) (button_index : Z) : result (list signal) :=
  Ok [].

Definition axis_names : list (Z * string) :=
  [ (0, "left_x"); (1, "left_y"); (2, "right_x"); (3, "right_y") ].

Definition axis_name (axis_index : Z) : string :=
  match list_find (fun e => fst e = axis_index) axis_names with
  | Some (_, (_, name)) => name
  | None => "axis_" +:+ pretty axis_index
  end.

Definition _on_axis_moved (self : t) (axis_index : Z) (value : float)
  : result (list signal) :=
  sensitivity <-! py_getitem (analog_settings self) "sensitivity";
  value <-! py_float_mul value sensitivity;
  invert_y <-! py_getitem (analog_settings self) "invert_y";
  let value :=
    if py_truthy invert_y && bool_decide (axis_index ∈ [1; 3])
    then (- value)%float else value in
  Ok [axis_moved (axis_name axis_index) value].

Definition _on_connected (self : t) (name : string) : t * list signal :=
  ({| worker := worker self; connected := true; gamepad_name := Some name;
      mappings := mappings self; analog_settings := analog_settings self |},
   [gamepad_connected name]).

Definition _on_disconnected (self : t) : t * list signal :=
  ({| worker := worker self; connected := false; gamepad_name := None;
      mappings := mappings self; analog_settings := analog_settings self |},
   [gamepad_disconnected]).

(** The slot each worker signal is connected to in [start]. *)
Definition deliver (self : t) (s : GamepadWorker.signal) : result (t * list signal) :=
  match s with
  | GamepadWorker.button_pressed i =>
      out <-! _on_button_pressed self i; Ok (self, out)
  | GamepadWorker.button_released i =>
      out <-! _on_button_released self i; Ok (self, out)
  | GamepadWorker.axis_moved i value =>
      out <-! _on_axis_moved self i value; Ok (self, out)
  | GamepadWorker.connected name => Ok (_on_connected self name)
  | GamepadWorker.disconnected => Ok (_on_disconnected self)
  end.

Fixpoint deliver_all (self : t) (ss : list GamepadWorker.signal)
  : result (t * list signal) :=
  match ss with
  | [] => Ok (self, [])
  | s :: ss' =>
      r1 <-! deliver self s;
      r2 <-! deliver_all (fst r1) ss';
      Ok (fst r2, snd r1 ++ snd r2)
  end.

Definition set_mapping (self : t) (button_index : Z) (action : string) : result t :=
  m <-! py_setitem (mappings self) (KInt button_index) (VStr action);
  Ok (with_mappings m self).

Definition get_mapping (self : t) (button_index : Z) : result pyval :=
  py_get (mappings self) (KInt button_index) (VStr "none").

Definition set_deadzone (self : t) (value : float) : result t :=
  let clamped := py_max 0.0 (py_min 0.5 value) in
  a <-! py_setitem (analog_settings self) (KStr "deadzone") (VFloat clamped);
  let self := with_analog_settings a self in
  match worker self with
  | Some w =>
      Ok (with_worker
            (Some {| GamepadWorker.running := GamepadWorker.running w;
                     GamepadWorker.joystick := GamepadWorker.joystick w;
                     GamepadWorker.last_button_states := GamepadWorker.last_button_states w;
                     GamepadWorker.last_hat_state := GamepadWorker.last_hat_state w;
                     GamepadWorker.deadzone := clamped |})
            self)
  | None => Ok self
  end.

Definition set_sensitivity (self : t) (value : float) : result t :=
  a <-! py_setitem (analog_settings self) (KStr "sensitivity")
          (VFloat (py_max 0.5 (py_min 2.0 value)));
  Ok (with_analog_settings a self).

Definition set_invert_y (self : t) (invert : bool) : result t :=
  a <-! py_setitem (analog_settings self) (KStr "invert_y") (VBool invert);
  Ok (with_analog_settings a self).

Definition reset_to_defaults (self : t) : t :=
  with_analog_settings (VDict default_analog_settings)
    (with_mappings (VDict DEFAULT_MAPPINGS) self).

Definition save_profile (config : option ConfigManager.t) (self : t) (name : string)
  : result (option ConfigManager.t) :=
  match config with
  | None => Ok None
  | Some cfg =>
      let profile :=
        VDict [ (KStr "name", VStr name);
                (KStr "buttons", mappings self);
                (KStr "analog", analog_settings self) ] in
      cfg' <-! ConfigManager.save_gamepad_profile cfg name profile;
      Ok (Some cfg')
  end.

(** The stored number under a key of [analog_settings], when it is one. *)
Definition stored (key : string) (self : t) : option float :=
  match analog_settings self with
  | VDict d =>
      match dict_lookup (KStr key) d with
      | Some (VFloat x) => Some x
      | _ => None
      end
  | _ => None
  end.

(** Both numbers are stored and lie in their ranges: deadzone in
    [[0, 0.5]], sensitivity in [[0.5, 2.0]]. *)
Definition analog_in_range (self : t) : bool :=
  match stored "deadzone" self, stored "sensitivity" self with
  | Some dz, Some s =>
      ((0 <=? dz) && (dz <=? 0.5) && (0.5 <=? s) && (s <=? 2.0))%float
  | _, _ => false
  end.

End GamepadManager.

(** * [ui/main_window.py]: tab switching and spatial focus navigation *)

Module MainWindow.

Inductive FocusPolicy := NoFocus | TabFocus | ClickFocus | StrongFocus | WheelFocus.

#[global] Instance FocusPolicy_eq_dec : EqDecision FocusPolicy.
Proof. solve_decision. Defined.

(** A widget as the navigation reads it: [wid] is the object's identity,
    [center] is [mapToGlobal(rect().center())] as [(x, y)]. [__len__] is
    the number of items of a widget whose class has that method (a
    [QComboBox], a [QListWidget]), and [None] for any other widget. *)
Record QWidget := {
  wid : nat;
  isVisible : bool;
  isEnabled : bool;
  focusPolicy : FocusPolicy;
  center : Z * Z;
  __len__ : option Z;
}.

(** [bool(widget)]: a widget with [__len__] is false when it has no item;
    every other widget is true. *)
Definition widget_truthy (widget : QWidget) : bool :=
  match __len__ widget with
  | Some n => negb (n =? 0)
  | None => true
  end.

Record QTabWidget := {
  count : Z;
  currentIndex : Z;
}.

(** Qt ignores an index that is out of range. *)
Definition setCurrentIndex (tabs : QTabWidget) (index : Z) : QTabWidget :=
  if (0 <=? index) && (index <? count tabs)
  then {| count := count tabs; currentIndex := index |}
  else tabs.

Definition prev_tab (tabs : QTabWidget) : result QTabWidget :=
  let current := currentIndex tabs in
  new_index <-! py_mod (current - 1) (count tabs);
  Ok (setCurrentIndex tabs new_index).

Definition next_tab (tabs : QTabWidget) : result QTabWidget :=
  let current := currentIndex tabs in
  new_index <-! py_mod (current + 1) (count tabs);
  Ok (setCurrentIndex tabs new_index).

(** What [_navigate_focus] asks of the toolkit. *)
Inductive focus_action :=
  | FocusNextChild
  | SetFocus (w : QWidget)
  | NoChange.

(** The widgets kept in [focusable]. *)
Definition is_focusable (current widget : QWidget) : bool :=
  isVisible widget && isEnabled widget
  && bool_decide (focusPolicy widget ≠ NoFocus)
  && bool_decide (wid widget ≠ wid current).

(** The chain of tests on [direction]: [Some score] when [in_direction]
    is set, [None] when it stays [False]. *)
Definition direction_score (direction : string) (dx dy : Z) : option Z :=
  if String.eqb direction "down" && (20 <? dy) then Some (dy + Z.abs dx * 2)
  else if String.eqb direction "up" && (dy <? -20) then Some (- dy + Z.abs dx * 2)
  else if String.eqb direction "right" && (20 <? dx) then Some (dx + Z.abs dy * 2)
  else if String.eqb direction "left" && (dx <? -20) then Some (- dx + Z.abs dy * 2)
  else None.

(** [best_score] starts at [float('inf')], here [None]. *)
Definition score_lt (score : Z) (best_score : option Z) : bool :=
  match best_score with
  | None => true
  | Some b => score <? b
  end.

Definition visit (direction : string) (current_pos : Z * Z)
    (acc : option QWidget * option Z) (widget : QWidget)
  : option QWidget * option Z :=
  let widget_pos := center widget in
  let dx := fst widget_pos - fst current_pos in
  let dy := snd widget_pos - snd current_pos in
  match direction_score direction dx dy with
  | Some score =>
      if score_lt score (snd acc) then (Some widget, Some score) else acc
  | None => acc
  end.

Definition _navigate_focus (focusWidget : option QWidget)
    (children : list QWidget) (direction : string) : focus_action :=
  match focusWidget with
  | None => FocusNextChild
  | Some current =>
      if negb (widget_truthy current) then FocusNextChild
      else
        let current_pos := center current in
        let focusable := filter (fun w => is_focusable current w = true) children in
        match focusable with
        | [] => NoChange
        | _ =>
            match fst (fold_left (visit direction current_pos) focusable (None, None)) with
            | Some best => if widget_truthy best then SetFocus best else NoChange
            | None => NoChange
            end
        end
  end.

Definition focus_next fw ch := _navigate_focus fw ch "down".
Definition focus_prev fw ch := _navigate_focus fw ch "up".
Definition focus_left fw ch := _navigate_focus fw ch "left".
Definition focus_right fw ch := _navigate_focus fw ch "right".

(** The window as the gamepad handlers see it. *)
Record t := {
  tabs : QTabWidget;
  focusWidget : option QWidget;
  children : list QWidget;
}.

Inductive effect :=
  | Tabs (tabs' : QTabWidget)
  | Focus (a : focus_action)
  | Click (w : option QWidget)
  | Nothing.

Definition on_gamepad_button (self : t) (button : Z) (action : string) : result effect :=
  if String.eqb action "prev_tab" then tabs' <-! prev_tab (tabs self); Ok (Tabs tabs')
  else if String.eqb action "next_tab" then tabs' <-! next_tab (tabs self); Ok (Tabs tabs')
  else if String.eqb action "select" then Ok (Click (focusWidget self))
  else if String.eqb action "back" then Ok Nothing
  else if String.eqb action "nav_down" then Ok (Focus (focus_next (focusWidget self) (children self)))
  else if String.eqb action "nav_up" then Ok (Focus (focus_prev (focusWidget self) (children self)))
  else if String.eqb action "nav_left" then Ok (Focus (focus_left (focusWidget self) (children self)))
  else if String.eqb action "nav_right" then Ok (Focus (focus_right (focusWidget self) (children self)))
  else Ok Nothing.

(** The navigation rule in the words of the specification: a direction
    names a primary axis and a sign; a candidate is in the direction when
    its displacement along that axis exceeds 20 units; its score is the
    distance along the primary axis plus twice the distance along the
    other one. *)
Inductive direction := Down | Up | Right | Left.

Definition direction_name (d : direction) : string :=
  match d with
  | Down => "down"
  | Up => "up"
  | Right => "right"
  | Left => "left"
  end.

Definition spec_in_direction (d : direction) (dx dy : Z) : Prop :=
  match d with
  | Down => dy > 20
  | Up => dy < -20
  | Right => dx > 20
  | Left => dx < -20
  end.

Definition spec_score (d : direction) (dx dy : Z) : Z :=
  match d with
  | Down | Up => Z.abs dy + 2 * Z.abs dx
  | Right | Left => Z.abs dx + 2 * Z.abs dy
  end.

Definition dx_of (current w : QWidget) : Z := fst (center w) - fst (center current).
Definition dy_of (current w : QWidget) : Z := snd (center w) - snd (center current).

(** Eligible (visible, enabled, accepts focus, not the current element)
    and in the direction. *)
Definition spec_candidate (d : direction) (current w : QWidget) : Prop :=
  isVisible w = true ∧ isEnabled w = true ∧ focusPolicy w ≠ NoFocus
  ∧ wid w ≠ wid current
  ∧ spec_in_direction d (dx_of current w) (dy_of current w).

Definition spec_score_of (d : direction) (current w : QWidget) : Z :=
  spec_score d (dx_of current w) (dy_of current w).

End MainWindow.

(** * Derived notions and sample data *)

(** The virtual d-pad buttons held down after a run of worker signals: a
    press adds the button, a release removes it. *)
Definition hold (held : gset Z) (s : GamepadWorker.signal) : gset Z :=
  match s with
  | GamepadWorker.button_pressed b => {[b]} ∪ held
  | GamepadWorker.button_released b => held ∖ {[b]}
  | _ => held
  end.

Definition held_from (held : gset Z) (evs : list GamepadWorker.signal) : gset Z :=
  fold_left hold evs held.

Definition held_after (evs : list GamepadWorker.signal) : gset Z :=
  held_from ∅ evs.

(** The virtual button a hat reading stands for, as a set. *)
Definition held_of (hat : Z * Z) : gset Z :=
  match GamepadWorker.hat_buttons hat with
  | Some b => {[b]}
  | None => ∅
  end.

(** A joystick with one hat and nothing else, reading [hat]. *)
Definition pad (hat : Z * Z) : GamepadWorker.device :=
  {| GamepadWorker.get_count := 1;
     GamepadWorker.get_name := "pad";
     GamepadWorker.buttons := [];
     GamepadWorker.axes := [];
     GamepadWorker.hats := [hat] |}.

(** A small file system for the examples. Its directories are those on
    the way to [/home/deck/.config/dmx-visualizer-control/profiles], and
    [/tmp]; the profile directory has no subdirectory; the working
    directory is [/home/deck]; there are no links. *)
Fixpoint split_path (s : string) : list string :=
  match s with
  | EmptyString => [EmptyString]
  | String c s' =>
      if Ascii.eqb c "/" then EmptyString :: split_path s'
      else
        match split_path s' with
        | part :: parts => String c part :: parts
        | [] => [String c EmptyString]
        end
  end.

Fixpoint absolute (parts : list string) : string :=
  match parts with
  | [] => ""
  | part :: parts' => "/" +:+ part +:+ absolute parts'
  end.

Definition posix_home : list string := ["home"; "deck"].

Definition posix_config_dir : list string :=
  ["home"; "deck"; ".config"; "dmx-visualizer-control"].

Definition posix_profiles_dir : list string :=
  ["home"; "deck"; ".config"; "dmx-visualizer-control"; "profiles"].

Definition posix_directories : list (list string) :=
  [ [];
    ["home"];
    ["home"; "deck"];
    ["home"; "deck"; ".config"];
    posix_config_dir;
    posix_profiles_dir;
    ["tmp"] ].

(** From directory [cur] along the parts of a path: ['.'] and an empty
    part stay, ['..'] goes up, any other part but the last must be a
    directory, and the last part names the file. *)
Fixpoint posix_walk (cur : list string) (parts : list string) : ConfigManager.place :=
  match parts with
  | [] => ConfigManager.Nowhere IOError
  | [last] =>
      if ConfigManager.is_filename last
         && negb (bool_decide (cur ++ [last] ∈ posix_directories))
      then
        if bool_decide (cur = posix_profiles_dir) then ConfigManager.Profile last
        else ConfigManager.Outside (absolute (cur ++ [last]))
      else ConfigManager.Nowhere IOError
  | part :: parts' =>
      if String.eqb part "" || String.eqb part "." then posix_walk cur parts'
      else if String.eqb part ".." then posix_walk (removelast cur) parts'
      else if bool_decide (cur ++ [part] ∈ posix_directories)
      then posix_walk (cur ++ [part]) parts'
      else ConfigManager.Nowhere IOError
  end.

Definition posix_resolve (path : string) : ConfigManager.place :=
  if existsb (Ascii.eqb "000") (String.list_ascii_of_string path)
  then ConfigManager.Nowhere ValueError
  else
    match split_path path with
    | EmptyString :: part :: parts => posix_walk [] (part :: parts)
    | parts => if String.eqb path "" then ConfigManager.Nowhere IOError
               else posix_walk posix_home parts
    end.

(** The store before the first start of the application. *)
Definition blank : ConfigManager.t :=
  {| ConfigManager.config_dir := "/home/deck/.config/dmx-visualizer-control";
     ConfigManager.active_profile := Some "default";
     ConfigManager.profiles_dir := ∅;
     ConfigManager.files := ∅;
     ConfigManager.resolve := posix_resolve |}.

(** The store after the first start of the application: the active profile
    is ['default'] and the three built-in profiles have just been written. *)
Definition first_run : ConfigManager.t :=
  outcome blank (ConfigManager._create_default_profiles blank).

(** A profile whose deadzone is out of range, and a store that holds it. *)
Definition wild_profile : pyval :=
  VDict
    [ (KStr "name", VStr "wild");
      (KStr "buttons", VDict ConfigManager.steam_deck_buttons);
      (KStr "analog",
        VDict [ (KStr "deadzone", VFloat 0.9);
                (KStr "sensitivity", VFloat 1.0);
                (KStr "invert_y", VBool false) ]) ].

Definition wild_store : ConfigManager.t :=
  outcome first_run (ConfigManager.save_gamepad_profile first_run "wild" wild_profile).

(** The profile name [get_gamepad_profile] ends up reading. *)
Definition requested (cfg : ConfigManager.t) (name : option string) : string :=
  match name with
  | Some n => n
  | None => default "default" (ConfigManager.active_profile cfg)
  end.


(** A store where the user saved a profile ['racing']. *)
Definition racing_store : ConfigManager.t :=
  outcome first_run
    (ConfigManager.save_gamepad_profile first_run "racing"
       (ConfigManager.default_profile "racing" 0.1)).

(** A store with three files to import: a JSON array, text that is not
    JSON, and bytes that are no text; and with three stored profiles that
    are no profile objects. *)
Definition cluttered_store : ConfigManager.t :=
  {| ConfigManager.config_dir := ConfigManager.config_dir first_run;
     ConfigManager.active_profile := Some "default";
     ConfigManager.profiles_dir :=
       <["list.json" := ConfigManager.Document (VList [VInt 1; VInt 2])]>
         (<["torn.json" := ConfigManager.Garbled "{ 'buttons': "]>
            (<["blob.json" := ConfigManager.Unreadable UnicodeDecodeError]>
               (ConfigManager.profiles_dir first_run)));
     ConfigManager.files :=
       <["/tmp/list.json" := ConfigManager.Document (VList [VInt 1; VInt 2])]>
         (<["/tmp/notes.txt" := ConfigManager.Garbled "not json"]>
            (<["/tmp/blob.bin" := ConfigManager.Unreadable UnicodeDecodeError]> ∅));
     ConfigManager.resolve := posix_resolve |}.

(** A visible, enabled, focusable widget centred at [(x, y)]. *)
Definition widget_at (id : nat) (x y : Z) : MainWindow.QWidget :=
  {| MainWindow.wid := id;
     MainWindow.isVisible := true;
     MainWindow.isEnabled := true;
     MainWindow.focusPolicy := MainWindow.StrongFocus;
     MainWindow.center := (x, y);
     MainWindow.__len__ := None |}.

(** The same for a [QComboBox] or [QListWidget] of [n] items. *)
Definition list_widget_at (id : nat) (x y n : Z) : MainWindow.QWidget :=
  {| MainWindow.wid := id;
     MainWindow.isVisible := true;
     MainWindow.isEnabled := true;
     MainWindow.focusPolicy := MainWindow.StrongFocus;
     MainWindow.center := (x, y);
     MainWindow.__len__ := Some n |}.

(** The score of a widget as the loop of [_navigate_focus] sees it: none
    for a widget that is filtered out or not in the direction. *)
Definition cand_score (direction : string) (current w : MainWindow.QWidget) : option Z :=
  if MainWindow.is_focusable current w
  then MainWindow.direction_score direction
         (MainWindow.dx_of current w) (MainWindow.dy_of current w)
  else None.

(** The loop body of [_navigate_focus] in terms of [cand_score]. *)
Definition pick (direction : string) (current : MainWindow.QWidget)
    (acc : option MainWindow.QWidget * option Z) (w : MainWindow.QWidget)
  : option MainWindow.QWidget * option Z :=
  match cand_score direction current w with
  | Some score =>
      if MainWindow.score_lt score (snd acc) then (Some w, Some score) else acc
  | None => acc
  end.

(** What the loop holds after a list of children: nothing when no child
    has a score, otherwise the first child of minimal score. *)
Definition first_min (direction : string) (current : MainWindow.QWidget)
    (l : list MainWindow.QWidget)
    (acc : option MainWindow.QWidget * option Z) : Prop :=
  (acc = (None, None) /\ forall x, x ∈ l -> cand_score direction current x = None)
  \/ exists before w after s,
       acc = (Some w, Some s)
       /\ l = before ++ w :: after
       /\ cand_score direction current w = Some s
       /\ (forall x sx, x ∈ before -> cand_score direction current x = Some sx -> s < sx)
       /\ (forall x sx, x ∈ after -> cand_score direction current x = Some sx -> s <= sx).

(** Settings on which every handler of the manager runs: the mapping is a
    dict and the analog settings hold a float sensitivity and a boolean
    [invert_y], as in a new manager. *)
Definition settings_ok (self : GamepadManager.t) : Prop :=
  exists m a s inv,
    GamepadManager.mappings self = VDict m
    /\ GamepadManager.analog_settings self = VDict a
    /\ dict_lookup (KStr "sensitivity") a = Some (VFloat s)
    /\ dict_lookup (KStr "invert_y") a = Some (VBool inv).

(** Worker signals that carry input (buttons, axes), as opposed to the
    two connection signals. *)
Definition is_input (s : GamepadWorker.signal) : Prop :=
  match s with
  | GamepadWorker.connected _ | GamepadWorker.disconnected => False
  | _ => True
  end.


Definition str_keyed (d : items) : Prop :=
  Forall (fun kv => exists s, fst kv = KStr s) d.

(** The items of a dict after [json.dump] and [json.load]. *)
Definition jsonify_items (d : items) : items :=
  json_object (map (fun kv => (fst kv, jsonify (snd kv))) d).

(** * [core/config_manager.py]: the configuration entries *)

Module ConfigSettings.

(** [_config] is the dict of entries, [config_file] the content of
    [config.json] when the file exists. *)
Record t := {
  _config : items;
  config_file : option ConfigManager.file;
}.

Definition DEFAULT_CONFIG : items :=
  [ (KStr "server_url", VStr "http://localhost:8082");
    (KStr "auto_connect", VBool true);
    (KStr "fullscreen", VBool false);
    (KStr "active_profile", VStr "default") ].

(** A document that is no object cannot be unpacked with [**]: the
    [TypeError] is not among the exceptions caught, and neither is what
    reading the file raises beyond [JSONDecodeError] and [IOError]. *)
Definition _load_config (file : option ConfigManager.file) : result items :=
  match file with
  | Some f =>
      match (config <-! ConfigManager.json_load f;
             match config with
             | VDict config => Ok (dict_update DEFAULT_CONFIG config)
             | _ => Raise TypeError
             end) with
      | Ok merged => Ok merged
      | Raise e => if ConfigManager.caught e then Ok DEFAULT_CONFIG else Raise e
      end
  | None => Ok DEFAULT_CONFIG
  end.

(** The part of [__init__] that reads the configuration. *)
Definition init (file : option ConfigManager.file) : result t :=
  config <-! _load_config file;
  Ok {| _config := config; config_file := file |}.

Definition _save_config (self : t) : t :=
  {| _config := _config self;
     config_file := Some (ConfigManager.Document (jsonify (VDict (_config self)))) |}.

Definition get (self : t) (key : string) (default : pyval) : pyval :=
  match dict_lookup (KStr key) (_config self) with
  | Some v => v
  | None => default
  end.

Definition set (self : t) (key : string) (value : pyval) : t :=
  _save_config
    {| _config := dict_store (KStr key) value (_config self);
       config_file := config_file self |}.

Definition get_all (self : t) : items := _config self.

Definition set_active_profile (self : t) (name : string) : t :=
  set self "active_profile" (VStr name).

Definition get_active_profile (self : t) : pyval :=
  get self "active_profile" (VStr "default").

Definition DEFAULT_APP_SETTINGS : items :=
  [ (KStr "server_url", VStr "http://localhost:8082");
    (KStr "auto_connect", VBool true);
    (KStr "reconnect_interval", VInt 10);
    (KStr "fullscreen", VBool false);
    (KStr "always_on_top", VBool false);
    (KStr "theme", VStr "retro");
    (KStr "scale_factor", VFloat 1.0);
    (KStr "gamepad_enabled", VBool true);
    (KStr "vibration_enabled", VBool true);
    (KStr "gamepad_poll_rate", VInt 50);
    (KStr "debug_mode", VBool false);
    (KStr "preview_quality", VStr "medium") ].

Definition get_app_settings (self : t) : items :=
  dict_update DEFAULT_APP_SETTINGS (_config self).

Definition save_app_settings (self : t) (settings : items) : t :=
  _save_config
    {| _config := dict_update (_config self) settings;
       config_file := config_file self |}.

Definition reset_app_settings (self : t) : t :=
  _save_config {| _config := DEFAULT_APP_SETTINGS; config_file := config_file self |}.

End ConfigSettings.

(** * [core/api_client.py]: addresses *)

(** [s.rstrip(c)] for a single character [c]. *)
Fixpoint rstrip (c : Ascii.ascii) (s : string) : string :=
  match s with
  | EmptyString => EmptyString
  | String a s' =>
      match rstrip c s' with
      | EmptyString => if Ascii.eqb a c then EmptyString else String a EmptyString
      | rest => String a rest
      end
  end.

Module APIClient.

Record t := {
  base_url : string;
  timeout : Z;
}.

Definition init (base_url : string) : t :=
  {| base_url := rstrip "/"%char base_url; timeout := 5 |}.




Definition get_gobo_image_url (self : t) (gobo_id : Z) : string :=
  base_url self +:+ "/api/v1/gobos/" +:+ pretty gobo_id +:+ "/image".

End APIClient.

(** The direction a hat reading moves the focus in under the built-in
    mapping: the vertical part wins over the horizontal one. *)
Definition hat_moves (hat : Z * Z) : option string :=
  if snd hat =? 1 then Some "up"
  else if snd hat =? -1 then Some "down"
  else if fst hat =? -1 then Some "left"
  else if fst hat =? 1 then Some "right"
  else None.

(** Keys pairwise distinct, as in every dict. *)
Definition distinct_keys (d : items) : Prop := NoDup (map fst d).

(** The axis events of one pass in the words of the specification: with
    the configured [deadzone], [sensitivity] and [invert_y], a reading [v]
    of axis [i] gives no event when [|v| <= deadzone], and otherwise one
    event that carries [v] times the sensitivity, negated when [invert_y]
    is set and [i] is 1 or 3. *)
Definition spec_axis_event (deadzone sensitivity : float) (invert_y : bool)
    (i : Z) (v : float) : list GamepadManager.signal :=
  if (abs v <=? deadzone)%float then []
  else
    [GamepadManager.axis_moved (GamepadManager.axis_name i)
       (if invert_y && bool_decide (i = 1 \/ i = 3)%Z
        then - (v * sensitivity) else v * sensitivity)%float].

Fixpoint spec_axis_events (deadzone sensitivity : float) (invert_y : bool)
    (i : Z) (vs : list float) : list GamepadManager.signal :=
  match vs with
  | [] => []
  | v :: vs' =>
      spec_axis_event deadzone sensitivity invert_y i v
      ++ spec_axis_events deadzone sensitivity invert_y (i + 1) vs'
  end.

(** A joystick with axes only, reading [vs]. *)
Definition sticks (vs : list float) : GamepadWorker.device :=
  {| GamepadWorker.get_count := 1;
     GamepadWorker.get_name := "pad";
     GamepadWorker.buttons := [];
     GamepadWorker.axes := vs;
     GamepadWorker.hats := [] |}.

(** Readings within [[-1, 1]]. *)
Definition axis_reading (v : float) : Prop :=
  (-1 <=? v)%float = true /\ (v <=? 1)%float = true.

(** * Properties *)

(** ** Float comparisons *)

Section FloatOrder.

Lemma SFcompare_swap (a b : spec_float) :
  SFcompare b a = option_map CompOpp (SFcompare a b).
Proof.
  destruct a as [sa|sa| |sa ma ea], b as [sb|sb| |sb mb eb]; simpl;
    try reflexivity;
    try (destruct sa; reflexivity);
    try (destruct sb; reflexivity);
    try (destruct sa, sb; reflexivity).
  destruct sa, sb; simpl; try reflexivity;
    rewrite (Z.compare_antisym ea eb);
    destruct (ea ?= eb) eqn:He; simpl; try reflexivity;
    change (Pos.compare_cont Eq mb ma) with (Pos.compare mb ma);
    change (Pos.compare_cont Eq ma mb) with (Pos.compare ma mb);
    rewrite (Pos.compare_antisym ma mb);
    destruct (ma ?= mb)%positive; reflexivity.
Qed.

Lemma float_ltb_leb (x y : float) :
  (x <? y)%float = true -> (x <=? y)%float = true.
Proof.
  rewrite ltb_spec, leb_spec. unfold SFltb, SFleb.
  destruct (SFcompare (Prim2SF x) (Prim2SF y)) as [[]|]; congruence.
Qed.

Lemma float_leb_not_gtb (x y : float) :
  (x <=? y)%float = true -> (y <? x)%float = false.
Proof.
  rewrite ltb_spec, leb_spec. unfold SFltb, SFleb.
  rewrite (SFcompare_swap (Prim2SF x) (Prim2SF y)).
  destruct (SFcompare (Prim2SF x) (Prim2SF y)) as [[]|]; simpl; congruence.
Qed.

(** [max(lo, min(hi, value))] lands in [[lo, hi]] for every float
    [value], infinities and NaN included, as soon as [lo <= hi]. *)
Lemma clamp_in_range (lo hi value : float) :
  (lo <=? hi)%float = true ->
  (lo <=? py_max lo (py_min hi value))%float = true
  /\ (py_max lo (py_min hi value) <=? hi)%float = true.
Proof.
  intros Hlh. assert (Hlo : (lo <=? lo)%float = true).
  { revert Hlh. rewrite !leb_spec. unfold SFleb.
    destruct (Prim2SF lo) as [s|s| |s m e], (Prim2SF hi) as [s'|s'| |s' m' e'];
      simpl; try congruence; try (destruct s; reflexivity); intros _.
    all: destruct s; simpl; rewrite Z.compare_refl;
      change (Pos.compare_cont Eq m m) with (Pos.compare m m);
      rewrite Pos.compare_refl; reflexivity. }
  unfold py_max, py_min.
  destruct (value <? hi)%float eqn:Hv.
  - destruct (lo <? value)%float eqn:Hl.
    + split; apply float_ltb_leb; assumption.
    + split; assumption.
  - destruct (lo <? hi)%float eqn:Hl.
    + split; [assumption|].
      revert Hl. rewrite ltb_spec, leb_spec. unfold SFltb, SFleb.
      destruct (Prim2SF hi) as [s|s| |s m e], (Prim2SF lo) as [s'|s'| |s' m' e'];
        simpl; try congruence; try (destruct s; reflexivity); intros _.
      all: destruct s; simpl; rewrite Z.compare_refl;
        change (Pos.compare_cont Eq m m) with (Pos.compare m m);
        rewrite Pos.compare_refl; reflexivity.
    + split; assumption.
Qed.

(** Two floats that are not NaN are comparable. *)
Lemma SFcompare_total (a b : spec_float) :
  a <> S754_nan -> b <> S754_nan -> exists c, SFcompare a b = Some c.
Proof.
  intros Ha Hb.
  destruct a as [sa|sa| |sa ma ea], b as [sb|sb| |sb mb eb]; simpl;
    try congruence; eauto.
Qed.

Lemma float_leb_or_gtb (x y : float) :
  (x =? x)%float = true -> (y =? y)%float = true ->
  (x <=? y)%float = true \/ (y <? x)%float = true.
Proof.
  rewrite !FloatAxioms.eqb_spec, leb_spec, ltb_spec. unfold SFeqb, SFleb, SFltb.
  intros Hx Hy.
  rewrite (SFcompare_swap (Prim2SF x) (Prim2SF y)).
  destruct (SFcompare_total (Prim2SF x) (Prim2SF y)) as [c Hc].
  - intros E. rewrite E in Hx. discriminate.
  - intros E. rewrite E in Hy. discriminate.
  - rewrite Hc. destruct c; simpl; auto.
Qed.

(** A float between two floats is not NaN, and neither is its magnitude. *)
Lemma float_bounded_abs_not_nan (lo x : float) :
  (lo <=? x)%float = true -> (abs x =? abs x)%float = true.
Proof.
  rewrite leb_spec, FloatAxioms.eqb_spec, abs_spec. unfold SFleb, SFeqb.
  destruct (Prim2SF x) as [s|s| |s m e]; simpl.
  - reflexivity.
  - reflexivity.
  - destruct (Prim2SF lo); simpl; discriminate.
  - intros _. rewrite Z.compare_refl.
    change (Pos.compare_cont Eq m m) with (Pos.compare m m).
    rewrite Pos.compare_refl. reflexivity.
Qed.

End FloatOrder.

(** ** Dictionaries *)

Lemma dict_lookup_store_eq (k : pykey) (v : pyval) (d : items) :
  dict_lookup k (dict_store k v d) = Some v.
Proof.
  induction d as [|[k' v'] d IH]; simpl.
  - destruct (decide (k = k)); congruence.
  - destruct (decide (k = k')) as [->|Hne]; simpl.
    + destruct (decide (k' = k')); congruence.
    + destruct (decide (k = k')); [contradiction|exact IH].
Qed.

Lemma dict_lookup_store_ne (k k' : pykey) (v : pyval) (d : items) :
  k ≠ k' -> dict_lookup k' (dict_store k v d) = dict_lookup k' d.
Proof.
  intros Hne. induction d as [|[k0 v0] d IH]; simpl.
  - destruct (decide (k' = k)); congruence.
  - destruct (decide (k = k0)) as [->|Hk]; simpl.
    + destruct (decide (k' = k0)); congruence.
    + destruct (decide (k' = k0)); [reflexivity|exact IH].
Qed.

(** ** Analog settings: clamping on set *)

Section Clamping.
Import GamepadManager.

Lemma set_deadzone_settings (self : t) (d : items) (value : float) :
  analog_settings self = VDict d ->
  exists self',
    set_deadzone self value = Ok self'
    /\ analog_settings self'
       = VDict (dict_store (KStr "deadzone")
                  (VFloat (py_max 0.0 (py_min 0.5 value))) d).
Proof.
  intros Hd. unfold set_deadzone. rewrite Hd. simpl.
  destruct (worker self); eexists; split; reflexivity.
Qed.

Lemma set_sensitivity_settings (self : t) (d : items) (value : float) :
  analog_settings self = VDict d ->
  exists self',
    set_sensitivity self value = Ok self'
    /\ analog_settings self'
       = VDict (dict_store (KStr "sensitivity")
                  (VFloat (py_max 0.5 (py_min 2.0 value))) d).
Proof.
  intros Hd. unfold set_sensitivity. rewrite Hd. simpl.
  eexists; split; reflexivity.
Qed.

End Clamping.

Section ClampingClaims.
Import GamepadManager.

Lemma stored_of_settings (self : t) (d : items) (key : string) :
  analog_settings self = VDict d ->
  stored key self
  = match dict_lookup (KStr key) d with Some (VFloat x) => Some x | _ => None end.
Proof. intros Hd. unfold stored. rewrite Hd. reflexivity. Qed.

(** On analog settings that are a dict, [set_deadzone] stores the clamp of
    its argument, which is in range, and leaves the sensitivity alone. *)
Lemma set_deadzone_clamps (self : t) (d : items) (value : float) :
  analog_settings self = VDict d ->
  exists self',
    set_deadzone self value = Ok self'
    /\ stored "deadzone" self' = Some (py_max 0.0 (py_min 0.5 value))
    /\ (0 <=? py_max 0.0 (py_min 0.5 value))%float = true
    /\ (py_max 0.0 (py_min 0.5 value) <=? 0.5)%float = true
    /\ stored "sensitivity" self' = stored "sensitivity" self
    /\ exists d', analog_settings self' = VDict d'.
Proof.
  intros Hd.
  destruct (set_deadzone_settings self d value Hd) as (self' & Hset & Hd').
  exists self'. split; [exact Hset|].
  split; [rewrite (stored_of_settings _ _ _ Hd'), dict_lookup_store_eq; reflexivity|].
  destruct (clamp_in_range 0.0 0.5 value eq_refl) as [H1 H2].
  split; [exact H1|]. split; [exact H2|]. split; [|eauto].
  rewrite (stored_of_settings _ _ _ Hd'), (stored_of_settings _ _ _ Hd).
  rewrite dict_lookup_store_ne by discriminate. reflexivity.
Qed.

Lemma set_sensitivity_clamps (self : t) (d : items) (value : float) :
  analog_settings self = VDict d ->
  exists self',
    set_sensitivity self value = Ok self'
    /\ stored "sensitivity" self' = Some (py_max 0.5 (py_min 2.0 value))
    /\ (0.5 <=? py_max 0.5 (py_min 2.0 value))%float = true
    /\ (py_max 0.5 (py_min 2.0 value) <=? 2.0)%float = true
    /\ stored "deadzone" self' = stored "deadzone" self
    /\ exists d', analog_settings self' = VDict d'.
Proof.
  intros Hd.
  destruct (set_sensitivity_settings self d value Hd) as (self' & Hset & Hd').
  exists self'. split; [exact Hset|].
  split; [rewrite (stored_of_settings _ _ _ Hd'), dict_lookup_store_eq; reflexivity|].
  destruct (clamp_in_range 0.5 2.0 value eq_refl) as [H1 H2].
  split; [exact H1|]. split; [exact H2|]. split; [|eauto].
  rewrite (stored_of_settings _ _ _ Hd'), (stored_of_settings _ _ _ Hd).
  rewrite dict_lookup_store_ne by discriminate. reflexivity.
Qed.

(** C4, as stated, fails on [load_profile]: starting from the in-range
    settings of a new manager, loading a stored profile whose deadzone is
    0.9 stores 0.9, outside [[0, 0.5]]; and so does the constructor when
    that profile is the active one. *)
Lemma C4_load_profile_stores_unclamped :
  analog_in_range fresh = true
  /\ (exists self',
        load_profile (Some wild_store) fresh (Some "wild") = Ok self'
        /\ stored "deadzone" self' = Some 0.9%float
        /\ analog_in_range self' = false)
  /\ exists self',
       init (Some {| ConfigManager.config_dir := ConfigManager.config_dir wild_store;
                     ConfigManager.active_profile := Some "wild";
                     ConfigManager.profiles_dir := ConfigManager.profiles_dir wild_store;
                     ConfigManager.files := ConfigManager.files wild_store;
                     ConfigManager.resolve := ConfigManager.resolve wild_store |})
       = Ok self'
       /\ stored "deadzone" self' = Some 0.9%float
       /\ analog_in_range self' = false.
Proof.
  split; [reflexivity|]. split.
  - eexists. split; [vm_compute; reflexivity|]. split; reflexivity.
  - eexists. split; [vm_compute; reflexivity|]. split; reflexivity.
Qed.

(** C4, amended. On a manager whose analog settings are a dict,
    [set_deadzone] and [set_sensitivity] accept every float and store its
    clamp [max(lo, min(hi, value))], which lies in [[0, 0.5]] for the
    deadzone and in [[0.5, 2.0]] for the sensitivity, and each leaves the
    other number as it was; so once both setters have run, both numbers are
    in range, whatever was stored before. [set_deadzone(0.9)] stores 0.5
    and [set_deadzone(-1)] stores 0.0. [reset_to_defaults], and a manager
    constructed without a config manager, store 0.2 and 1.0.
    [load_profile] installs the analog settings of the stored profile as
    they are. *)
Theorem C4_setters_clamp (self : t) (d : items) (value other : float)
    (Hd : analog_settings self = VDict d) :
  (exists self',
     set_deadzone self value = Ok self'
     /\ stored "deadzone" self' = Some (py_max 0.0 (py_min 0.5 value))
     /\ (0 <=? py_max 0.0 (py_min 0.5 value))%float = true
     /\ (py_max 0.0 (py_min 0.5 value) <=? 0.5)%float = true
     /\ stored "sensitivity" self' = stored "sensitivity" self)
  /\ (exists self',
        set_sensitivity self value = Ok self'
        /\ stored "sensitivity" self' = Some (py_max 0.5 (py_min 2.0 value))
        /\ (0.5 <=? py_max 0.5 (py_min 2.0 value))%float = true
        /\ (py_max 0.5 (py_min 2.0 value) <=? 2.0)%float = true
        /\ stored "deadzone" self' = stored "deadzone" self)
  /\ (exists self1 self2,
        set_deadzone self value = Ok self1
        /\ set_sensitivity self1 other = Ok self2
        /\ analog_in_range self2 = true)
  /\ (exists self',
        set_deadzone self 0.9 = Ok self' /\ stored "deadzone" self' = Some 0.5%float)
  /\ (exists self',
        set_deadzone self (-1) = Ok self' /\ stored "deadzone" self' = Some 0%float)
  /\ stored "deadzone" (reset_to_defaults self) = Some 0.2%float
  /\ stored "sensitivity" (reset_to_defaults self) = Some 1%float
  /\ analog_in_range (reset_to_defaults self) = true
  /\ init None = Ok fresh
  /\ analog_in_range fresh = true
  /\ (forall cfg name p a,
        ConfigManager.get_gamepad_profile cfg name = Ok (VDict p) ->
        dict_lookup (KStr "analog") p = Some a ->
        exists self',
          load_profile (Some cfg) self name = Ok self' /\ analog_settings self' = a).
Proof.
  split.
  { destruct (set_deadzone_clamps self d value Hd) as (s' & H1 & H2 & H3 & H4 & H5 & _).
    eauto 10. }
  split.
  { destruct (set_sensitivity_clamps self d value Hd) as (s' & H1 & H2 & H3 & H4 & H5 & _).
    eauto 10. }
  split.
  { destruct (set_deadzone_clamps self d value Hd) as (s1 & H1 & H2 & H3 & H4 & _ & d1 & Hd1).
    destruct (set_sensitivity_clamps s1 d1 other Hd1) as (s2 & G1 & G2 & G3 & G4 & G5 & _).
    exists s1, s2. split; [exact H1|]. split; [exact G1|].
    unfold analog_in_range. rewrite G5, H2, G2, H3, H4, G3, G4. reflexivity. }
  split.
  { destruct (set_deadzone_clamps self d 0.9 Hd) as (s' & H1 & H2 & _). eauto. }
  split.
  { destruct (set_deadzone_clamps self d (-1) Hd) as (s' & H1 & H2 & _). eauto. }
  do 5 (split; [reflexivity|]).
  intros cfg name p a Hp Ha. unfold load_profile. rewrite Hp. cbn [rbind].
  destruct p as [|kv p]; [discriminate|]. cbn [py_truthy py_get rbind].
  rewrite Ha. eexists. split; reflexivity.
Qed.

Lemma C4_setters_clamp_witness :
  analog_settings fresh = VDict default_analog_settings
  /\ exists self',
       set_deadzone fresh 0.7 = Ok self'
       /\ stored "deadzone" self' = Some 0.5%float.
Proof.
  split; [reflexivity|].
  destruct (C4_setters_clamp fresh default_analog_settings 0.7 1 eq_refl)
    as ((s' & H1 & H2 & _) & _).
  exists s'. split; [exact H1|exact H2].
Defined.

End ClampingClaims.

(** ** The d-pad: hat readings as virtual buttons *)

Section Hat.
Import GamepadWorker.

Lemma poll_hat_unchanged (last : Z * Z) : poll_hat last last = (last, []).
Proof. unfold poll_hat. destruct (decide (last = last)); congruence. Qed.

Lemma poll_hat_changed (last hat : Z * Z) :
  hat ≠ last ->
  poll_hat last hat
  = (hat,
     match hat_buttons last with Some b => [button_released b] | None => [] end
     ++ match hat_buttons hat with Some b => [button_pressed b] | None => [] end).
Proof. intros Hne. unfold poll_hat. destruct (decide (hat = last)); congruence. Qed.

Lemma held_from_app (held : gset Z) (evs1 evs2 : list signal) :
  held_from held (evs1 ++ evs2) = held_from (held_from held evs1) evs2.
Proof. unfold held_from. apply fold_left_app. Qed.

Lemma size_held_of (hat : Z * Z) : (size (held_of hat) <= 1)%nat.
Proof.
  unfold held_of. destruct (hat_buttons hat).
  - rewrite size_singleton. lia.
  - rewrite size_empty. lia.
Qed.

Lemma size_le_one (c : Z) (X : gset Z) : X ⊆ {[c]} -> (size X <= 1)%nat.
Proof.
  intros H. apply subseteq_size in H. rewrite size_singleton in H. exact H.
Qed.

(** One reading: every prefix of what is emitted leaves at most one button
    held, and all of it leaves exactly the button of the new reading. *)
Lemma poll_hat_held (last hat : Z * Z) :
  held_from (held_of last) (snd (poll_hat last hat)) = held_of (fst (poll_hat last hat))
  /\ forall evs1 evs2,
       snd (poll_hat last hat) = evs1 ++ evs2 ->
       (size (held_from (held_of last) evs1) <= 1)%nat.
Proof.
  destruct (decide (hat = last)) as [->|Hne].
  - rewrite poll_hat_unchanged. simpl. split; [reflexivity|].
    intros evs1 evs2 H. symmetry in H. apply app_eq_nil in H as [-> _].
    apply size_held_of.
  - rewrite (poll_hat_changed _ _ Hne). cbn [fst snd]. unfold held_of.
    destruct (hat_buttons last) as [b|], (hat_buttons hat) as [b'|]; cbn [app];
      (split; [unfold held_from; cbn [fold_left hold]; set_solver|]);
      intros evs1 evs2 H;
      destruct evs1 as [|e1 [|e2 [|e3 evs1]]]; cbn [app] in H; simplify_eq;
      unfold held_from; cbn [fold_left hold].
    + apply (size_le_one b). set_solver.
    + apply (size_le_one b). set_solver.
    + apply (size_le_one b'). set_solver.
    + apply (size_le_one b). set_solver.
    + apply (size_le_one b). set_solver.
    + apply (size_le_one b'). set_solver.
    + apply (size_le_one b'). set_solver.
    + apply (size_le_one 0). set_solver.
Qed.

Lemma poll_hats_cons (last hat : Z * Z) (hs : list (Z * Z)) :
  poll_hats last (hat :: hs)
  = (fst (poll_hats (fst (poll_hat last hat)) hs),
     snd (poll_hat last hat) ++ snd (poll_hats (fst (poll_hat last hat)) hs)).
Proof.
  simpl. destruct (poll_hat last hat) as [l1 e1]. simpl.
  destruct (poll_hats l1 hs) as [l2 e2]. reflexivity.
Qed.

(** Any run of readings, from any stored reading. *)
Lemma poll_hats_held (hs : list (Z * Z)) (last : Z * Z) :
  held_from (held_of last) (snd (poll_hats last hs)) = held_of (fst (poll_hats last hs))
  /\ forall evs1 evs2,
       snd (poll_hats last hs) = evs1 ++ evs2 ->
       (size (held_from (held_of last) evs1) <= 1)%nat.
Proof.
  revert last. induction hs as [|hat hs IH]; intros last.
  - simpl. split; [reflexivity|].
    intros evs1 evs2 H. symmetry in H. apply app_eq_nil in H as [-> _].
    apply size_held_of.
  - rewrite poll_hats_cons. cbn [fst snd].
    destruct (poll_hat_held last hat) as [Hend Hpre].
    destruct (IH (fst (poll_hat last hat))) as [IHend IHpre].
    split.
    + rewrite held_from_app, Hend. exact IHend.
    + intros evs1 evs2 H. apply app_eq_app in H as [l [[H1 H2]|[H1 H2]]].
      * eapply Hpre. exact H1.
      * rewrite H1, held_from_app, Hend. eapply IHpre. exact H2.
Qed.

End Hat.

Section HatClaims.
Import GamepadWorker.

(** C1, as stated, fails: hat (0,1) and hat (1,1) both stand for virtual
    button 12, yet the transition from one to the other emits a release and
    a press of button 12, for the worker compares the raw readings. *)
Lemma C1_same_direction_reemits :
  hat_buttons (0, 1) = Some 12
  /\ hat_buttons (1, 1) = Some 12
  /\ poll_hat (0, 1) (1, 1) = ((1, 1), [button_released 12; button_pressed 12])
  /\ snd (ticks init [pad (0, 1); pad (1, 1)])
     = [connected "pad"; button_pressed 12; button_released 12; button_pressed 12].
Proof. repeat split; reflexivity. Qed.

(** C1, amended: when the previous and the new reading stand for the same
    virtual button [b], the worker emits nothing if the two readings are
    equal, and release([b]) followed by press([b]) if they differ. *)
Theorem C1_collapsed_transition (last hat : Z * Z) (b : Z)
    (Hlast : hat_buttons last = Some b) (Hhat : hat_buttons hat = Some b) :
  snd (poll_hat last hat)
  = if decide (hat = last) then [] else [button_released b; button_pressed b].
Proof.
  destruct (decide (hat = last)) as [->|Hne].
  - rewrite poll_hat_unchanged. reflexivity.
  - rewrite (poll_hat_changed _ _ Hne), Hlast, Hhat. reflexivity.
Qed.

Lemma C1_collapsed_transition_witness :
  hat_buttons (0, 1) = Some 12
  /\ hat_buttons (1, 1) = Some 12
  /\ snd (poll_hat (0, 1) (1, 1)) = [button_released 12; button_pressed 12].
Proof.
  split; [reflexivity|]. split; [reflexivity|].
  exact (C1_collapsed_transition (0, 1) (1, 1) 12 eq_refl eq_refl).
Defined.

(** C6: on a change of hat reading the release of the previous direction's
    button (when mapped) comes before the press of the new one (when
    mapped); along any run of readings from the initial state, after every
    emitted signal at most one virtual d-pad button is held; and from hat
    (0,0), going to (0,1) emits press(12), then to (-1,0) emits release(12)
    then press(14), then to (0,0) emits release(14), and staying there
    emits nothing. *)
Theorem C6_release_before_press (hs : list (Z * Z)) (evs1 evs2 : list signal)
    (Hrun : snd (poll_hats (last_hat_state init) hs) = evs1 ++ evs2) :
  (forall last hat, hat ≠ last ->
     snd (poll_hat last hat)
     = match hat_buttons last with Some b => [button_released b] | None => [] end
       ++ match hat_buttons hat with Some b => [button_pressed b] | None => [] end)
  /\ (size (held_after evs1) <= 1)%nat
  /\ poll_hat (0, 0) (0, 1) = ((0, 1), [button_pressed 12])
  /\ poll_hat (0, 1) (-1, 0) = ((-1, 0), [button_released 12; button_pressed 14])
  /\ poll_hat (-1, 0) (0, 0) = ((0, 0), [button_released 14])
  /\ poll_hat (0, 0) (0, 0) = ((0, 0), [])
  /\ snd (ticks init [pad (0, 1); pad (-1, 0); pad (0, 0); pad (0, 0)])
     = [connected "pad"; button_pressed 12; button_released 12;
        button_pressed 14; button_released 14].
Proof.
  split.
  { intros last hat Hne. rewrite (poll_hat_changed _ _ Hne). reflexivity. }
  split.
  { destruct (poll_hats_held hs (last_hat_state init)) as [_ Hpre].
    exact (Hpre evs1 evs2 Hrun). }
  repeat split; reflexivity.
Qed.

Lemma C6_release_before_press_witness :
  snd (poll_hats (last_hat_state init) [(0, 1); (-1, 0)])
  = [button_pressed 12; button_released 12] ++ [button_pressed 14]
  /\ (size (held_after [button_pressed 12; button_released 12]) <= 1)%nat.
Proof.
  split; [reflexivity|].
  exact (proj1 (proj2
    (C6_release_before_press [(0, 1); (-1, 0)]
       [button_pressed 12; button_released 12] [button_pressed 14] eq_refl))).
Defined.

End HatClaims.

(** ** Buttons: lookup in the active mapping *)

Section Buttons.
Import GamepadManager.

(** On a well-formed mapping the handler is a plain dictionary lookup under
    the integer key: it fires exactly when that key is bound to something
    other than ['none']. *)
Lemma on_button_pressed_lookup (self : t) (d : items) (i : Z) :
  mappings self = VDict d ->
  _on_button_pressed self i
  = Ok match dict_lookup (KInt i) d with
       | Some action =>
           if py_ne_str action "none" then [button_pressed (c_int i) action] else []
       | None => []
       end.
Proof.
  intros Hd. unfold _on_button_pressed. rewrite Hd. simpl.
  destruct (dict_lookup (KInt i) d) as [action|]; [|reflexivity].
  destruct (py_ne_str action "none"); reflexivity.
Qed.

Lemma steam_deck_buttons_no_int_key (i : Z) :
  dict_lookup (KInt i) ConfigManager.steam_deck_buttons = None.
Proof.
  unfold ConfigManager.steam_deck_buttons. simpl.
  repeat (destruct (decide _); [discriminate|]). reflexivity.
Qed.

(** C2 fails on a loaded profile. The stored built-in profile binds button
    12 to ['nav_up'] under the JSON key ["12"]; a manager built on that
    store installs this table as it is, the handler looks up the integer
    12, finds nothing, and no button at all fires any more. The same press
    on a manager without a store fires ['nav_up']; and a manager that saves
    its built-in mapping and loads it back has lost the binding too. *)
Theorem C2_loaded_profile_never_fires :
  ConfigManager.get_gamepad_profile first_run None
  = Ok (ConfigManager.default_profile "Default (Steam Deck)" 0.2)
  /\ dict_lookup (KStr "12") ConfigManager.steam_deck_buttons = Some (VStr "nav_up")
  /\ (exists self,
        init (Some first_run) = Ok self
        /\ mappings self = VDict ConfigManager.steam_deck_buttons
        /\ _on_button_pressed self 12 = Ok []
        /\ forall i, _on_button_pressed self i = Ok [])
  /\ (exists self,
        init None = Ok self
        /\ _on_button_pressed self 12 = Ok [button_pressed 12 (VStr "nav_up")])
  /\ (exists cfg self,
        save_profile (Some first_run) fresh "mine" = Ok (Some cfg)
        /\ load_profile (Some cfg) fresh (Some "mine") = Ok self
        /\ _on_button_pressed fresh 12 = Ok [button_pressed 12 (VStr "nav_up")]
        /\ _on_button_pressed self 12 = Ok []).
Proof.
  split; [vm_compute; reflexivity|]. split; [reflexivity|]. split; [|split].
  - eexists. split; [vm_compute; reflexivity|]. split; [reflexivity|].
    split; [reflexivity|].
    intros i. erewrite on_button_pressed_lookup by reflexivity.
    rewrite steam_deck_buttons_no_int_key. reflexivity.
  - eexists. split; reflexivity.
  - eexists. eexists. split; [reflexivity|].
    split; [vm_compute; reflexivity|]. split; reflexivity.
Qed.

End Buttons.

(** ** Axes: deadzone, sensitivity, inversion, names *)

Section Axes.
Import GamepadManager.

Lemma axis_name_generic (i : Z) :
  i < 0 \/ 3 < i -> axis_name i = "axis_" +:+ pretty i.
Proof.
  intros Hi. unfold axis_name, axis_names. simpl.
  repeat (destruct (decide _); [simpl in *; lia|]). reflexivity.
Qed.

Lemma on_axis_moved_value (self : t) (d : items) (i : Z) (v s : float) (inv : bool) :
  analog_settings self = VDict d ->
  dict_lookup (KStr "sensitivity") d = Some (VFloat s) ->
  dict_lookup (KStr "invert_y") d = Some (VBool inv) ->
  _on_axis_moved self i v
  = Ok [axis_moved (axis_name i)
          (if inv && bool_decide (i = 1 \/ i = 3)%Z then - (v * s) else v * s)%float].
Proof.
  intros Hd Hs Hi. unfold _on_axis_moved, py_getitem. rewrite Hd, Hs, Hi. simpl.
  replace (bool_decide (i ∈ [1; 3])) with (bool_decide (i = 1 \/ i = 3)).
  - reflexivity.
  - apply bool_decide_ext. rewrite !elem_of_cons, elem_of_nil. tauto.
Qed.

Lemma deliver_all_app (self : t) (ss1 ss2 : list GamepadWorker.signal) :
  deliver_all self (ss1 ++ ss2)
  = (r1 <-! deliver_all self ss1;
     r2 <-! deliver_all (fst r1) ss2;
     Ok (fst r2, snd r1 ++ snd r2)).
Proof.
  revert self. induction ss1 as [|s ss1 IH]; intros self.
  - cbn [app deliver_all rbind fst snd].
    destruct (deliver_all self ss2) as [[self2 out2]|e]; reflexivity.
  - cbn [app deliver_all]. destruct (deliver self s) as [[self1 out1]|e]; [|reflexivity].
    cbn [rbind fst snd]. rewrite IH.
    destruct (deliver_all self1 ss1) as [[self2 out2]|e]; [|reflexivity].
    cbn [rbind fst snd].
    destruct (deliver_all self2 ss2) as [[self3 out3]|e]; [|reflexivity].
    cbn [rbind fst snd]. rewrite app_assoc. reflexivity.
Qed.

(** The worker's test [abs(value) > deadzone] against the specification's
    [|v| <= deadzone], for a reading in [[-1, 1]] and a deadzone that is a
    number. *)
Lemma beyond_deadzone_spec (deadzone v : float) :
  axis_reading v -> (deadzone =? deadzone)%float = true ->
  (deadzone <? abs v)%float = negb (abs v <=? deadzone)%float.
Proof.
  intros [Hlo _] Hdz.
  destruct (abs v <=? deadzone)%float eqn:Hle; cbn [negb].
  - apply float_leb_not_gtb. exact Hle.
  - destruct (float_leb_or_gtb (abs v) deadzone) as [H|H];
      [exact (float_bounded_abs_not_nan _ _ Hlo)|exact Hdz|congruence|exact H].
Qed.

(** The axis loop of the worker followed by the manager's handler, against
    the events the specification asks for, with the deadzone that the
    worker holds. *)
Lemma deliver_axes (self : t) (d : items) (s : float) (inv : bool)
    (deadzone : float) (vs : list float) (i : Z) :
  analog_settings self = VDict d ->
  dict_lookup (KStr "sensitivity") d = Some (VFloat s) ->
  dict_lookup (KStr "invert_y") d = Some (VBool inv) ->
  Forall axis_reading vs ->
  (deadzone =? deadzone)%float = true ->
  deliver_all self (GamepadWorker.poll_axes deadzone i vs)
  = Ok (self, spec_axis_events deadzone s inv i vs).
Proof.
  intros Hd Hs Hi Hvs Hdz. revert i.
  induction Hvs as [|v vs Hv _ IH]; intros i; [reflexivity|].
  cbn [GamepadWorker.poll_axes spec_axis_events]. rewrite deliver_all_app.
  unfold GamepadWorker.poll_axis, spec_axis_event.
  rewrite (beyond_deadzone_spec deadzone v Hv Hdz).
  destruct (abs v <=? deadzone)%float; cbn [negb].
  - cbn [deliver_all rbind fst snd]. rewrite IH. reflexivity.
  - cbn [deliver_all deliver rbind fst snd].
    rewrite (on_axis_moved_value self d i v s inv Hd Hs Hi).
    cbn [rbind fst snd]. rewrite IH. reflexivity.
Qed.

(** C3 holds of the deadzone that the worker holds, which is not the
    configured one. Over a pass of the polling loop on a joystick with
    axes, delivered to the manager, the events are those of the
    specification for the worker's own deadzone: none for a reading with
    [|v| <= deadzone], one for any other reading, carrying [v] times the
    configured sensitivity, negated when [invert_y] is set and the axis is
    1 or 3, under the name left_x, left_y, right_x, right_y for axes 0..3
    and ["axis_<i>"] otherwise. [set_deadzone] copies the configured
    deadzone to a worker that exists; but [start] creates the worker with
    0.2 and copies nothing. After [set_deadzone(0.1)] and [start], a
    reading of 0.15 exceeds the configured deadzone and gives no event;
    on the built-in profile ['xbox'], whose deadzone is 0.15, a reading
    of 0.18 gives none either. *)
Theorem C3_start_ignores_configured_deadzone :
  (forall (self : t) (w : GamepadWorker.t) (j : string) (d : items)
          (s : float) (inv : bool) (vs : list float),
     worker self = Some w ->
     GamepadWorker.joystick w = Some j ->
     analog_settings self = VDict d ->
     dict_lookup (KStr "sensitivity") d = Some (VFloat s) ->
     dict_lookup (KStr "invert_y") d = Some (VBool inv) ->
     Forall axis_reading vs ->
     (GamepadWorker.deadzone w =? GamepadWorker.deadzone w)%float = true ->
     deliver_all self (snd (GamepadWorker.tick w (sticks vs)))
     = Ok (self, spec_axis_events (GamepadWorker.deadzone w) s inv 0 vs))
  /\ axis_name 0 = "left_x" /\ axis_name 1 = "left_y"
  /\ axis_name 2 = "right_x" /\ axis_name 3 = "right_y"
  /\ (forall i, i < 0 \/ 3 < i -> axis_name i = "axis_" +:+ pretty i)
  /\ (forall (self : t) (w : GamepadWorker.t) (d : items) (value : float),
        worker self = Some w ->
        analog_settings self = VDict d ->
        exists self' w',
          set_deadzone self value = Ok self'
          /\ worker self' = Some w'
          /\ stored "deadzone" self' = Some (GamepadWorker.deadzone w'))
  /\ (forall self, GamepadWorker.deadzone <$> worker (start true self) = Some 0.2%float)
  /\ (exists self w,
        (self' <-! set_deadzone fresh 0.1; Ok (start true self')) = Ok self
        /\ stored "deadzone" self = Some 0.1%float
        /\ worker self = Some w
        /\ GamepadWorker.deadzone w = 0.2%float
        /\ deliver_all self (snd (GamepadWorker.ticks w [sticks []; sticks [0.15%float]]))
           = Ok (fst (_on_connected self "pad"), [gamepad_connected "pad"])
        /\ spec_axis_events 0.1 1 false 0 [0.15%float] = [axis_moved "left_x" 0.15])
  /\ (exists self w,
        (self' <-! load_profile (Some first_run) fresh (Some "xbox"); Ok (start true self'))
        = Ok self
        /\ stored "deadzone" self = Some 0.15%float
        /\ worker self = Some w
        /\ GamepadWorker.deadzone w = 0.2%float
        /\ deliver_all self (snd (GamepadWorker.ticks w [sticks []; sticks [0.18%float]]))
           = Ok (fst (_on_connected self "pad"), [gamepad_connected "pad"])
        /\ spec_axis_events 0.15 1 false 0 [0.18%float] = [axis_moved "left_x" 0.18]).
Proof.
  split.
  { intros self w j d s inv vs _ Hj Hd Hs Hi Hvs Hdz.
    unfold GamepadWorker.tick. rewrite Hj. cbn. rewrite app_nil_r.
    apply (deliver_axes self d s inv _ vs 0 Hd Hs Hi Hvs Hdz). }
  do 4 (split; [reflexivity|]).
  split; [exact axis_name_generic|].
  split.
  { intros self w d value Hw Hd. unfold set_deadzone. rewrite Hd.
    cbn [py_setitem rbind worker with_analog_settings]. rewrite Hw.
    eexists. eexists. split; [reflexivity|]. split; [reflexivity|].
    unfold stored. cbn [analog_settings with_worker with_analog_settings].
    rewrite dict_lookup_store_eq. reflexivity. }
  split; [reflexivity|].
  split.
  - eexists. eexists. split; [vm_compute; reflexivity|].
    split; [reflexivity|]. split; [reflexivity|]. split; [reflexivity|].
    split; vm_compute; reflexivity.
  - eexists. eexists. split; [vm_compute; reflexivity|].
    split; [reflexivity|]. split; [reflexivity|]. split; [reflexivity|].
    split; vm_compute; reflexivity.
Qed.

End Axes.

(** ** Tabs *)

Section Tabs.
Import MainWindow.

(** C10: with [n > 0] tabs and current index [c], [next_tab] moves to
    [(c + 1) mod n] and [prev_tab] to [(c - 1) mod n]; from the first tab
    [prev_tab] lands on the last one, from the last tab [next_tab] lands on
    the first. *)
Theorem C10_tabs_wrap (tabs : QTabWidget) (Hn : 0 < count tabs) :
  next_tab tabs
  = Ok {| count := count tabs; currentIndex := (currentIndex tabs + 1) mod count tabs |}
  /\ prev_tab tabs
     = Ok {| count := count tabs; currentIndex := (currentIndex tabs - 1) mod count tabs |}
  /\ (currentIndex tabs = 0 ->
      prev_tab tabs = Ok {| count := count tabs; currentIndex := count tabs - 1 |})
  /\ (currentIndex tabs = count tabs - 1 ->
      next_tab tabs = Ok {| count := count tabs; currentIndex := 0 |}).
Proof.
  assert (Hstep : forall a,
    (new_index <-! py_mod a (count tabs); Ok (setCurrentIndex tabs new_index))
    = Ok {| count := count tabs; currentIndex := a mod count tabs |}).
  { intros a. unfold py_mod.
    destruct (count tabs =? 0) eqn:E; [apply Z.eqb_eq in E; lia|].
    simpl. unfold setCurrentIndex.
    pose proof (Z.mod_pos_bound a (count tabs) Hn) as [H1 H2].
    apply Z.leb_le in H1. apply Z.ltb_lt in H2. rewrite H1, H2. reflexivity. }
  unfold next_tab, prev_tab. rewrite !Hstep.
  split; [reflexivity|]. split; [reflexivity|]. split.
  - intros ->. do 2 f_equal. symmetry.
    apply (Z.mod_unique_pos _ _ (-1)); lia.
  - intros ->. do 2 f_equal.
    replace (count tabs - 1 + 1) with (count tabs) by lia.
    apply Z_mod_same_full.
Qed.

Lemma C10_tabs_wrap_witness :
  0 < 7
  /\ prev_tab {| count := 7; currentIndex := 0 |} = Ok {| count := 7; currentIndex := 6 |}
  /\ next_tab {| count := 7; currentIndex := 6 |} = Ok {| count := 7; currentIndex := 0 |}.
Proof.
  split; [reflexivity|]. split.
  - exact (proj1 (proj2 (proj2
      (C10_tabs_wrap {| count := 7; currentIndex := 0 |} eq_refl))) eq_refl).
  - exact (proj2 (proj2 (proj2
      (C10_tabs_wrap {| count := 7; currentIndex := 6 |} eq_refl))) eq_refl).
Defined.

End Tabs.

(** ** Spatial navigation *)

Section Navigation.
Import MainWindow.

(** Running the loop over the filtered list is running [pick] over all
    children. *)
Lemma fold_visit_filter (direction : string) (current : QWidget)
    (l : list QWidget) (acc : option QWidget * option Z) :
  fold_left (visit direction (center current))
    (filter (fun w => is_focusable current w = true) l) acc
  = fold_left (pick direction current) l acc.
Proof.
  revert acc. induction l as [|w l IH]; intros acc; [reflexivity|].
  rewrite filter_cons. cbn [fold_left].
  unfold pick at 2, cand_score.
  destruct (decide (is_focusable current w = true)) as [Hf|Hf].
  - rewrite Hf. cbn [fold_left]. rewrite IH. reflexivity.
  - apply not_true_is_false in Hf. rewrite Hf. apply IH.
Qed.

Lemma navigate_focus_fold (current : QWidget) (l : list QWidget) (direction : string) :
  _navigate_focus (Some current) l direction
  = if widget_truthy current then
      match fst (fold_left (pick direction current) l (None, None)) with
      | Some best => if widget_truthy best then SetFocus best else NoChange
      | None => NoChange
      end
    else FocusNextChild.
Proof.
  unfold _navigate_focus. rewrite <- fold_visit_filter.
  destruct (widget_truthy current); [|reflexivity].
  destruct (filter _ l); reflexivity.
Qed.

Lemma fold_pick_first_min (direction : string) (current : QWidget) (l : list QWidget) :
  first_min direction current l (fold_left (pick direction current) l (None, None)).
Proof.
  induction l as [|x l IH] using rev_ind.
  - left. split; [reflexivity|]. intros x Hx. inversion Hx.
  - rewrite fold_left_app. cbn [fold_left].
    destruct IH as [[Hacc Hnone]|(before & w & after & s & Hacc & Hl & Hw & Hb & Ha)];
      rewrite Hacc; unfold pick; destruct (cand_score direction current x) as [sx|] eqn:Hx.
    + right. exists l, x, [], sx. cbn [snd score_lt].
      split; [reflexivity|]. split; [reflexivity|]. split; [exact Hx|]. split.
      * intros y sy Hy Hsy. rewrite (Hnone y Hy) in Hsy. discriminate.
      * intros y sy Hy. inversion Hy.
    + left. split; [reflexivity|]. intros y Hy.
      apply elem_of_app in Hy as [Hy|Hy]; [exact (Hnone y Hy)|].
      apply list_elem_of_singleton in Hy. subst y. exact Hx.
    + right. cbn [snd score_lt]. destruct (sx <? s) eqn:Hlt.
      * apply Z.ltb_lt in Hlt. exists l, x, [], sx.
        split; [reflexivity|]. split; [reflexivity|]. split; [exact Hx|]. split.
        -- intros y sy Hy Hsy. subst l.
           apply elem_of_app in Hy as [Hy|Hy].
           ++ specialize (Hb y sy Hy Hsy). lia.
           ++ apply elem_of_cons in Hy as [->|Hy].
              ** rewrite Hw in Hsy. injection Hsy as <-. exact Hlt.
              ** specialize (Ha y sy Hy Hsy). lia.
        -- intros y sy Hy. inversion Hy.
      * apply Z.ltb_ge in Hlt. exists before, w, (after ++ [x]), s.
        split; [reflexivity|]. split; [subst l; rewrite <- app_assoc; reflexivity|].
        split; [exact Hw|]. split; [exact Hb|].
        intros y sy Hy Hsy. apply elem_of_app in Hy as [Hy|Hy].
        -- exact (Ha y sy Hy Hsy).
        -- apply list_elem_of_singleton in Hy. subst y.
           rewrite Hx in Hsy. injection Hsy as <-. exact Hlt.
    + right. exists before, w, (after ++ [x]), s.
      split; [reflexivity|]. split; [subst l; rewrite <- app_assoc; reflexivity|].
      split; [exact Hw|]. split; [exact Hb|].
      intros y sy Hy Hsy. apply elem_of_app in Hy as [Hy|Hy].
      -- exact (Ha y sy Hy Hsy).
      -- apply list_elem_of_singleton in Hy. subst y.
         rewrite Hx in Hsy. discriminate.
Qed.

(** The tests of the source against the rule in the specification's words. *)
Lemma direction_score_spec (d : direction) (dx dy s : Z) :
  direction_score (direction_name d) dx dy = Some s
  <-> spec_in_direction d dx dy /\ s = spec_score d dx dy.
Proof.
  unfold direction_score.
  destruct d; cbn [direction_name String.eqb Ascii.eqb Bool.eqb andb
                   spec_in_direction spec_score].
  - destruct (20 <? dy) eqn:E.
    + apply Z.ltb_lt in E. split; [intros [= <-]|intros [_ ->]; f_equal]; lia.
    + apply Z.ltb_ge in E. split; [discriminate|lia].
  - destruct (dy <? -20) eqn:E.
    + apply Z.ltb_lt in E. split; [intros [= <-]|intros [_ ->]; f_equal]; lia.
    + apply Z.ltb_ge in E. split; [discriminate|lia].
  - destruct (20 <? dx) eqn:E.
    + apply Z.ltb_lt in E. split; [intros [= <-]|intros [_ ->]; f_equal]; lia.
    + apply Z.ltb_ge in E. split; [discriminate|lia].
  - destruct (dx <? -20) eqn:E.
    + apply Z.ltb_lt in E. split; [intros [= <-]|intros [_ ->]; f_equal]; lia.
    + apply Z.ltb_ge in E. split; [discriminate|lia].
Qed.

Lemma cand_score_spec (d : direction) (current w : QWidget) (s : Z) :
  cand_score (direction_name d) current w = Some s
  <-> spec_candidate d current w /\ s = spec_score_of d current w.
Proof.
  unfold cand_score, spec_candidate, spec_score_of, is_focusable.
  destruct (isVisible w), (isEnabled w); cbn [andb];
    try (split; [discriminate|intros [(? & ? & _) _]; discriminate]).
  destruct (decide (focusPolicy w ≠ NoFocus)) as [Hp|Hp].
  - rewrite (bool_decide_eq_true_2 _ Hp). cbn [andb].
    destruct (decide (wid w ≠ wid current)) as [Hi|Hi].
    + rewrite (bool_decide_eq_true_2 _ Hi). rewrite direction_score_spec. tauto.
    + rewrite (bool_decide_eq_false_2 _ Hi). split; [discriminate|tauto].
  - rewrite (bool_decide_eq_false_2 _ Hp). cbn [andb]. split; [discriminate|tauto].
Qed.

(** C5 holds when the focused widget and the chosen candidate are true
    as Python values, and fails when one of them is an empty [QComboBox]
    or [QListWidget], which [if not current:] and [if best:] take for no
    widget at all. From a focused element that is true, navigating in a
    direction looks only at eligible candidates whose displacement exceeds
    20 units along the direction's primary axis, scores each as the
    distance along that axis plus twice the distance along the other one,
    and picks the first candidate in traversal order whose score is
    minimal: it is focused if it is true, and nothing moves if it is false
    (or if there is no candidate). From a focused element that is false
    the candidates are not looked at and the toolkit's focus-advance is
    called, as if nothing were focused. With the current element at
    (100,100) and candidates at (100,200), (300,100) and (50,50), going
    down selects (100,200); with an empty combo box as the current element
    it calls the focus-advance; with an empty list as the candidate at
    (100,200) nothing moves, although (100,300) is a candidate too. *)
Theorem C5_navigate_takes_empty_widgets_for_none (d : direction) (current : QWidget)
    (children : list QWidget) :
  (widget_truthy current = true ->
   (exists before w after,
      children = before ++ w :: after
      /\ spec_candidate d current w
      /\ (forall x, x ∈ before -> spec_candidate d current x ->
            spec_score_of d current w < spec_score_of d current x)
      /\ (forall x, x ∈ after -> spec_candidate d current x ->
            spec_score_of d current w <= spec_score_of d current x)
      /\ _navigate_focus (Some current) children (direction_name d)
         = if widget_truthy w then SetFocus w else NoChange)
   \/ ((forall x, x ∈ children -> ~ spec_candidate d current x)
       /\ _navigate_focus (Some current) children (direction_name d) = NoChange))
  /\ (widget_truthy current = false ->
      _navigate_focus (Some current) children (direction_name d) = FocusNextChild)
  /\ _navigate_focus None children (direction_name d) = FocusNextChild
  /\ direction_score "down" 0 100 = Some 100
  /\ direction_score "down" 200 0 = None
  /\ direction_score "down" (-50) (-50) = None
  /\ _navigate_focus (Some (widget_at 0 100 100))
       [widget_at 0 100 100; widget_at 1 100 200; widget_at 2 300 100; widget_at 3 50 50]
       "down"
     = SetFocus (widget_at 1 100 200)
  /\ _navigate_focus (Some (list_widget_at 0 100 100 0))
       [list_widget_at 0 100 100 0; widget_at 1 100 200; widget_at 2 300 100;
        widget_at 3 50 50]
       "down"
     = FocusNextChild
  /\ _navigate_focus (Some (widget_at 0 100 100))
       [widget_at 0 100 100; list_widget_at 1 100 200 0; widget_at 2 300 100;
        widget_at 3 50 50; widget_at 4 100 300]
       "down"
     = NoChange.
Proof.
  split; [|split; [|repeat split; reflexivity]].
  - intros Ht. rewrite navigate_focus_fold, Ht.
    destruct (fold_pick_first_min (direction_name d) current children)
      as [[Hacc Hnone]|(before & w & after & s & Hacc & Hl & Hw & Hb & Ha)];
      rewrite Hacc; cbn [fst].
    + right. split; [|reflexivity]. intros x Hx Hc.
      assert (Hs : cand_score (direction_name d) current x
                   = Some (spec_score_of d current x)).
      { apply cand_score_spec. split; [exact Hc|reflexivity]. }
      rewrite (Hnone x Hx) in Hs. discriminate.
    + left. apply cand_score_spec in Hw as [Hw ->].
      exists before, w, after. split; [exact Hl|]. split; [exact Hw|]. split; [|split].
      * intros x Hx Hc. apply (Hb x _ Hx).
        apply cand_score_spec. split; [exact Hc|reflexivity].
      * intros x Hx Hc. apply (Ha x _ Hx).
        apply cand_score_spec. split; [exact Hc|reflexivity].
      * reflexivity.
  - intros Hf. rewrite navigate_focus_fold, Hf. reflexivity.
Qed.

End Navigation.

(** ** Profiles: loading, importing, deleting *)

Section Strings.

Lemma substring_all (s : string) : String.substring 0 (String.length s) s = s.
Proof. induction s as [|c s IH]; simpl; [reflexivity|]. rewrite IH. reflexivity. Qed.

Lemma substring_split (s : string) (k : nat) :
  (k <= String.length s)%nat ->
  String.substring 0 k s +:+ String.substring k (String.length s - k) s = s.
Proof.
  revert k. induction s as [|c s IH]; intros k Hk.
  - simpl in Hk. assert (k = 0%nat) as -> by lia. reflexivity.
  - destruct k as [|k].
    + cbn [String.substring String.length Nat.sub String.append].
      rewrite substring_all. reflexivity.
    + simpl in Hk. simpl.
      change (String c (String.substring 0 k s
                          +:+ String.substring k (String.length s - k) s)
              = String c s).
      f_equal. apply IH. lia.
Qed.

Lemma endswith_split (s suffix : string) :
  endswith s suffix = true -> s = drop_last (String.length suffix) s +:+ suffix.
Proof.
  unfold endswith, drop_last. intros H.
  apply andb_true_iff in H as [Hlen Heq].
  apply Nat.leb_le in Hlen. apply String.eqb_eq in Heq.
  pose proof (substring_split s (String.length s - String.length suffix)) as Hs.
  replace (String.length s - (String.length s - String.length suffix))%nat
    with (String.length suffix) in Hs by lia.
  rewrite Heq in Hs. symmetry. apply Hs. lia.
Qed.

Lemma length_append (s1 s2 : string) :
  String.length (s1 +:+ s2) = (String.length s1 + String.length s2)%nat.
Proof.
  induction s1 as [|c s1 IH]; [reflexivity|].
  change (S (String.length (s1 +:+ s2)) = S (String.length s1 + String.length s2)).
  rewrite IH. reflexivity.
Qed.

Lemma substring_append_prefix (s1 s2 : string) :
  String.substring 0 (String.length s1) (s1 +:+ s2) = s1.
Proof.
  induction s1 as [|c s1 IH].
  - destruct s2; reflexivity.
  - change (String c (String.substring 0 (String.length s1) (s1 +:+ s2)) = String c s1).
    rewrite IH. reflexivity.
Qed.

Lemma substring_append_suffix (s1 s2 : string) :
  String.substring (String.length s1) (String.length s2) (s1 +:+ s2) = s2.
Proof.
  induction s1 as [|c s1 IH]; [apply substring_all|exact IH].
Qed.

Lemma endswith_append (s suffix : string) : endswith (s +:+ suffix) suffix = true.
Proof.
  unfold endswith. rewrite length_append.
  replace (String.length s + String.length suffix - String.length suffix)%nat
    with (String.length s) by lia.
  rewrite substring_append_suffix, String.eqb_refl, andb_true_r.
  apply Nat.leb_le. lia.
Qed.

Lemma drop_last_append (s suffix : string) :
  drop_last (String.length suffix) (s +:+ suffix) = s.
Proof.
  unfold drop_last. rewrite length_append.
  replace (String.length s + String.length suffix - String.length suffix)%nat
    with (String.length s) by lia.
  apply substring_append_prefix.
Qed.

Lemma append_json_inj (n1 n2 : string) : n1 +:+ ".json" = n2 +:+ ".json" -> n1 = n2.
Proof.
  intros H.
  rewrite <- (drop_last_append n1 ".json"), <- (drop_last_append n2 ".json"), H.
  reflexivity.
Qed.

End Strings.

Section StoreBasics.
Import ConfigManager.

(** What [get_gamepad_profile] returns, by what is at the profile's place. *)
Lemma get_gamepad_profile_eq (self : t) (name : option string) :
  get_gamepad_profile self name
  = match file_at self (profile_path self (requested self name)) with
    | Some (Document v) => Ok v
    | Some (Garbled _) => Ok VNone
    | Some (Unreadable e) => if caught e then Ok VNone else Raise e
    | None => Ok VNone
    end.
Proof.
  unfold get_gamepad_profile, os_path_exists, open_read, requested.
  destruct name as [n|];
    destruct (file_at self (profile_path self _)) as [[text|e|v]|]; reflexivity.
Qed.

(** The name of a file in the profile directory leads to that entry. *)
Lemma profile_path_filename (self : t) (name : string) :
  is_filename (name +:+ ".json") = true ->
  profile_path self name = Profile (name +:+ ".json").
Proof. intros H. unfold profile_path. cbv zeta. rewrite H. reflexivity. Qed.

Lemma profile_path_frame (self self' : t) (name : string) :
  config_dir self' = config_dir self -> resolve self' = resolve self ->
  profile_path self' name = profile_path self name.
Proof. intros Hc Hr. unfold profile_path. rewrite Hc, Hr. reflexivity. Qed.

(** Writing: the place holds what was written, every other place what it
    held, and the directories are as before. *)
Lemma open_write_spec (self self' : t) (p : place) (v : pyval) :
  open_write self p v = Ok self' ->
  file_at self' p = Some (Document (jsonify v))
  /\ (forall q, q <> p -> file_at self' q = file_at self q)
  /\ config_dir self' = config_dir self
  /\ active_profile self' = active_profile self
  /\ resolve self' = resolve self.
Proof.
  destruct p as [f|path|e]; cbn [open_write]; intros [= <-]; cbn.
  - split; [apply lookup_insert_eq|]. split; [|auto].
    intros [f'|path'|e'] Hq; cbn; [|reflexivity|reflexivity].
    apply lookup_insert_ne. congruence.
  - split; [apply lookup_insert_eq|]. split; [|auto].
    intros [f'|path'|e'] Hq; cbn; [reflexivity| |reflexivity].
    apply lookup_insert_ne. congruence.
Qed.

Lemma open_write_ok (self : t) (p : place) (v : pyval) :
  (forall e, p <> Nowhere e) -> exists self', open_write self p v = Ok self'.
Proof.
  intros Hp. destruct p as [f|path|e]; cbn [open_write]; eauto.
  exfalso. exact (Hp e eq_refl).
Qed.

(** Removing: the place holds nothing, every other place what it held. *)
Lemma os_remove_spec (self : t) (p : place) :
  file_at (os_remove self p) p = None
  /\ (forall q, q <> p -> file_at (os_remove self p) q = file_at self q)
  /\ config_dir (os_remove self p) = config_dir self
  /\ active_profile (os_remove self p) = active_profile self
  /\ resolve (os_remove self p) = resolve self.
Proof.
  destruct p as [f|path|e]; cbn.
  - split; [apply lookup_delete_eq|]. split; [|auto].
    intros [f'|path'|e'] Hq; cbn; [|reflexivity|reflexivity].
    apply lookup_delete_ne. congruence.
  - split; [apply lookup_delete_eq|]. split; [|auto].
    intros [f'|path'|e'] Hq; cbn; [reflexivity| |reflexivity].
    apply lookup_delete_ne. congruence.
  - auto.
Qed.

(** A name is listed exactly when the directory has the entry
    [name.json]. *)
Lemma listed_iff_entry (self : t) (name : string) :
  name ∈ get_profile_list self
  <-> is_filename (name +:+ ".json") = true
      /\ is_Some (profiles_dir self !! (name +:+ ".json")).
Proof.
  unfold get_profile_list, os_listdir. rewrite merge_sort_Permutation.
  rewrite list_elem_of_In, in_map_iff. split.
  - intros (filename & Hname & Hin).
    rewrite <- list_elem_of_In in Hin.
    apply list_elem_of_filter in Hin as [Hjson Hin].
    apply list_elem_of_filter in Hin as [Hfile Hin].
    rewrite list_elem_of_In, in_map_iff in Hin. destruct Hin as ([k v] & Hk & Hin).
    simpl in Hk. subst k. rewrite <- list_elem_of_In in Hin.
    apply elem_of_map_to_list in Hin.
    apply endswith_split in Hjson. simpl in Hjson. rewrite Hname in Hjson.
    rewrite <- Hjson. eauto.
  - intros [Hfile [content Hentry]]. exists (name +:+ ".json"). split.
    + apply (drop_last_append name ".json").
    + rewrite <- list_elem_of_In. apply list_elem_of_filter. split.
      * apply endswith_append.
      * apply list_elem_of_filter. split; [exact Hfile|].
        rewrite list_elem_of_In, in_map_iff. exists (name +:+ ".json", content).
        split; [reflexivity|]. rewrite <- list_elem_of_In.
        apply elem_of_map_to_list. exact Hentry.
Qed.

(** A listed name has its file at the place its name leads to. *)
Lemma listed_has_file (self : t) (name : string) :
  name ∈ get_profile_list self ->
  profile_path self name = Profile (name +:+ ".json")
  /\ is_Some (file_at self (profile_path self name)).
Proof.
  intros H. apply listed_iff_entry in H as [Hfile Hentry].
  rewrite (profile_path_filename self name Hfile). auto.
Qed.

End StoreBasics.

Section Loading.
Import GamepadManager.


(** A stored document that parses but is no object makes [load_profile]
    raise: a JSON array has no [get]. *)
Lemma load_profile_of_array_raises :
  load_profile (Some cluttered_store) fresh (Some "list") = Raise AttributeError.
Proof. vm_compute. reflexivity. Qed.




End Loading.

Section Importing.
Import ConfigManager.

(** A path that cannot be opened, or that holds text that is no JSON:
    failure, nothing written. *)
Lemma import_unparseable (self : t) (import_path name : string) :
  (file_at self (resolve self import_path) = None
   /\ (forall e, resolve self import_path = Nowhere e -> caught e = true))
  \/ (exists text, file_at self (resolve self import_path) = Some (Garbled text)) ->
  import_profile self import_path name = Ok (false, self).
Proof.
  intros [[H He]|[text H]]; unfold import_profile, open_read; rewrite H; [|reflexivity].
  cbn [rbind]. destruct (resolve self import_path) as [f|path|e]; try reflexivity.
  rewrite (He e eq_refl). reflexivity.
Qed.

(** C8 fails on a file that holds valid JSON but not an object: for the
    array [[1, 2]] the assignment [profile['name'] = name] raises a
    [TypeError] that the handler does not catch, so the caller gets an
    exception instead of [False]; and so for every document that is no
    object. It fails too on a file of bytes that are no text, where
    reading raises [UnicodeDecodeError]. Nothing is written on the way.
    Text that is no JSON and a missing file do give [False]. *)
Theorem C8_import_of_array_raises :
  files cluttered_store !! "/tmp/list.json" = Some (Document (VList [VInt 1; VInt 2]))
  /\ import_profile cluttered_store "/tmp/list.json" "racing" = Raise TypeError
  /\ import_profile cluttered_store "/tmp/notes.txt" "racing" = Ok (false, cluttered_store)
  /\ import_profile cluttered_store "/tmp/absent.json" "racing" = Ok (false, cluttered_store)
  /\ import_profile cluttered_store "/tmp/blob.bin" "racing" = Raise UnicodeDecodeError
  /\ (forall self import_path name v,
        file_at self (resolve self import_path) = Some (Document v) ->
        (forall d, v <> VDict d) ->
        import_profile self import_path name = Raise TypeError)
  /\ (forall self import_path name e,
        file_at self (resolve self import_path) = Some (Unreadable e) ->
        caught e = false ->
        import_profile self import_path name = Raise e).
Proof.
  split; [vm_compute; reflexivity|]. split; [vm_compute; reflexivity|].
  split; [apply import_unparseable; right; eexists; vm_compute; reflexivity|].
  split; [apply import_unparseable; left; split;
          [vm_compute; reflexivity|vm_compute; discriminate]|].
  split; [vm_compute; reflexivity|]. split.
  - intros self import_path name v Hv Hnd. unfold import_profile, open_read.
    rewrite Hv. cbn [rbind json_load].
    destruct v; try reflexivity. exfalso. exact (Hnd d eq_refl).
  - intros self import_path name e Hf He. unfold import_profile, open_read.
    rewrite Hf. cbn [rbind json_load]. rewrite He. reflexivity.
Qed.

End Importing.

Section Deleting.
Import ConfigManager.

(** C9: deleting a built-in name returns [False] and changes nothing;
    deleting an existing profile of another name returns [True], removes
    its file only, and the name is no longer in the profile list; deleting
    a profile that does not exist returns [False] and changes nothing.
    [delete_gamepad_profile] is a total function here: no exception. On a
    store with a user profile ['racing']: deleting ['default'] is refused,
    deleting ['racing'] takes it off the list. *)
Theorem C9_delete_profile (self : t) (name : string) :
  (name ∈ builtin_names -> delete_gamepad_profile self name = (false, self))
  /\ (name ∉ builtin_names ->
      is_Some (file_at self (profile_path self name)) ->
      exists self',
        delete_gamepad_profile self name = (true, self')
        /\ self' = os_remove self (profile_path self name)
        /\ file_at self' (profile_path self name) = None
        /\ (forall q, q <> profile_path self name -> file_at self' q = file_at self q)
        /\ name ∉ get_profile_list self')
  /\ (name ∉ builtin_names ->
      file_at self (profile_path self name) = None ->
      delete_gamepad_profile self name = (false, self))
  /\ delete_gamepad_profile racing_store "default" = (false, racing_store)
  /\ delete_gamepad_profile racing_store "xbox" = (false, racing_store)
  /\ delete_gamepad_profile racing_store "playstation" = (false, racing_store)
  /\ get_profile_list racing_store = ["default"; "playstation"; "racing"; "xbox"]
  /\ get_profile_list (snd (delete_gamepad_profile racing_store "racing"))
     = ["default"; "playstation"; "xbox"]
  /\ fst (delete_gamepad_profile racing_store "racing") = true
  /\ fst (delete_gamepad_profile racing_store "ghost") = false.
Proof.
  split.
  { intros Hb. unfold delete_gamepad_profile.
    rewrite (bool_decide_eq_true_2 _ Hb). reflexivity. }
  split.
  { intros Hb [content Hfile]. unfold delete_gamepad_profile, os_path_exists.
    rewrite (bool_decide_eq_false_2 _ Hb). cbv zeta. rewrite Hfile.
    destruct (os_remove_spec self (profile_path self name)) as (H1 & H2 & H3 & _ & H5).
    eexists. split; [reflexivity|]. split; [reflexivity|].
    split; [exact H1|]. split; [exact H2|].
    intros Hin. apply listed_has_file in Hin as [_ [content' Hin]].
    rewrite (profile_path_frame self _ name H3 H5), H1 in Hin. discriminate. }
  split.
  { intros Hb Hfile. unfold delete_gamepad_profile, os_path_exists.
    rewrite (bool_decide_eq_false_2 _ Hb). cbv zeta. rewrite Hfile. reflexivity. }
  repeat split; vm_compute; reflexivity.
Qed.

Lemma C9_delete_profile_witness :
  ("racing" ∉ builtin_names)
  /\ is_Some (file_at racing_store (profile_path racing_store "racing"))
  /\ exists self',
       delete_gamepad_profile racing_store "racing" = (true, self')
       /\ "racing" ∉ get_profile_list self'.
Proof.
  assert (Hb : "racing" ∉ builtin_names).
  { unfold builtin_names. rewrite !elem_of_cons, elem_of_nil.
    intros [H|[H|[H|H]]]; try discriminate H; exact H. }
  assert (Hf : is_Some (file_at racing_store (profile_path racing_store "racing"))).
  { vm_compute. eauto. }
  split; [exact Hb|]. split; [exact Hf|].
  destruct (proj1 (proj2 (C9_delete_profile racing_store "racing")) Hb Hf)
    as (self' & H1 & _ & _ & _ & H2).
  exists self'. split; [exact H1|exact H2].
Defined.

End Deleting.

(** * Further properties *)

(** ** The polling worker: buttons *)

Section WorkerButtons.
Import GamepadWorker.

(** The stored levels after a poll: the readings at the polled indices,
    the old levels elsewhere. *)
Lemma poll_buttons_state (bs : list bool) (i : Z) (last : gmap Z bool) :
  (forall (n : nat) b, bs !! n = Some b ->
     fst (poll_buttons i bs last) !! (i + Z.of_nat n) = Some b)
  /\ (forall j, j < i \/ i + Z.of_nat (length bs) <= j ->
        fst (poll_buttons i bs last) !! j = last !! j).
Proof.
  revert i last. induction bs as [|b0 bs IH]; intros i last.
  - split; [intros n b H; destruct n; discriminate|reflexivity].
  - cbn [poll_buttons].
    destruct (poll_buttons (i + 1) bs (<[i:=b0]> last)) as [last' evs] eqn:E.
    destruct (IH (i + 1) (<[i:=b0]> last)) as [IH1 IH2]. rewrite E in IH1, IH2.
    cbn [fst] in *. split.
    + intros [|n] b Hb.
      * injection Hb as <-. rewrite Z.add_0_r, IH2 by lia. apply lookup_insert_eq.
      * replace (i + Z.of_nat (S n)) with (i + 1 + Z.of_nat n) by lia.
        apply IH1. exact Hb.
    + intros j Hj. cbn [length] in Hj. rewrite IH2 by lia.
      apply lookup_insert_ne. lia.
Qed.

(** What a poll emits, button by button. *)
Lemma poll_buttons_events (bs : list bool) (i : Z) (last : gmap Z bool) (j : Z) :
  (button_pressed j ∈ snd (poll_buttons i bs last)
   <-> exists n : nat, j = i + Z.of_nat n /\ bs !! n = Some true
                       /\ default false (last !! j) = false)
  /\ (button_released j ∈ snd (poll_buttons i bs last)
      <-> exists n : nat, j = i + Z.of_nat n /\ bs !! n = Some false
                          /\ default false (last !! j) = true).
Proof.
  revert i last. induction bs as [|b0 bs IH]; intros i last.
  - cbn [poll_buttons snd]. split; (split; [intros H; inversion H|]);
      intros (n & _ & H & _); destruct n; discriminate.
  - cbn [poll_buttons].
    destruct (poll_buttons (i + 1) bs (<[i:=b0]> last)) as [last' evs] eqn:E.
    destruct (IH (i + 1) (<[i:=b0]> last)) as [IHp IHr]. rewrite E in IHp, IHr.
    cbn [snd] in *.
    assert (Hfar : forall n : nat,
              default false (<[i:=b0]> last !! (i + 1 + Z.of_nat n))
              = default false (last !! (i + 1 + Z.of_nat n))).
    { intros n. rewrite lookup_insert_ne by lia. reflexivity. }
    split; rewrite elem_of_app.
    + rewrite IHp. split.
      * intros [Hin|(n & -> & Hn & Hl)].
        -- exists 0%nat. rewrite Z.add_0_r.
           destruct b0, (default false (last !! i)) eqn:Hw;
             cbn [andb negb] in Hin; try (inversion Hin; fail);
             apply list_elem_of_singleton in Hin; try discriminate Hin.
           injection Hin as ->. auto.
        -- exists (S n). rewrite Hfar in Hl.
           replace (i + Z.of_nat (S n)) with (i + 1 + Z.of_nat n) by lia. auto.
      * intros ([|n] & -> & Hn & Hl).
        -- left. rewrite Z.add_0_r in Hl. injection Hn as ->. rewrite Hl.
           cbn [andb negb]. apply list_elem_of_singleton. f_equal. lia.
        -- right. exists n.
           replace (i + Z.of_nat (S n)) with (i + 1 + Z.of_nat n) in Hl |- * by lia.
           rewrite Hfar. auto.
    + rewrite IHr. split.
      * intros [Hin|(n & -> & Hn & Hl)].
        -- exists 0%nat. rewrite Z.add_0_r.
           destruct b0, (default false (last !! i)) eqn:Hw;
             cbn [andb negb] in Hin; try (inversion Hin; fail);
             apply list_elem_of_singleton in Hin; try discriminate Hin.
           injection Hin as ->. auto.
        -- exists (S n). rewrite Hfar in Hl.
           replace (i + Z.of_nat (S n)) with (i + 1 + Z.of_nat n) by lia. auto.
      * intros ([|n] & -> & Hn & Hl).
        -- left. rewrite Z.add_0_r in Hl. injection Hn as ->. rewrite Hl.
           cbn [andb negb]. apply list_elem_of_singleton. f_equal. lia.
        -- right. exists n.
           replace (i + Z.of_nat (S n)) with (i + 1 + Z.of_nat n) in Hl |- * by lia.
           rewrite Hfar. auto.
Qed.

(** Readings that agree with the stored levels emit nothing and store
    nothing new. *)
Lemma poll_buttons_quiet (bs : list bool) (i : Z) (last : gmap Z bool) :
  (forall (n : nat) b, bs !! n = Some b -> last !! (i + Z.of_nat n) = Some b) ->
  poll_buttons i bs last = (last, []).
Proof.
  revert i last. induction bs as [|b0 bs IH]; intros i last Hsame; [reflexivity|].
  cbn [poll_buttons].
  pose proof (Hsame 0%nat b0 eq_refl) as H0. rewrite Z.add_0_r in H0.
  rewrite H0, (insert_id _ _ _ H0). cbn [default].
  rewrite IH.
  - destruct b0; reflexivity.
  - intros n b Hb. replace (i + 1 + Z.of_nat n) with (i + Z.of_nat (S n)) by lia.
    apply Hsame. exact Hb.
Qed.

End WorkerButtons.

Section WorkerButtonsResults.
Import GamepadWorker.

(** Edge detection between two consecutive polls of the same buttons: the
    second poll emits a press exactly for the buttons that were up in the
    first readings and are down in the second, and a release exactly for
    those that were down and are up. *)
Theorem buttons_edges_between_polls (i : Z) (bs1 bs2 : list bool)
    (last : gmap Z bool) (j : Z) (Hlen : length bs1 = length bs2) :
  (button_pressed j ∈ snd (poll_buttons i bs2 (fst (poll_buttons i bs1 last)))
   <-> exists n : nat, j = i + Z.of_nat n
                       /\ bs1 !! n = Some false /\ bs2 !! n = Some true)
  /\ (button_released j ∈ snd (poll_buttons i bs2 (fst (poll_buttons i bs1 last)))
      <-> exists n : nat, j = i + Z.of_nat n
                          /\ bs1 !! n = Some true /\ bs2 !! n = Some false).
Proof.
  destruct (poll_buttons_events bs2 i (fst (poll_buttons i bs1 last)) j) as [Hp Hr].
  destruct (poll_buttons_state bs1 i last) as [Hst _].
  assert (Hlook : forall (n : nat) b2, bs2 !! n = Some b2 ->
            exists b1, bs1 !! n = Some b1
                       /\ default false (fst (poll_buttons i bs1 last) !! (i + Z.of_nat n)) = b1).
  { intros n b2 Hn. apply lookup_lt_Some in Hn. rewrite <- Hlen in Hn.
    destruct (lookup_lt_is_Some_2 bs1 n Hn) as [b1 Hb1].
    exists b1. split; [exact Hb1|]. rewrite (Hst n b1 Hb1). reflexivity. }
  split.
  - rewrite Hp. split.
    + intros (n & -> & Hn & Hl). exists n.
      destruct (Hlook n true Hn) as (b1 & Hb1 & Hd). rewrite Hd in Hl. subst b1. auto.
    + intros (n & -> & Hn1 & Hn2). exists n.
      destruct (Hlook n true Hn2) as (b1 & Hb1 & Hd). rewrite Hd.
      rewrite Hn1 in Hb1. injection Hb1 as <-. auto.
  - rewrite Hr. split.
    + intros (n & -> & Hn & Hl). exists n.
      destruct (Hlook n false Hn) as (b1 & Hb1 & Hd). rewrite Hd in Hl. subst b1. auto.
    + intros (n & -> & Hn1 & Hn2). exists n.
      destruct (Hlook n false Hn2) as (b1 & Hb1 & Hd). rewrite Hd.
      rewrite Hn1 in Hb1. injection Hb1 as <-. auto.
Qed.

Lemma buttons_edges_between_polls_witness :
  length [false; true] = length [true; true]
  /\ button_pressed 0 ∈ snd (poll_buttons 0 [true; true] (fst (poll_buttons 0 [false; true] ∅))).
Proof.
  split; [reflexivity|].
  apply (proj1 (buttons_edges_between_polls 0 [false; true] [true; true] ∅ 0 eq_refl)).
  exists 0%nat. repeat split.
Defined.

Lemma buttons_same_readings_emit_nothing_aux (i : Z) (bs : list bool)
    (last : gmap Z bool) :
  poll_buttons i bs (fst (poll_buttons i bs last))
  = (fst (poll_buttons i bs last), []).
Proof.
  apply poll_buttons_quiet. intros n b Hb.
  exact (proj1 (poll_buttons_state bs i last) n b Hb).
Qed.

(** The axis loop reports axis [j] with value [v] exactly when [v] is the
    reading at that index and its magnitude exceeds the deadzone; nothing is
    remembered between passes, so a deflected stick is reported on every
    pass. *)
Theorem axes_reported_iff_beyond_deadzone (deadzone : float) (vs : list float)
    (i j : Z) (v : float) :
  axis_moved j v ∈ poll_axes deadzone i vs
  <-> exists n : nat, j = i + Z.of_nat n /\ vs !! n = Some v
                      /\ (deadzone <? abs v)%float = true.
Proof.
  revert i. induction vs as [|v0 vs IH]; intros i.
  - cbn [poll_axes]. split; [intros H; inversion H|].
    intros (n & _ & H & _). destruct n; discriminate.
  - cbn [poll_axes]. rewrite elem_of_app, IH. unfold poll_axis. split.
    + intros [Hin|(n & -> & Hn & Hd)].
      * destruct (deadzone <? abs v0)%float eqn:Hd; [|inversion Hin].
        apply list_elem_of_singleton in Hin. injection Hin as -> ->.
        exists 0%nat. rewrite Z.add_0_r. auto.
      * exists (S n). split; [lia|]. auto.
    + intros ([|n] & -> & Hn & Hd).
      * left. injection Hn as ->. rewrite Hd.
        apply list_elem_of_singleton. f_equal. lia.
      * right. exists n. split; [lia|]. auto.
Qed.

End WorkerButtonsResults.

(** ** The polling worker: passes of the loop *)

Section WorkerPasses.
Import GamepadWorker.

Lemma tick_idle (self : t) (dev : device) :
  joystick self = None -> get_count dev <= 0 -> tick self dev = (self, []).
Proof.
  intros Hj Hc. unfold tick. rewrite Hj.
  destruct (0 <? get_count dev) eqn:E; [apply Z.ltb_lt in E; lia|].
  destruct self; simpl in *; subst; reflexivity.
Qed.

Lemma tick_disconnect (self : t) (dev : device) (j : string) :
  joystick self = Some j -> get_count dev = 0 ->
  tick self dev
  = ({| running := running self; joystick := None;
        last_button_states := last_button_states self;
        last_hat_state := last_hat_state self;
        deadzone := deadzone self |},
     [disconnected]).
Proof. intros Hj Hc. unfold tick. rewrite Hj, Hc. reflexivity. Qed.

(** A pass with a joystick present, already open or opened in this pass. *)
Lemma tick_polls (self : t) (dev : device) :
  0 < get_count dev ->
  tick self dev
  = ({| running := running self;
        joystick := Some (default (get_name dev) (joystick self));
        last_button_states := fst (poll_buttons 0 (buttons dev) (last_button_states self));
        last_hat_state := fst (poll_hats (last_hat_state self) (hats dev));
        deadzone := deadzone self |},
     match joystick self with None => [connected (get_name dev)] | Some _ => [] end
     ++ snd (poll_buttons 0 (buttons dev) (last_button_states self))
     ++ poll_axes (deadzone self) 0 (axes dev)
     ++ snd (poll_hats (last_hat_state self) (hats dev))).
Proof.
  intros Hc. unfold tick.
  assert (E1 : (0 <? get_count dev) = true) by (apply Z.ltb_lt; lia).
  assert (E2 : (get_count dev =? 0) = false) by (apply Z.eqb_neq; lia).
  destruct (joystick self) as [j|]; rewrite ?E1, ?E2;
    destruct (poll_buttons 0 (buttons dev) (last_button_states self));
    destruct (poll_hats (last_hat_state self) (hats dev)); reflexivity.
Qed.

Lemma hat_buttons_range (hat : Z * Z) (b : Z) :
  hat_buttons hat = Some b -> 12 <= b <= 15.
Proof.
  unfold hat_buttons, hat_buttons_table. cbn [table_lookup].
  repeat (destruct (decide _); [intros [= <-]; lia|]). discriminate.
Qed.

Lemma last_cons_default {A} (x : A) (l : list A) (d1 d2 : A) :
  List.last (x :: l) d1 = List.last (x :: l) d2.
Proof.
  revert x. induction l as [|y l IH]; intros x; [reflexivity|].
  change (List.last (y :: l) d1 = List.last (y :: l) d2). apply IH.
Qed.

Lemma poll_hats_last (hs : list (Z * Z)) (last : Z * Z) :
  fst (poll_hats last hs) = List.last hs last.
Proof.
  revert last. induction hs as [|hat hs IH]; intros last; [reflexivity|].
  rewrite poll_hats_cons. cbn [fst]. rewrite IH.
  assert (H1 : fst (poll_hat last hat) = hat).
  { unfold poll_hat. destruct (decide (hat = last)); [subst|]; reflexivity. }
  rewrite H1. destruct hs as [|p hs]; [reflexivity|].
  change (List.last (p :: hs) hat = List.last (p :: hs) last).
  apply last_cons_default.
Qed.

(** A poll that reads the same levels again emits nothing and leaves the
    stored levels as they are, and so over whole passes of the loop: a held
    button gives one press, not one per pass (on a joystick without hats, a
    second pass over the same device emits the axis reports only). *)
Theorem buttons_same_readings_emit_nothing (i : Z) (bs : list bool)
    (last : gmap Z bool) (self : t) (dev : device) :
  poll_buttons i bs (fst (poll_buttons i bs last))
  = (fst (poll_buttons i bs last), [])
  /\ (0 < get_count dev -> hats dev = [] ->
      snd (tick (fst (tick self dev)) dev) = poll_axes (deadzone self) 0 (axes dev)).
Proof.
  split; [apply buttons_same_readings_emit_nothing_aux|].
  intros Hon Hh. rewrite (tick_polls self dev Hon). cbn [fst].
  rewrite (tick_polls _ dev Hon).
  cbn [snd joystick last_button_states last_hat_state deadzone].
  rewrite buttons_same_readings_emit_nothing_aux, Hh.
  cbn [snd poll_hats fst app]. rewrite app_nil_r. reflexivity.
Qed.

(** Without a joystick the loop idles: whatever the number of passes,
    nothing is emitted and the worker's state does not change. *)
Theorem no_joystick_no_events (self : t) (devs : list device)
    (Hnone : joystick self = None)
    (Hcount : Forall (fun dev => get_count dev <= 0) devs) :
  ticks self devs = (self, []).
Proof.
  induction Hcount as [|dev devs Hdev _ IH]; [reflexivity|].
  cbn [ticks]. rewrite (tick_idle self dev Hnone Hdev), IH. reflexivity.
Qed.

Lemma no_joystick_no_events_witness :
  joystick init = None
  /\ ticks init [{| get_count := 0; get_name := ""; buttons := [true];
                    axes := [1%float]; hats := [(0, 1)] |}] = (init, []).
Proof.
  split; [reflexivity|].
  apply (no_joystick_no_events init _ eq_refl).
  repeat constructor. simpl. lia.
Defined.

(** The stored button levels and hat reading survive a disconnection:
    when the joystick goes away and comes back with the same buttons held,
    the passes emit Disconnected and Connected but no button event on the
    way back. *)
Theorem replug_emits_no_button_event (self : t) (dev gone : device)
    (Hon : 0 < get_count dev) (Hoff : get_count gone = 0) :
  snd (ticks self [dev; gone; dev])
  = snd (tick self dev)
    ++ [disconnected]
    ++ [connected (get_name dev)]
    ++ poll_axes (deadzone self) 0 (axes dev)
    ++ snd (poll_hats (fst (poll_hats (last_hat_state self) (hats dev))) (hats dev)).
Proof.
  cbn [ticks]. rewrite (tick_polls self dev Hon). cbn [fst snd].
  erewrite tick_disconnect; [|reflexivity|exact Hoff]. cbn [fst snd].
  rewrite (tick_polls _ dev Hon).
  cbn [joystick last_button_states last_hat_state deadzone fst snd].
  rewrite buttons_same_readings_emit_nothing_aux.
  cbn [snd app]. rewrite app_nil_r. reflexivity.
Qed.

End WorkerPasses.

Section WorkerHats.
Import GamepadWorker.

Lemma replug_emits_no_button_event_witness :
  0 < get_count (pad (0, 1))
  /\ snd (ticks init [pad (0, 1); {| get_count := 0; get_name := "pad"; buttons := [];
                                     axes := []; hats := [] |}; pad (0, 1)])
     = [connected "pad"; button_pressed 12; disconnected; connected "pad"].
Proof.
  split; [reflexivity|].
  exact (replug_emits_no_button_event init (pad (0, 1))
           {| get_count := 0; get_name := "pad"; buttons := []; axes := []; hats := [] |}
           eq_refl eq_refl).
Defined.

(** Every signal that the hat loop emits is a press or a release of one of
    the four virtual buttons 12..15; after any run of readings the stored
    reading is the last one read, and the buttons left held are exactly the
    button of that reading: none once the hat is back at (0,0). *)
Theorem hat_signals_are_virtual_buttons (hs : list (Z * Z)) (last : Z * Z) :
  Forall (fun s => exists b, (s = button_pressed b \/ s = button_released b)
                             /\ 12 <= b <= 15)
         (snd (poll_hats last hs))
  /\ fst (poll_hats last hs) = List.last hs last
  /\ held_from (held_of last) (snd (poll_hats last hs)) = held_of (List.last hs last)
  /\ (List.last hs (0, 0) = (0, 0) ->
      held_after (snd (poll_hats (0, 0) hs)) = ∅).
Proof.
  split; [|split; [apply poll_hats_last|split]].
  - revert last. induction hs as [|hat hs IH]; intros last; [constructor|].
    rewrite poll_hats_cons. cbn [snd]. apply Forall_app. split; [|apply IH].
    unfold poll_hat. destruct (decide (hat = last)); [constructor|]. cbn [snd].
    apply Forall_app. split.
    + destruct (hat_buttons last) as [b|] eqn:Hb; [|constructor].
      repeat constructor. exists b. split; [auto|]. exact (hat_buttons_range _ _ Hb).
    + destruct (hat_buttons hat) as [b|] eqn:Hb; [|constructor].
      repeat constructor. exists b. split; [auto|]. exact (hat_buttons_range _ _ Hb).
  - rewrite <- poll_hats_last. exact (proj1 (poll_hats_held hs last)).
  - intros Hback. unfold held_after.
    change (∅ : gset Z) with (held_of (0, 0)) at 1.
    rewrite (proj1 (poll_hats_held hs (0, 0))), poll_hats_last, Hback. reflexivity.
Qed.

(** All hats share one stored reading. With two hats that read differently
    and the first one on a mapped direction, every pass ends on the second
    hat's reading and emits both a press and a release of the first hat's
    button: the events repeat on every pass although nothing moves. *)
Theorem two_hats_apart_emit_on_every_pass (self : t) (dev : device)
    (h1 h2 : Z * Z) (b : Z)
    (Hon : 0 < get_count dev) (Hhats : hats dev = [h1; h2])
    (Hne : h1 <> h2) (Hb : hat_buttons h1 = Some b)
    (Hlast : last_hat_state self = h2) :
  last_hat_state (fst (tick self dev)) = h2
  /\ button_pressed b ∈ snd (tick self dev)
  /\ button_released b ∈ snd (tick self dev).
Proof.
  rewrite (tick_polls self dev Hon). cbn [fst snd last_hat_state].
  rewrite Hhats, Hlast. cbn [poll_hats].
  rewrite (poll_hat_changed h2 h1 Hne), (poll_hat_changed h1 h2 (not_eq_sym Hne)).
  rewrite Hb. cbn [fst snd]. split; [reflexivity|].
  split.
  - do 3 (apply elem_of_app; right). apply elem_of_app. left.
    apply elem_of_app. right. apply list_elem_of_singleton. reflexivity.
  - do 3 (apply elem_of_app; right). apply elem_of_app. right.
    apply elem_of_app. left. apply elem_of_app. left.
    apply list_elem_of_singleton. reflexivity.
Qed.

Lemma two_hats_apart_emit_on_every_pass_witness :
  hat_buttons (0, 1) = Some 12
  /\ button_pressed 12
       ∈ snd (tick init {| get_count := 1; get_name := "pad"; buttons := [];
                           axes := []; hats := [(0, 1); (0, 0)] |}).
Proof.
  split; [reflexivity|].
  refine (proj1 (proj2
    (two_hats_apart_emit_on_every_pass init
       {| get_count := 1; get_name := "pad"; buttons := []; axes := [];
          hats := [(0, 1); (0, 0)] |}
       (0, 1) (0, 0) 12 eq_refl eq_refl _ eq_refl eq_refl))).
  discriminate.
Defined.

End WorkerHats.

(** ** The manager: mappings, deadzone, delivery *)

Section ManagerMore.
Import GamepadManager.

(** [set_mapping] then [get_mapping]: the button reads back the action just
    set, the other buttons read as before, and the analog settings are not
    touched. A press of the button fires the new action unless it is
    ['none']; the signal carries the index as a C [int], which is the index
    itself when it fits 32 bits (and [-2^31] for the index [2^31]). *)
Theorem set_mapping_then_get (self : t) (d : items) (i j : Z) (action : string)
    (Hd : mappings self = VDict d) :
  exists self',
    set_mapping self i action = Ok self'
    /\ get_mapping self' i = Ok (VStr action)
    /\ (j <> i -> get_mapping self' j = get_mapping self j)
    /\ _on_button_pressed self' i
       = Ok (if String.eqb action "none" then []
             else [button_pressed (c_int i) (VStr action)])
    /\ (-2147483648 <= i < 2147483648 -> c_int i = i)
    /\ c_int 2147483648 = -2147483648
    /\ analog_settings self' = analog_settings self.
Proof.
  unfold set_mapping. rewrite Hd. cbn [py_setitem rbind]. eexists.
  split; [reflexivity|]. unfold get_mapping, _on_button_pressed.
  cbn [mappings with_mappings py_get rbind]. rewrite Hd. cbn [py_get].
  rewrite dict_lookup_store_eq. split; [reflexivity|]. split.
  - intros Hj. rewrite dict_lookup_store_ne by congruence. reflexivity.
  - split; [|split; [|split; reflexivity]].
    + cbn [py_ne_str]. destruct (String.eqb action "none"); reflexivity.
    + intros Hi. unfold c_int. rewrite Z.mod_small by lia. lia.
Qed.

Lemma set_mapping_then_get_witness :
  mappings fresh = VDict DEFAULT_MAPPINGS
  /\ exists self',
       set_mapping fresh 7 "save" = Ok self'
       /\ get_mapping self' 7 = Ok (VStr "save").
Proof.
  split; [reflexivity|].
  destruct (set_mapping_then_get fresh DEFAULT_MAPPINGS 7 0 "save" eq_refl)
    as (self' & H1 & H2 & _).
  exists self'. split; [exact H1|exact H2].
Defined.

(** The worker's deadzone follows [set_deadzone] only. [start] creates the
    worker with deadzone 0.2 whatever is stored; a [set_deadzone] made
    while a worker exists puts the clamped value both in the settings and
    in the worker; [reset_to_defaults] and [load_profile] leave the worker
    as it is. *)
Theorem worker_deadzone_follows_setter_only (self : t) (d : items) (value : float)
    (Hd : analog_settings self = VDict d) :
  (exists self1,
     set_deadzone (stop self) value = Ok self1
     /\ stored "deadzone" self1 = Some (py_max 0.0 (py_min 0.5 value))
     /\ GamepadWorker.deadzone <$> worker (start true self1) = Some 0.2%float)
  /\ (exists self2,
        set_deadzone (start true self) value = Ok self2
        /\ stored "deadzone" self2 = Some (py_max 0.0 (py_min 0.5 value))
        /\ GamepadWorker.deadzone <$> worker self2
           = Some (py_max 0.0 (py_min 0.5 value)))
  /\ worker (reset_to_defaults self) = worker self
  /\ (forall config name self3,
        load_profile config self name = Ok self3 -> worker self3 = worker self).
Proof.
  split; [|split; [|split]].
  - unfold set_deadzone, stop. cbn [analog_settings with_worker]. rewrite Hd.
    cbn [py_setitem rbind worker with_analog_settings]. eexists.
    split; [reflexivity|]. split; [|reflexivity].
    unfold stored. cbn [analog_settings with_analog_settings].
    rewrite dict_lookup_store_eq. reflexivity.
  - unfold set_deadzone, start. cbn [analog_settings with_worker]. rewrite Hd.
    cbn [py_setitem rbind worker with_analog_settings with_worker]. eexists.
    split; [reflexivity|]. split; [|reflexivity].
    unfold stored. cbn [analog_settings with_worker with_analog_settings].
    rewrite dict_lookup_store_eq. reflexivity.
  - reflexivity.
  - intros config name self3. unfold load_profile.
    destruct config as [cfg|]; [|intros [= <-]; reflexivity].
    destruct (ConfigManager.get_gamepad_profile cfg name) as [profile|]; [|discriminate].
    cbn [rbind].
    destruct (py_truthy _); [|intros [= <-]; reflexivity].
    destruct (py_get _ (KStr "buttons") _) as [b|]; [|discriminate]. cbn [rbind].
    destruct (py_get _ (KStr "analog") _) as [a|]; [|discriminate]. cbn [rbind].
    intros [= <-]. reflexivity.
Qed.

Lemma worker_deadzone_follows_setter_only_witness :
  analog_settings fresh = VDict default_analog_settings
  /\ exists self2,
       set_deadzone (start true fresh) 0.05 = Ok self2
       /\ GamepadWorker.deadzone <$> worker self2 = Some 0.05%float.
Proof.
  split; [reflexivity|].
  destruct (worker_deadzone_follows_setter_only fresh default_analog_settings 0.05 eq_refl)
    as (_ & (self2 & H1 & _ & H2) & _).
  exists self2. split; [exact H1|exact H2].
Defined.

End ManagerMore.

Section Dicts.

Lemma NoDup_map_on {A B} (f : A -> B) (l : list A) :
  (forall x y, x ∈ l -> y ∈ l -> f x = f y -> x = y) ->
  NoDup l -> NoDup (map f l).
Proof.
  intros Hinj Hnd. induction Hnd as [|x l Hx Hnd IH]; [constructor|].
  cbn [map]. constructor.
  - rewrite list_elem_of_In, in_map_iff. intros (y & Hfy & Hy).
    rewrite <- list_elem_of_In in Hy.
    assert (y = x) as ->; [|contradiction].
    apply Hinj; [right; exact Hy|left|exact Hfy].
  - apply IH. intros a b Ha Hb. apply Hinj; right; assumption.
Qed.

Lemma dict_store_keys (k : pykey) (v : pyval) (d : items) :
  map fst (dict_store k v d)
  = if bool_decide (k ∈ map fst d) then map fst d else map fst d ++ [k].
Proof.
  induction d as [|[k0 v0] d IH]; [reflexivity|].
  cbn [dict_store map fst]. destruct (decide (k = k0)) as [->|Hne].
  - rewrite bool_decide_eq_true_2 by left. reflexivity.
  - cbn [map fst]. rewrite IH. destruct (bool_decide (k ∈ map fst d)) eqn:E.
    + apply bool_decide_eq_true in E. rewrite bool_decide_eq_true_2 by (right; exact E).
      reflexivity.
    + apply bool_decide_eq_false in E. rewrite bool_decide_eq_false_2; [reflexivity|].
      intros H. apply elem_of_cons in H as [H|H]; contradiction.
Qed.

Lemma dict_store_distinct (k : pykey) (v : pyval) (d : items) :
  distinct_keys d -> distinct_keys (dict_store k v d).
Proof.
  unfold distinct_keys. intros Hd. rewrite dict_store_keys.
  destruct (bool_decide (k ∈ map fst d)) eqn:E; [exact Hd|].
  apply bool_decide_eq_false in E. apply NoDup_app. split; [exact Hd|].
  split; [|apply NoDup_singleton].
  intros x Hx Hx'. apply list_elem_of_singleton in Hx'. subst x. contradiction.
Qed.

Lemma dict_store_str_keyed (k : string) (v : pyval) (d : items) :
  str_keyed d -> str_keyed (dict_store (KStr k) v d).
Proof.
  unfold str_keyed. induction 1 as [|[k0 v0] d Hk Hd IH]; cbn [dict_store].
  - repeat constructor. eexists; reflexivity.
  - destruct (decide (KStr k = k0)); constructor; auto. eexists; reflexivity.
Qed.

Lemma dict_store_fresh (k : pykey) (v : pyval) (d : items) :
  k ∉ map fst d -> dict_store k v d = d ++ [(k, v)].
Proof.
  induction d as [|[k0 v0] d IH]; cbn [dict_store map fst app]; intros Hk; [reflexivity|].
  destruct (decide (k = k0)) as [->|Hne].
  - exfalso. apply Hk. left.
  - rewrite IH; [reflexivity|]. intros H. apply Hk. right. exact H.
Qed.

Lemma dict_lookup_absent (k : pykey) (d : items) :
  k ∉ map fst d -> dict_lookup k d = None.
Proof.
  induction d as [|[k0 v0] d IH]; [reflexivity|]. cbn [map fst dict_lookup].
  intros Hk. destruct (decide (k = k0)) as [->|Hne].
  - exfalso. apply Hk. left.
  - apply IH. intros H. apply Hk. right. exact H.
Qed.

Lemma dict_lookup_map (f : pyval -> pyval) (k : pykey) (d : items) :
  dict_lookup k (map (fun kv => (fst kv, f (snd kv))) d) = f <$> dict_lookup k d.
Proof.
  induction d as [|[k0 v0] d IH]; [reflexivity|]. cbn [map fst snd dict_lookup].
  destruct (decide (k = k0)); [reflexivity|exact IH].
Qed.

Lemma dict_store_map (f : pyval -> pyval) (k : pykey) (v : pyval) (d : items) :
  map (fun kv => (fst kv, f (snd kv))) (dict_store k v d)
  = dict_store k (f v) (map (fun kv => (fst kv, f (snd kv))) d).
Proof.
  induction d as [|[k0 v0] d IH]; [reflexivity|]. cbn [map fst snd dict_store].
  destruct (decide (k = k0)); [reflexivity|]. cbn [map fst snd]. rewrite IH. reflexivity.
Qed.

Lemma dict_update_distinct (base other : items) :
  distinct_keys base -> distinct_keys (dict_update base other).
Proof.
  unfold dict_update. revert base. induction other as [|[k v] other IH]; intros base Hb.
  - exact Hb.
  - cbn [fold_left fst snd]. apply IH. apply dict_store_distinct. exact Hb.
Qed.

Lemma dict_update_str_keyed (base other : items) :
  str_keyed base -> str_keyed other -> str_keyed (dict_update base other).
Proof.
  unfold dict_update. intros Hb Ho. revert base Hb.
  induction Ho as [|[k v] other [s Hs] _ IH]; intros base Hb; [exact Hb|].
  cbn [fst] in Hs. subst k. cbn [fold_left fst snd]. apply IH.
  apply dict_store_str_keyed. exact Hb.
Qed.

(** Updating with keys that are all new appends the items. *)
Lemma dict_update_fresh (other base : items) :
  NoDup (map fst base ++ map fst other) -> dict_update base other = base ++ other.
Proof.
  unfold dict_update. revert base.
  induction other as [|[k v] other IH]; intros base Hnd; cbn [fold_left fst snd].
  - rewrite app_nil_r. reflexivity.
  - rewrite dict_store_fresh.
    + rewrite IH; [rewrite <- app_assoc; reflexivity|].
      rewrite map_app. cbn [map fst]. rewrite <- app_assoc. exact Hnd.
    + apply NoDup_app in Hnd as (_ & Hdisj & _). intros Hin.
      apply (Hdisj k Hin). left.
Qed.

Lemma dict_update_nil (d : items) : distinct_keys d -> dict_update [] d = d.
Proof. intros H. exact (dict_update_fresh d [] H). Qed.

(** A lookup after [update]: the updating dict first, then the base. *)
Lemma dict_lookup_update (k : pykey) (base other : items) :
  distinct_keys other ->
  dict_lookup k (dict_update base other)
  = match dict_lookup k other with
    | Some v => Some v
    | None => dict_lookup k base
    end.
Proof.
  unfold dict_update, distinct_keys. revert base.
  induction other as [|[k0 v0] other IH]; intros base Hd; [reflexivity|].
  cbn [map fst] in Hd. apply NoDup_cons in Hd as [Hk0 Hd].
  cbn [fold_left fst snd dict_lookup]. rewrite (IH _ Hd).
  destruct (decide (k = k0)) as [->|Hne].
  - rewrite (dict_lookup_absent k0 other Hk0). apply dict_lookup_store_eq.
  - rewrite dict_lookup_store_ne by congruence. reflexivity.
Qed.


End Dicts.

Section Json.

Lemma filter_ne_keys (k0 : pykey) (d : list (pykey * pyval)) :
  map fst (filter (fun kv => fst kv ≠ k0) d) = filter (fun k => k ≠ k0) (map fst d).
Proof.
  induction d as [|[k v] d IH]; [reflexivity|].
  cbn [map fst]. rewrite !filter_cons. cbn [fst].
  destruct (decide (k ≠ k0)); cbn [map fst]; rewrite IH; reflexivity.
Qed.

Lemma filter_ne_absent (k0 : pykey) (d : list (pykey * pyval)) :
  k0 ∉ map fst d -> filter (fun kv => fst kv ≠ k0) d = d.
Proof.
  induction d as [|[k v] d IH]; [reflexivity|]. cbn [map fst]. intros Hk.
  rewrite filter_cons. cbn [fst]. destruct (decide (k ≠ k0)) as [_|H].
  - rewrite IH; [reflexivity|]. intros Hin. apply Hk. right. exact Hin.
  - exfalso. apply H. intros ->. apply Hk. left.
Qed.

Lemma dict_lookup_filter_ne (k k0 : pykey) (d : list (pykey * pyval)) :
  k ≠ k0 -> dict_lookup k (filter (fun kv => fst kv ≠ k0) d) = dict_lookup k d.
Proof.
  intros Hne. induction d as [|[k1 v1] d IH]; [reflexivity|].
  rewrite filter_cons. cbn [fst dict_lookup]. destruct (decide (k1 ≠ k0)) as [H|H].
  - cbn [dict_lookup]. rewrite IH. reflexivity.
  - destruct (decide (k = k1)) as [->|_]; [|exact IH].
    exfalso. exact (H Hne).
Qed.

(** The items of an iteration: a lookup finds what it found in the list;
    no key comes twice; and a list without repeated keys is its own
    iteration. *)
Lemma dict_items_lookup (k : pykey) (d : items) :
  dict_lookup k (dict_items d) = dict_lookup k d.
Proof.
  induction d as [|[k0 v0] d IH]; [reflexivity|]. cbn [dict_items dict_lookup].
  destruct (decide (k = k0)) as [->|Hne]; [reflexivity|].
  rewrite (dict_lookup_filter_ne k k0 _ Hne). exact IH.
Qed.

Lemma dict_items_keys (k : pykey) (d : items) :
  k ∈ map fst (dict_items d) -> k ∈ map fst d.
Proof.
  induction d as [|[k0 v0] d IH]; [auto|]. cbn [dict_items map fst].
  rewrite filter_ne_keys. intros H. apply elem_of_cons in H as [->|H]; [left|].
  apply list_elem_of_filter in H as [_ H]. right. exact (IH H).
Qed.

Lemma dict_items_distinct (d : items) : distinct_keys (dict_items d).
Proof.
  unfold distinct_keys. induction d as [|[k0 v0] d IH]; [constructor|].
  cbn [dict_items map fst]. rewrite filter_ne_keys. constructor.
  - intros H. apply list_elem_of_filter in H as [H _]. exact (H eq_refl).
  - apply NoDup_filter. exact IH.
Qed.

Lemma dict_items_id (d : items) : distinct_keys d -> dict_items d = d.
Proof.
  unfold distinct_keys. induction d as [|[k0 v0] d IH]; [reflexivity|].
  cbn [map fst dict_items]. intros Hd. apply NoDup_cons in Hd as [Hk Hd].
  rewrite (IH Hd), (filter_ne_absent k0 d Hk). reflexivity.
Qed.

(** Writing the keys as strings keeps a lookup when no other key is
    written like the one looked up. *)
Lemma key_str_lookup (k : pykey) (d : items) :
  (forall k', k' ∈ map fst d -> key_str k' = key_str k -> k' = k) ->
  dict_lookup (KStr (key_str k)) (map (fun kv => (KStr (key_str (fst kv)), snd kv)) d)
  = dict_lookup k d.
Proof.
  induction d as [|[k1 v1] d IH]; intros Hinj; [reflexivity|].
  cbn [map fst snd dict_lookup]. destruct (decide (k = k1)) as [->|Hne].
  - destruct (decide (KStr (key_str k1) = KStr (key_str k1))); [reflexivity|congruence].
  - destruct (decide (KStr (key_str k) = KStr (key_str k1))) as [[= He]|_].
    + exfalso. apply Hne. symmetry. apply Hinj; [left|symmetry; exact He].
    + apply IH. intros k' Hk'. apply Hinj. right. exact Hk'.
Qed.

Lemma json_object_str_keyed (d : items) : str_keyed (json_object d).
Proof.
  unfold json_object. apply dict_update_str_keyed; [constructor|].
  unfold str_keyed. rewrite Forall_map. apply Forall_forall.
  intros kv _. cbn [fst]. eauto.
Qed.

Lemma json_object_distinct (d : items) : distinct_keys (json_object d).
Proof. unfold json_object. apply dict_update_distinct. constructor. Qed.

(** A lookup in what JSON gives back, for a dict none of whose keys is
    written like another one. *)
Lemma json_object_lookup (k : pykey) (d : items) :
  (forall k1 k2, k1 ∈ k :: map fst d -> k2 ∈ k :: map fst d ->
     key_str k1 = key_str k2 -> k1 = k2) ->
  dict_lookup (KStr (key_str k)) (json_object d) = dict_lookup k d.
Proof.
  intros Hinj. unfold json_object. rewrite dict_update_nil.
  - rewrite key_str_lookup; [apply dict_items_lookup|].
    intros k' Hk' He. apply Hinj; [right; exact (dict_items_keys _ _ Hk')|left|exact He].
  - unfold distinct_keys. rewrite map_map. cbn [fst].
    rewrite <- (map_map fst (fun k0 => KStr (key_str k0))).
    apply NoDup_map_on; [|apply dict_items_distinct].
    intros k1 k2 H1 H2 [= He].
    apply Hinj; [right; exact (dict_items_keys _ _ H1)
                |right; exact (dict_items_keys _ _ H2)|exact He].
Qed.

(** A dict with string keys comes back from JSON with the same keys. *)
Lemma json_object_fixed (d : items) :
  str_keyed d -> distinct_keys d -> json_object d = d.
Proof.
  intros Hstr Hd. unfold json_object. rewrite (dict_items_id d Hd).
  assert (Hsame : map (fun kv : pykey * pyval => (KStr (key_str (fst kv)), snd kv)) d = d).
  { clear Hd. induction Hstr as [|[k v] d [s Hs] _ IH]; [reflexivity|].
    cbn [fst] in Hs. subst k. cbn [map fst snd key_str]. rewrite IH. reflexivity. }
  rewrite Hsame. apply dict_update_nil. exact Hd.
Qed.

(** Key conversion on the way through JSON. *)
Lemma jsonify_dict (d : items) : jsonify (VDict d) = VDict (jsonify_items d).
Proof. reflexivity. Qed.

Lemma map_values_keys (f : pyval -> pyval) (d : items) :
  map fst (map (fun kv => (fst kv, f (snd kv))) d) = map fst d.
Proof. rewrite map_map. reflexivity. Qed.


Lemma jsonify_items_str_keyed (d : items) (k : string) :
  str_keyed d ->
  dict_lookup (KStr k) (jsonify_items d) = jsonify <$> dict_lookup (KStr k) d.
Proof.
  intros Hstr. unfold jsonify_items.
  rewrite (json_object_lookup (KStr k)); [apply dict_lookup_map|].
  rewrite map_values_keys.
  assert (Hk : forall k', k' ∈ KStr k :: map fst d -> exists s, k' = KStr s).
  { intros k' Hk. apply elem_of_cons in Hk as [->|Hk]; [eauto|].
    rewrite list_elem_of_In, in_map_iff in Hk. destruct Hk as (kv & <- & Hin).
    rewrite <- list_elem_of_In in Hin.
    unfold str_keyed in Hstr. rewrite Forall_forall in Hstr. exact (Hstr kv Hin). }
  intros k1 k2 H1 H2 He.
  destruct (Hk k1 H1) as [s1 ->], (Hk k2 H2) as [s2 ->]. cbn [key_str] in He.
  congruence.
Qed.

Lemma jsonify_items_keys (d : items) :
  str_keyed d -> distinct_keys d -> map fst (jsonify_items d) = map fst d.
Proof.
  intros Hstr Hd. unfold jsonify_items. rewrite json_object_fixed.
  - apply map_values_keys.
  - unfold str_keyed in *. rewrite Forall_map. exact Hstr.
  - unfold distinct_keys. rewrite map_values_keys. exact Hd.
Qed.

(** A dict that JSON gives back as it is has string keys, no key twice,
    and values that JSON gives back as they are. *)
Lemma jsonify_items_fixed_inv (d : items) :
  jsonify_items d = d ->
  str_keyed d /\ distinct_keys d
  /\ map (fun kv => (fst kv, jsonify (snd kv))) d = d.
Proof.
  intros Hd.
  assert (Hstr : str_keyed d) by (rewrite <- Hd; apply json_object_str_keyed).
  assert (Hkeys : distinct_keys d) by (rewrite <- Hd; apply json_object_distinct).
  split; [exact Hstr|]. split; [exact Hkeys|].
  unfold jsonify_items in Hd. rewrite json_object_fixed in Hd; [exact Hd| |].
  - unfold str_keyed in *. rewrite Forall_map. exact Hstr.
  - unfold distinct_keys. rewrite map_values_keys. exact Hkeys.
Qed.

Lemma jsonify_items_fixed_store (d : items) (k s : string) :
  jsonify_items d = d ->
  jsonify_items (dict_store (KStr k) (VStr s) d) = dict_store (KStr k) (VStr s) d.
Proof.
  intros Hd. destruct (jsonify_items_fixed_inv d Hd) as (Hstr & Hkeys & Hvals).
  unfold jsonify_items. rewrite dict_store_map, Hvals. cbn [jsonify].
  apply json_object_fixed.
  - apply dict_store_str_keyed. exact Hstr.
  - apply dict_store_distinct. exact Hkeys.
Qed.

End Json.

Section ManagerProfiles.
Import GamepadManager.

Lemma load_profile_installs (cfg : ConfigManager.t) (self : t) (name : option string)
    (p : items) (kv : pykey * pyval) :
  ConfigManager.get_gamepad_profile cfg name = Ok (VDict (kv :: p)) ->
  load_profile (Some cfg) self name
  = Ok (with_analog_settings
          (default (analog_settings self) (dict_lookup (KStr "analog") (kv :: p)))
          (with_mappings
             (default (VDict DEFAULT_MAPPINGS) (dict_lookup (KStr "buttons") (kv :: p)))
             self)).
Proof.
  intros Hp. unfold load_profile. rewrite Hp. cbn [py_truthy py_get rbind].
  destruct (dict_lookup (KStr "buttons") (kv :: p)),
           (dict_lookup (KStr "analog") (kv :: p)); reflexivity.
Qed.

(** [load_profile] checks nothing. It succeeds on a stored object whose
    ['analog'] lacks ['sensitivity'], after which every axis event raises
    [KeyError]. It succeeds on one whose ['buttons'] is not an object,
    after which every button press raises [AttributeError]; [set_mapping]
    then assigns into the list when ['buttons'] is a JSON array and the
    index is within it, raises [IndexError] when the index is beyond it,
    and raises [TypeError] when ['buttons'] is neither object nor array. *)
Theorem unchecked_profile_breaks_handlers (cfg : ConfigManager.t) (self : t)
    (name : option string) (p : items)
    (Hp : ConfigManager.get_gamepad_profile cfg name = Ok (VDict p)) :
  (forall a, dict_lookup (KStr "analog") p = Some (VDict a) ->
     dict_lookup (KStr "sensitivity") a = None ->
     exists self',
       load_profile (Some cfg) self name = Ok self'
       /\ forall i v, _on_axis_moved self' i v = Raise KeyError)
  /\ (forall b, dict_lookup (KStr "buttons") p = Some b ->
        (forall d, b <> VDict d) ->
        exists self',
          load_profile (Some cfg) self name = Ok self'
          /\ mappings self' = b
          /\ (forall i, _on_button_pressed self' i = Raise AttributeError)
          /\ (forall l i, b = VList l -> 0 <= i < Z.of_nat (length l) ->
                exists self'',
                  set_mapping self' i "select" = Ok self''
                  /\ mappings self'' = VList (<[Z.to_nat i := VStr "select"]> l))
          /\ (forall l i, b = VList l -> - Z.of_nat (length l) <= i < 0 ->
                exists self'',
                  set_mapping self' i "select" = Ok self''
                  /\ mappings self''
                     = VList (<[Z.to_nat (i + Z.of_nat (length l)) := VStr "select"]> l))
          /\ (forall l i, b = VList l ->
                i < - Z.of_nat (length l) \/ Z.of_nat (length l) <= i ->
                set_mapping self' i "select" = Raise IndexError)
          /\ ((forall l, b <> VList l) ->
              forall i, set_mapping self' i "select" = Raise TypeError)).
Proof.
  split.
  - intros a Ha Hs. destruct p as [|kv p]; [discriminate|].
    rewrite (load_profile_installs cfg self name p kv Hp), Ha. eexists.
    split; [reflexivity|]. intros i v. unfold _on_axis_moved.
    cbn -[dict_lookup]. rewrite Hs. reflexivity.
  - intros b Hb Hnd. destruct p as [|kv p]; [discriminate|].
    rewrite (load_profile_installs cfg self name p kv Hp), Hb. eexists.
    split; [reflexivity|]. split; [reflexivity|].
    unfold _on_button_pressed, set_mapping.
    cbn [mappings with_mappings with_analog_settings default from_option id].
    split; [|split; [|split; [|split]]].
    + intros i. destruct b; try reflexivity. exfalso. exact (Hnd d eq_refl).
    + intros l i -> Hi. cbn [py_setitem].
      assert (E1 : (- Z.of_nat (length l) <=? i) = true) by (apply Z.leb_le; lia).
      assert (E2 : (i <? Z.of_nat (length l)) = true) by (apply Z.ltb_lt; lia).
      assert (E3 : (i <? 0) = false) by (apply Z.ltb_ge; lia).
      rewrite E1, E2, E3. cbn [andb rbind]. eexists. split; reflexivity.
    + intros l i -> Hi. cbn [py_setitem].
      assert (E1 : (- Z.of_nat (length l) <=? i) = true) by (apply Z.leb_le; lia).
      assert (E2 : (i <? Z.of_nat (length l)) = true) by (apply Z.ltb_lt; lia).
      assert (E3 : (i <? 0) = true) by (apply Z.ltb_lt; lia).
      rewrite E1, E2, E3. cbn [andb rbind]. eexists. split; reflexivity.
    + intros l i -> Hi. cbn [py_setitem].
      destruct Hi as [Hi|Hi].
      * assert (E1 : (- Z.of_nat (length l) <=? i) = false) by (apply Z.leb_gt; lia).
        rewrite E1. reflexivity.
      * assert (E2 : (i <? Z.of_nat (length l)) = false) by (apply Z.ltb_ge; lia).
        rewrite E2, andb_false_r. reflexivity.
    + intros Hnl i. destruct b; try reflexivity.
      * exfalso. exact (Hnl l eq_refl).
      * exfalso. exact (Hnd d eq_refl).
Qed.

Lemma unchecked_profile_breaks_handlers_witness :
  exists p self',
    ConfigManager.get_gamepad_profile
      (outcome first_run
         (ConfigManager.save_gamepad_profile first_run "bare"
            (VDict [(KStr "analog", VDict [(KStr "deadzone", VFloat 0.1)])])))
      (Some "bare") = Ok (VDict p)
    /\ load_profile
         (Some (outcome first_run
                  (ConfigManager.save_gamepad_profile first_run "bare"
                     (VDict [(KStr "analog", VDict [(KStr "deadzone", VFloat 0.1)])]))))
         fresh (Some "bare") = Ok self'
    /\ _on_axis_moved self' 0 1 = Raise KeyError.
Proof.
  assert (Hp : ConfigManager.get_gamepad_profile
      (outcome first_run
         (ConfigManager.save_gamepad_profile first_run "bare"
            (VDict [(KStr "analog", VDict [(KStr "deadzone", VFloat 0.1)])])))
      (Some "bare")
      = Ok (VDict [(KStr "analog", VDict [(KStr "deadzone", VFloat 0.1)])])).
  { vm_compute. reflexivity. }
  destruct (proj1 (unchecked_profile_breaks_handlers _ fresh _ _ Hp)
              [(KStr "deadzone", VFloat 0.1)] eq_refl eq_refl)
    as (self' & H1 & H2).
  eexists. exists self'. split; [exact Hp|]. split; [exact H1|apply H2].
Defined.

End ManagerProfiles.

Section ManagerStore.
Import GamepadManager.






Lemma jsonify_float_inv (v : pyval) (x : float) :
  jsonify v = VFloat x -> v = VFloat x.
Proof. destruct v; cbn [jsonify]; congruence. Qed.




End ManagerStore.

(** ** The worker's signals through the manager *)

Section Delivery.
Import GamepadManager.

Lemma deliver_input (self : t) (s : GamepadWorker.signal) :
  settings_ok self -> is_input s -> exists out, deliver self s = Ok (self, out).
Proof.
  intros (m & a & sens & inv & Hm & Ha & Hs & Hi) Hin.
  destruct s as [i|i|i v| |]; try contradiction; cbn [deliver].
  - rewrite (on_button_pressed_lookup self m i Hm). cbn [rbind]. eauto.
  - cbn [_on_button_released rbind]. eauto.
  - rewrite (on_axis_moved_value self a i v sens inv Ha Hs Hi). cbn [rbind]. eauto.
Qed.

Lemma deliver_all_inputs (self : t) (ss : list GamepadWorker.signal) :
  settings_ok self -> Forall is_input ss ->
  exists out, deliver_all self ss = Ok (self, out).
Proof.
  intros Hok Hin. induction Hin as [|s ss Hs _ [out IH]].
  - exists []. reflexivity.
  - destruct (deliver_input self s Hok Hs) as [out1 H1].
    exists (out1 ++ out). cbn [deliver_all]. rewrite H1. cbn [rbind fst snd].
    rewrite IH. reflexivity.
Qed.

Lemma poll_buttons_inputs (bs : list bool) (i : Z) (last : gmap Z bool) :
  Forall is_input (snd (GamepadWorker.poll_buttons i bs last)).
Proof.
  revert i last. induction bs as [|b bs IH]; intros i last; [constructor|].
  cbn [GamepadWorker.poll_buttons].
  specialize (IH (i + 1) (<[i:=b]> last)).
  destruct (GamepadWorker.poll_buttons (i + 1) bs (<[i:=b]> last)) as [last' evs].
  cbn [snd] in *. apply Forall_app. split; [|exact IH].
  destruct (b && negb _); [repeat constructor|].
  destruct (negb b && _); repeat constructor.
Qed.

Lemma poll_axes_inputs (deadzone : float) (i : Z) (vs : list float) :
  Forall is_input (GamepadWorker.poll_axes deadzone i vs).
Proof.
  revert i. induction vs as [|v vs IH]; intros i; [constructor|].
  cbn [GamepadWorker.poll_axes]. apply Forall_app. split; [|apply IH].
  unfold GamepadWorker.poll_axis. destruct (_ <? _)%float; repeat constructor.
Qed.

Lemma poll_hats_inputs (hs : list (Z * Z)) (last : Z * Z) :
  Forall is_input (snd (GamepadWorker.poll_hats last hs)).
Proof.
  revert last. induction hs as [|hat hs IH]; intros last; [constructor|].
  rewrite poll_hats_cons. cbn [snd]. apply Forall_app. split; [|apply IH].
  unfold GamepadWorker.poll_hat. destruct (decide (hat = last)); [constructor|].
  cbn [snd]. apply Forall_app.
  split; destruct (GamepadWorker.hat_buttons _); repeat constructor.
Qed.

(** The three shapes of a pass: input only, a connection followed by
    input, or a disconnection alone. *)
Lemma tick_shape (w : GamepadWorker.t) (dev : GamepadWorker.device) :
  (GamepadWorker.joystick (fst (GamepadWorker.tick w dev)) = GamepadWorker.joystick w
   /\ Forall is_input (snd (GamepadWorker.tick w dev)))
  \/ (exists name evs,
        GamepadWorker.joystick w = None
        /\ GamepadWorker.joystick (fst (GamepadWorker.tick w dev)) = Some name
        /\ snd (GamepadWorker.tick w dev) = GamepadWorker.connected name :: evs
        /\ Forall is_input evs)
  \/ (GamepadWorker.joystick w <> None
      /\ GamepadWorker.joystick (fst (GamepadWorker.tick w dev)) = None
      /\ snd (GamepadWorker.tick w dev) = [GamepadWorker.disconnected]).
Proof.
  unfold GamepadWorker.tick.
  pose proof (poll_buttons_inputs (GamepadWorker.buttons dev) 0
                (GamepadWorker.last_button_states w)) as Hb.
  pose proof (poll_axes_inputs (GamepadWorker.deadzone w) 0 (GamepadWorker.axes dev)) as Ha.
  pose proof (poll_hats_inputs (GamepadWorker.hats dev) (GamepadWorker.last_hat_state w)) as Hh.
  destruct (GamepadWorker.poll_buttons 0 _ _) as [st evb].
  destruct (GamepadWorker.poll_hats _ _) as [hat evh]. cbn [snd] in Hb, Hh.
  destruct (GamepadWorker.joystick w) as [j|] eqn:Hj.
  - destruct (GamepadWorker.get_count dev =? 0).
    + right. right. cbn. split; [discriminate|]. split; reflexivity.
    + left. cbn. split; [reflexivity|]. repeat (apply Forall_app; split); assumption.
  - destruct (0 <? GamepadWorker.get_count dev).
    + right. left. exists (GamepadWorker.get_name dev), (evb ++ GamepadWorker.poll_axes
        (GamepadWorker.deadzone w) 0 (GamepadWorker.axes dev) ++ evh).
      cbn. split; [reflexivity|]. split; [reflexivity|]. split; [reflexivity|].
      repeat (apply Forall_app; split); assumption.
    + left. cbn. split; [reflexivity|]. constructor.
Qed.

(** From settings on which the handlers run, delivering to the manager
    everything a worker emits over any number of passes never raises and
    never changes the mapping or the analog settings; and if the manager's
    [gamepad_name] and [connected] agreed with the worker's joystick
    before, they agree with it afterwards. *)
Theorem manager_follows_worker (w : GamepadWorker.t) (self : t)
    (devs : list GamepadWorker.device)
    (Hok : settings_ok self)
    (Hname : gamepad_name self = GamepadWorker.joystick w)
    (Hconn : connected self = bool_decide (GamepadWorker.joystick w <> None)) :
  exists self' out,
    deliver_all self (snd (GamepadWorker.ticks w devs)) = Ok (self', out)
    /\ mappings self' = mappings self
    /\ analog_settings self' = analog_settings self
    /\ gamepad_name self' = GamepadWorker.joystick (fst (GamepadWorker.ticks w devs))
    /\ connected self'
       = bool_decide (GamepadWorker.joystick (fst (GamepadWorker.ticks w devs)) <> None).
Proof.
  revert w self Hok Hname Hconn.
  induction devs as [|dev devs IH]; intros w self Hok Hname Hconn.
  - exists self, []. cbn. auto.
  - cbn [GamepadWorker.ticks].
    destruct (GamepadWorker.tick w dev) as [w1 ev1] eqn:Et.
    assert (Hstep : exists self1 out1,
              deliver_all self ev1 = Ok (self1, out1)
              /\ mappings self1 = mappings self
              /\ analog_settings self1 = analog_settings self
              /\ gamepad_name self1 = GamepadWorker.joystick w1
              /\ connected self1 = bool_decide (GamepadWorker.joystick w1 <> None)).
    { pose proof (tick_shape w dev) as Hsh. rewrite Et in Hsh. cbn [fst snd] in Hsh.
      destruct Hsh as [[Hj Hin]|[(name & evs & Hj & Hj1 & -> & Hin)|(Hj & Hj1 & ->)]].
      - destruct (deliver_all_inputs self ev1 Hok Hin) as [out Hd].
        exists self, out. rewrite Hj. auto.
      - cbn [deliver_all deliver _on_connected rbind fst snd].
        match goal with
        | |- context [deliver_all ?s evs] =>
            destruct (deliver_all_inputs s evs) as [out Hd]; [|exact Hin|]
        end.
        { destruct Hok as (m & a & sens & inv & H1 & H2 & H3 & H4).
          exists m, a, sens, inv. auto. }
        rewrite Hd. cbn [rbind fst snd]. eexists. eexists.
        split; [reflexivity|]. rewrite Hj1. cbn. auto.
      - cbn [deliver_all deliver _on_disconnected rbind fst snd].
        eexists. eexists. split; [reflexivity|]. rewrite Hj1. cbn. auto. }
    destruct Hstep as (self1 & out1 & Hd1 & Hm1 & Ha1 & Hn1 & Hc1).
    assert (Hok1 : settings_ok self1).
    { destruct Hok as (m & a & sens & inv & H1 & H2 & H3 & H4).
      exists m, a, sens, inv. rewrite Hm1, Ha1. auto. }
    destruct (IH w1 self1 Hok1 Hn1 Hc1) as (self2 & out2 & Hd2 & Hm2 & Ha2 & Hn2 & Hc2).
    destruct (GamepadWorker.ticks w1 devs) as [w2 ev2]. cbn [fst snd] in *.
    exists self2, (out1 ++ out2). rewrite deliver_all_app, Hd1. cbn [rbind fst snd].
    rewrite Hd2. cbn [rbind fst snd].
    split; [reflexivity|]. rewrite Hm2, Ha2. auto.
Qed.

Lemma manager_follows_worker_witness :
  settings_ok fresh
  /\ exists self' out,
       deliver_all fresh
         (snd (GamepadWorker.ticks GamepadWorker.init [pad (0, 1); pad (0, 0)]))
       = Ok (self', out)
       /\ gamepad_name self' = Some "pad".
Proof.
  assert (Hok : settings_ok fresh).
  { exists DEFAULT_MAPPINGS, default_analog_settings, 1.0%float, false.
    repeat split. }
  split; [exact Hok|].
  destruct (manager_follows_worker GamepadWorker.init fresh [pad (0, 1); pad (0, 0)]
              Hok eq_refl eq_refl) as (self' & out & H1 & _ & _ & H2 & _).
  exists self', out. split; [exact H1|exact H2].
Defined.

End Delivery.

(** ** The profile store *)

Section StoreResults.
Import ConfigManager.

(** The profile list is an index of the directory: a name is listed
    exactly when the directory has the entry [name.json], each name once,
    in ascending order. A listed profile can be read under its name; and a
    name that leads to a file without being the name of its entry (such as
    ['./default']) is not listed. *)
Theorem profile_list_indexes_directory (self : t) (name : string) :
  (name ∈ get_profile_list self
   <-> is_filename (name +:+ ".json") = true
       /\ is_Some (profiles_dir self !! (name +:+ ".json")))
  /\ (name ∈ get_profile_list self ->
      profile_path self name = Profile (name +:+ ".json")
      /\ is_Some (file_at self (profile_path self name)))
  /\ (is_filename (name +:+ ".json") = true ->
      (name ∈ get_profile_list self <-> is_Some (file_at self (profile_path self name))))
  /\ (is_filename (name +:+ ".json") = false -> name ∉ get_profile_list self)
  /\ NoDup (get_profile_list self)
  /\ Sorted String.le (get_profile_list self).
Proof.
  split; [apply listed_iff_entry|]. split; [apply listed_has_file|].
  split; [|split; [|split]].
  - intros Hf. rewrite listed_iff_entry, (profile_path_filename self name Hf).
    cbn [file_at]. tauto.
  - intros Hf Hin. apply listed_iff_entry in Hin as [Hin _]. congruence.
  - unfold get_profile_list. rewrite merge_sort_Permutation.
    apply NoDup_map_on.
    + intros f1 f2 H1 H2 Heq.
      apply list_elem_of_filter in H1 as [H1 _]. apply list_elem_of_filter in H2 as [H2 _].
      apply endswith_split in H1. apply endswith_split in H2.
      rewrite H1, H2. simpl String.length. rewrite Heq. reflexivity.
    + apply NoDup_filter. unfold os_listdir. apply NoDup_filter.
      apply NoDup_fst_map_to_list.
  - unfold get_profile_list. apply Sorted_merge_sort. apply _.
Qed.



(** The guard of [delete_gamepad_profile] is on the name, not on the
    file. Whatever names of directory entries are deleted, and in whatever
    order, the files of the three built-in profiles stay as they are, and
    so do the active profile and the files outside the profile directory.
    A name with a path part that leads to the file of a built-in profile
    passes the guard: deleting ['./default'] removes the built-in profile
    ['default']. *)
Theorem builtin_profiles_guarded_by_name (self : t) (names : list string)
    (b : string) (Hb : b ∈ builtin_names)
    (Hnames : Forall (fun n => is_filename (n +:+ ".json") = true) names) :
  profiles_dir (fold_left (fun s n => snd (delete_gamepad_profile s n)) names self)
    !! (b +:+ ".json")
  = profiles_dir self !! (b +:+ ".json")
  /\ active_profile (fold_left (fun s n => snd (delete_gamepad_profile s n)) names self)
     = active_profile self
  /\ files (fold_left (fun s n => snd (delete_gamepad_profile s n)) names self)
     = files self
  /\ delete_gamepad_profile first_run "default" = (false, first_run)
  /\ fst (delete_gamepad_profile first_run "./default") = true
  /\ profiles_dir (snd (delete_gamepad_profile first_run "./default")) !! "default.json"
     = None
  /\ get_profile_list (snd (delete_gamepad_profile first_run "./default"))
     = ["playstation"; "xbox"].
Proof.
  assert (Hgen : forall self,
    profiles_dir (fold_left (fun s n => snd (delete_gamepad_profile s n)) names self)
      !! (b +:+ ".json")
    = profiles_dir self !! (b +:+ ".json")
    /\ active_profile (fold_left (fun s n => snd (delete_gamepad_profile s n)) names self)
       = active_profile self
    /\ files (fold_left (fun s n => snd (delete_gamepad_profile s n)) names self)
       = files self).
  { clear self. induction Hnames as [|n names Hn _ IH]; intros self; [auto|].
    cbn [fold_left]. destruct (IH (snd (delete_gamepad_profile self n))) as (H1 & H2 & H3).
    rewrite H1, H2, H3. unfold delete_gamepad_profile.
    destruct (bool_decide (n ∈ builtin_names)) eqn:Hbn; [auto|]. cbv zeta.
    rewrite (profile_path_filename self n Hn).
    destruct (os_path_exists self (Profile (n +:+ ".json"))); [|auto].
    cbn [snd os_remove profiles_dir active_profile files].
    split; [|auto]. apply lookup_delete_ne.
    intros H. apply append_json_inj in H. subst n.
    apply bool_decide_eq_false in Hbn. contradiction. }
  destruct (Hgen self) as (H1 & H2 & H3).
  split; [exact H1|]. split; [exact H2|]. split; [exact H3|].
  repeat split; vm_compute; reflexivity.
Qed.

Lemma builtin_profiles_guarded_by_name_witness :
  ("xbox" ∈ builtin_names)
  /\ Forall (fun n => is_filename (n +:+ ".json") = true) ["racing"; "xbox"; "default"]
  /\ is_Some (profiles_dir
                (fold_left (fun s n => snd (delete_gamepad_profile s n))
                   ["racing"; "xbox"; "default"] racing_store)
              !! "xbox.json").
Proof.
  assert (Hb : "xbox" ∈ builtin_names).
  { unfold builtin_names. apply elem_of_cons. right. apply elem_of_cons. left. reflexivity. }
  assert (Hn : Forall (fun n => is_filename (n +:+ ".json") = true)
                 ["racing"; "xbox"; "default"]) by (repeat constructor).
  split; [exact Hb|]. split; [exact Hn|].
  change "xbox.json" with ("xbox" +:+ ".json").
  rewrite (proj1 (builtin_profiles_guarded_by_name racing_store
                    ["racing"; "xbox"; "default"] "xbox" Hb Hn)).
  vm_compute. eauto.
Defined.

End StoreResults.

Section StoreDefaults.
Import ConfigManager.

(** One turn of the loop of [_create_default_profiles], for the name of a
    directory entry. *)
Lemma create_default_step (cfg : t) (name : string) (profile : pyval) :
  is_filename (name +:+ ".json") = true ->
  (if os_path_exists cfg (profile_path cfg name) then Ok cfg
   else open_write cfg (profile_path cfg name) profile)
  = Ok match profiles_dir cfg !! (name +:+ ".json") with
       | Some _ => cfg
       | None =>
           {| config_dir := config_dir cfg;
              active_profile := active_profile cfg;
              profiles_dir :=
                <[name +:+ ".json" := Document (jsonify profile)]> (profiles_dir cfg);
              files := files cfg;
              resolve := resolve cfg |}
       end.
Proof.
  intros Hf. rewrite (profile_path_filename cfg name Hf).
  unfold os_path_exists. cbn [file_at].
  destruct (profiles_dir cfg !! (name +:+ ".json")); reflexivity.
Qed.

(** The loop of [_create_default_profiles] over any list of profiles whose
    names are names of directory entries. *)
Lemma create_defaults_fold (l : list (string * pyval)) (self : t) :
  Forall (fun np => is_filename (fst np +:+ ".json") = true) l ->
  exists self',
    fold_left
      (fun acc np =>
         cfg <-! acc;
         let '(name, profile) := np in
         let profile_path := profile_path cfg name in
         if os_path_exists cfg profile_path then Ok cfg
         else open_write cfg profile_path profile)
      l (Ok self) = Ok self'
    /\ (forall f c, profiles_dir self !! f = Some c -> profiles_dir self' !! f = Some c)
    /\ (forall n p, (n, p) ∈ l -> is_Some (profiles_dir self' !! (n +:+ ".json")))
    /\ (forall f, profiles_dir self !! f = None -> is_Some (profiles_dir self' !! f) ->
          exists n p, (n, p) ∈ l /\ f = n +:+ ".json")
    /\ active_profile self' = active_profile self
    /\ files self' = files self
    /\ config_dir self' = config_dir self
    /\ resolve self' = resolve self
    /\ ((forall n p, (n, p) ∈ l -> is_Some (profiles_dir self !! (n +:+ ".json"))) ->
        self' = self).
Proof.
  intros Hl. revert self. induction Hl as [|[n p] l Hn _ IH]; intros self; cbn [fold_left].
  - exists self. repeat split; auto.
    + intros n p H. inversion H.
    + intros f Hn [c Hc]. congruence.
  - cbn [rbind fst] in *. cbv zeta. rewrite (create_default_step self n p Hn).
    destruct (profiles_dir self !! (n +:+ ".json")) as [c0|] eqn:Hfile.
    + destruct (IH self) as (self' & H0 & H1 & H2 & H3 & H4 & H5 & H6 & H7 & H8).
      exists self'. split; [exact H0|]. split; [exact H1|]. split.
      { intros n' p' Hin. apply elem_of_cons in Hin as [[= -> ->]|Hin]; [|eauto].
        rewrite (H1 _ _ Hfile). eauto. }
      split.
      { intros f Hf Hs. destruct (H3 f Hf Hs) as (n' & p' & Hin & ->).
        exists n', p'. split; [right; exact Hin|reflexivity]. }
      do 4 (split; [assumption|]).
      intros Hall. apply H8. intros n' p' Hin. apply (Hall n' p'). right. exact Hin.
    + match goal with
      | |- context [fold_left _ l (Ok ?s)] =>
          destruct (IH s) as (self' & H0 & H1 & H2 & H3 & H4 & H5 & H6 & H7 & H8)
      end.
      cbn [profiles_dir active_profile files config_dir resolve] in *.
      exists self'. split; [exact H0|]. split.
      { intros f c Hf. apply H1. rewrite lookup_insert_ne; [exact Hf|]. congruence. }
      split.
      { intros n' p' Hin. apply elem_of_cons in Hin as [[= -> ->]|Hin]; [|eauto].
        erewrite H1 by apply lookup_insert_eq. eauto. }
      split.
      { intros f Hf Hs. destruct (decide (f = n +:+ ".json")) as [->|Hne].
        - exists n, p. split; [left|reflexivity].
        - destruct (H3 f) as (n' & p' & Hin & ->).
          + rewrite lookup_insert_ne by congruence. exact Hf.
          + exact Hs.
          + exists n', p'. split; [right; exact Hin|reflexivity]. }
      do 4 (split; [assumption|]).
      intros Hall. destruct (Hall n p) as [c Hc]; [left|]. congruence.
Qed.

(** [_create_default_profiles] only fills gaps, and never fails: every
    file already in the directory is kept as it is (an edited built-in
    profile is not overwritten); the only files that can appear are those
    of the three built-in names, which are all listed afterwards; nothing
    changes outside the profile directory; and a second run changes
    nothing. *)
Theorem create_default_profiles_fills_gaps (self : t) :
  exists self',
    _create_default_profiles self = Ok self'
    /\ (forall f c, profiles_dir self !! f = Some c -> profiles_dir self' !! f = Some c)
    /\ (forall b, b ∈ builtin_names -> b ∈ get_profile_list self')
    /\ (forall f, profiles_dir self !! f = None -> is_Some (profiles_dir self' !! f) ->
          exists b, b ∈ builtin_names /\ f = b +:+ ".json")
    /\ files self' = files self
    /\ active_profile self' = active_profile self
    /\ _create_default_profiles self' = Ok self'.
Proof.
  assert (Hnames : forall n, (exists p, (n, p) ∈ defaults) <-> n ∈ builtin_names).
  { intros n. unfold defaults, builtin_names. split.
    - intros [p Hp]. repeat (apply elem_of_cons in Hp as [[= -> _]|Hp];
        [repeat ((left; reflexivity) || right)|]); inversion Hp.
    - intros Hn. repeat (apply elem_of_cons in Hn as [->|Hn];
        [eexists; repeat ((left; reflexivity) || right)|]); inversion Hn. }
  assert (Hfiles : Forall (fun np : string * pyval => is_filename (fst np +:+ ".json") = true)
                     defaults) by (repeat constructor).
  destruct (create_defaults_fold defaults self Hfiles)
    as (self' & H0 & H1 & H2 & H3 & H4 & H5 & _ & _ & _).
  exists self'. split; [exact H0|]. split; [exact H1|]. split; [|split; [|split; [|split]]].
  - intros b Hb. apply listed_iff_entry. apply Hnames in Hb as [p Hp]. split; [|eauto].
    rewrite Forall_forall in Hfiles. exact (Hfiles (b, p) Hp).
  - intros f Hf Hs. destruct (H3 f Hf Hs) as (n & p & Hin & ->).
    exists n. split; [apply Hnames; eauto|reflexivity].
  - exact H5.
  - exact H4.
  - destruct (create_defaults_fold defaults self' Hfiles)
      as (self'' & G0 & _ & _ & _ & _ & _ & _ & _ & G8).
    assert (G : _create_default_profiles self' = Ok self'') by exact G0.
    rewrite G. f_equal. apply G8. exact H2.
Qed.

End StoreDefaults.

Section StoreExchange.
Import ConfigManager.

(** Export then import: a stored profile object, as JSON returns it,
    exported to a path that can be written and imported from it under a
    new name that can be written, is stored under that name with the same
    entries, its ['name'] entry set to the new name; the profiles at other
    places are as before. Exporting a profile that is missing, is text
    that is no JSON, or is empty returns [False] and writes nothing;
    exporting one whose file cannot be decoded raises. Importing under a
    name that leads nowhere writes nothing, and returns [False] when the
    failure is an [IOError] (the name ['a/b'] without a directory
    ['a']); importing under ['./default'] replaces the built-in profile
    ['default']. *)
Theorem export_then_import (self : t) (name path new_name other : string) (d : items)
    (Hd : get_gamepad_profile self (Some name) = Ok (VDict d))
    (Hne : d <> []) (Hjson : jsonify_items d = d)
    (Hpath : forall e, resolve self path <> Nowhere e)
    (Hnew : forall e, profile_path self new_name <> Nowhere e) :
  (exists self1 self2,
     export_profile self name path = Ok (true, self1)
     /\ file_at self1 (resolve self path) = Some (Document (VDict d))
     /\ import_profile self1 path new_name = Ok (true, self2)
     /\ get_gamepad_profile self2 (Some new_name)
        = Ok (VDict (dict_store (KStr "name") (VStr new_name) d))
     /\ (profile_path self other <> profile_path self new_name ->
         profile_path self other <> resolve self path ->
         get_gamepad_profile self2 (Some other) = get_gamepad_profile self (Some other))
     /\ (forall bad e, profile_path self bad = Nowhere e ->
         import_profile self1 path bad
         = if caught e then Ok (false, self1) else Raise e))
  /\ (forall missing v, get_gamepad_profile self (Some missing) = Ok v ->
      py_truthy v = false -> export_profile self missing path = Ok (false, self))
  /\ (forall broken e, get_gamepad_profile self (Some broken) = Raise e ->
      export_profile self broken path = Raise e)
  /\ export_profile cluttered_store "blob" "/tmp/out.json" = Raise UnicodeDecodeError
  /\ export_profile cluttered_store "torn" "/tmp/out.json" = Ok (false, cluttered_store)
  /\ export_profile cluttered_store "xbox" "/nowhere/out.json" = Raise IOError
  /\ (exists self1,
        export_profile first_run "xbox" "/tmp/xbox.json" = Ok (true, self1)
        /\ import_profile self1 "/tmp/xbox.json" "a/b" = Ok (false, self1)
        /\ exists self2,
             import_profile self1 "/tmp/xbox.json" "./default" = Ok (true, self2)
             /\ (profile <-! get_gamepad_profile self2 (Some "default");
                 py_get profile (KStr "name") VNone)
                = Ok (VStr "./default")).
Proof.
  split; [|split; [|split; [|split; [|split; [|split]]]]];
    [| | |vm_compute; reflexivity|vm_compute; reflexivity|vm_compute; reflexivity
     |eexists; split; [vm_compute; reflexivity|split; [vm_compute; reflexivity|];
      eexists; split; vm_compute; reflexivity]].
  - unfold export_profile. rewrite Hd. cbn [rbind].
    destruct d as [|kv d]; [contradiction|]. cbn [py_truthy].
    destruct (open_write_ok self (resolve self path) (VDict (kv :: d)) Hpath) as [self1 H1].
    rewrite H1. cbn [rbind]. exists self1.
    destruct (open_write_spec _ _ _ _ H1) as (Hat1 & Hother1 & Hc1 & _ & Hr1).
    rewrite jsonify_dict, Hjson in Hat1.
    assert (Hpath1 : forall n, profile_path self1 n = profile_path self n)
      by (intros n; apply profile_path_frame; assumption).
    assert (Hw2 : forall e, profile_path self1 new_name <> Nowhere e)
      by (intros e; rewrite Hpath1; apply Hnew).
    destruct (open_write_ok self1 (profile_path self1 new_name)
                (VDict (dict_store (KStr "name") (VStr new_name) (kv :: d))) Hw2)
      as [self2 H2].
    exists self2. split; [reflexivity|]. split; [exact Hat1|].
    assert (Himport : forall n,
              import_profile self1 path n
              = match save_gamepad_profile self1 n
                        (VDict (dict_store (KStr "name") (VStr n) (kv :: d))) with
                | Ok self' => Ok (true, self')
                | Raise e => if caught e then Ok (false, self1) else Raise e
                end).
    { intros n. unfold import_profile, open_read. rewrite Hr1, Hat1. reflexivity. }
    split; [rewrite Himport; unfold save_gamepad_profile; rewrite H2; reflexivity|].
    destruct (open_write_spec _ _ _ _ H2) as (Hat2 & Hother2 & Hc2 & _ & Hr2).
    assert (Hpath2 : forall n, profile_path self2 n = profile_path self n).
    { intros n. rewrite <- Hpath1. apply profile_path_frame; assumption. }
    split; [|split].
    + rewrite get_gamepad_profile_eq. cbn [requested].
      rewrite Hpath2, <- Hpath1, Hat2, jsonify_dict.
      rewrite (jsonify_items_fixed_store (kv :: d) "name" new_name Hjson). reflexivity.
    + intros Ho1 Ho2. rewrite !get_gamepad_profile_eq. cbn [requested].
      rewrite Hpath2, Hother2 by (rewrite Hpath1; exact Ho1).
      rewrite (Hother1 _ Ho2). reflexivity.
    + intros bad e Hbad. rewrite Himport. unfold save_gamepad_profile.
      rewrite Hpath1, Hbad. reflexivity.
  - intros missing v Hm Hv. unfold export_profile. rewrite Hm. cbn [rbind].
    rewrite Hv. reflexivity.
  - intros broken e Hb. unfold export_profile. rewrite Hb. reflexivity.
Qed.

Lemma export_then_import_witness :
  exists d self1 self2,
    get_gamepad_profile first_run (Some "xbox") = Ok (VDict d)
    /\ export_profile first_run "xbox" "/tmp/xbox.json" = Ok (true, self1)
    /\ import_profile self1 "/tmp/xbox.json" "couch" = Ok (true, self2)
    /\ (profile <-! get_gamepad_profile self2 (Some "couch");
        py_get profile (KStr "name") VNone)
       = Ok (VStr "couch").
Proof.
  assert (Hd : get_gamepad_profile first_run (Some "xbox")
               = Ok (default_profile "Xbox Controller" 0.15)) by (vm_compute; reflexivity).
  unfold default_profile in Hd.
  match type of Hd with
  | _ = Ok (VDict ?d) =>
      destruct (export_then_import first_run "xbox" "/tmp/xbox.json" "couch" "default" d Hd)
        as ((self1 & self2 & H1 & _ & H2 & H3 & _) & _);
        [discriminate|vm_compute; reflexivity
        |intros e; vm_compute; discriminate|intros e; vm_compute; discriminate|];
      exists d, self1, self2
  end.
  split; [exact Hd|]. split; [exact H1|]. split; [exact H2|].
  rewrite H3. reflexivity.
Defined.

End StoreExchange.

(** ** The configuration entries *)

Section Settings.
Import ConfigSettings.

(** Reading the configuration: the entries of the file win, the built-in
    entries fill what the file lacks; a missing file, text that is no
    JSON, and a file that fails to be read with an [IOError] give the
    built-in entries; a file that holds JSON other than an object makes
    the constructor raise [TypeError], and a file whose reading raises
    anything else (bytes that are no text: [UnicodeDecodeError]) makes it
    raise that. *)
Theorem load_config_merges_defaults (config : items) (k : pykey)
    (Hkeys : distinct_keys config) :
  (exists merged,
     _load_config (Some (ConfigManager.Document (VDict config))) = Ok merged
     /\ dict_lookup k merged
        = match dict_lookup k config with
          | Some v => Some v
          | None => dict_lookup k DEFAULT_CONFIG
          end)
  /\ _load_config None = Ok DEFAULT_CONFIG
  /\ (forall text, _load_config (Some (ConfigManager.Garbled text)) = Ok DEFAULT_CONFIG)
  /\ _load_config (Some (ConfigManager.Unreadable IOError)) = Ok DEFAULT_CONFIG
  /\ (forall e, ConfigManager.caught e = false ->
        init (Some (ConfigManager.Unreadable e)) = Raise e)
  /\ init (Some (ConfigManager.Unreadable UnicodeDecodeError)) = Raise UnicodeDecodeError
  /\ (forall v, (forall d, v <> VDict d) ->
        init (Some (ConfigManager.Document v)) = Raise TypeError).
Proof.
  split.
  - eexists. split; [reflexivity|]. apply dict_lookup_update. exact Hkeys.
  - split; [reflexivity|]. split; [reflexivity|]. split; [reflexivity|].
    split; [|split; [reflexivity|]].
    + intros e He. unfold init, _load_config. cbn [ConfigManager.json_load rbind].
      rewrite He. reflexivity.
    + intros v Hv. unfold init, _load_config.
      destruct v; try reflexivity. exfalso. exact (Hv d eq_refl).
Qed.

Lemma load_config_merges_defaults_witness :
  distinct_keys [(KStr "fullscreen", VBool true)]
  /\ exists merged,
       _load_config (Some (ConfigManager.Document (VDict [(KStr "fullscreen", VBool true)])))
       = Ok merged
       /\ dict_lookup (KStr "active_profile") merged = Some (VStr "default").
Proof.
  assert (H : distinct_keys [(KStr "fullscreen", VBool true)]).
  { unfold distinct_keys. cbn [map fst]. apply NoDup_singleton. }
  split; [exact H|].
  destruct (proj1 (load_config_merges_defaults [(KStr "fullscreen", VBool true)]
                     (KStr "active_profile") H)) as (merged & H1 & H2).
  exists merged. split; [exact H1|exact H2].
Defined.

(** The application settings always answer for every built-in key, with
    the configured value when there is one; what [save_app_settings] is
    given reads back from [get_app_settings], the other settings read as
    before; after [reset_app_settings] they are the built-in ones. *)
Theorem app_settings_overlay_defaults (self : t) (settings : items) (k : pykey)
    (Hc : distinct_keys (_config self)) (Hs : distinct_keys settings) :
  dict_lookup k (get_app_settings self)
  = match dict_lookup k (_config self) with
    | Some v => Some v
    | None => dict_lookup k DEFAULT_APP_SETTINGS
    end
  /\ dict_lookup k (get_app_settings (save_app_settings self settings))
     = match dict_lookup k settings with
       | Some v => Some v
       | None => dict_lookup k (get_app_settings self)
       end
  /\ get_app_settings (reset_app_settings self) = DEFAULT_APP_SETTINGS.
Proof.
  split; [apply dict_lookup_update; exact Hc|]. split; [|vm_compute; reflexivity].
  unfold get_app_settings, save_app_settings. cbn [_save_config _config].
  rewrite dict_lookup_update by (apply dict_update_distinct; exact Hc).
  rewrite (dict_lookup_update k (_config self) settings Hs).
  rewrite (dict_lookup_update k DEFAULT_APP_SETTINGS (_config self) Hc).
  destruct (dict_lookup k settings); reflexivity.
Qed.

Lemma app_settings_overlay_defaults_witness :
  distinct_keys DEFAULT_CONFIG
  /\ dict_lookup (KStr "theme")
       (get_app_settings {| _config := DEFAULT_CONFIG; config_file := None |})
     = Some (VStr "retro").
Proof.
  assert (H : distinct_keys DEFAULT_CONFIG).
  { unfold distinct_keys, DEFAULT_CONFIG. cbn [map fst].
    repeat (apply NoDup_cons; split;
      [rewrite ?elem_of_cons, elem_of_nil; intros Hx; repeat destruct Hx as [Hx|Hx];
       try discriminate Hx; exact Hx|]).
    apply NoDup_nil. trivial. }
  split; [exact H|].
  exact (proj1 (app_settings_overlay_defaults
                  {| _config := DEFAULT_CONFIG; config_file := None |} []
                  (KStr "theme") H (NoDup_nil_2 (A:=pykey)))).
Defined.

End Settings.

Section ActiveProfile.
Import ConfigSettings.

Lemma reload_lookup (cfg : items) (k : string) :
  str_keyed cfg -> distinct_keys cfg ->
  exists reloaded,
    init (config_file (_save_config {| _config := cfg; config_file := None |}))
    = Ok reloaded
    /\ dict_lookup (KStr k) (_config reloaded)
       = match dict_lookup (KStr k) cfg with
         | Some v => Some (jsonify v)
         | None => dict_lookup (KStr k) DEFAULT_CONFIG
         end.
Proof.
  intros Hstr Hd. unfold init, _save_config. cbn [config_file _config].
  rewrite jsonify_dict. cbn [_load_config ConfigManager.json_load rbind].
  eexists. split; [reflexivity|].
  cbn [_config]. rewrite dict_lookup_update.
  - rewrite (jsonify_items_str_keyed cfg k Hstr).
    destruct (dict_lookup (KStr k) cfg); reflexivity.
  - unfold distinct_keys. rewrite (jsonify_items_keys cfg Hstr Hd). exact Hd.
Qed.

(** The active profile is an entry of the configuration. After
    [set_active_profile] it reads back as set, also from the saved file.
    [reset_app_settings] replaces the configuration by the application
    settings, which have no such entry: the active profile then reads
    ['default'], in memory and from the saved file. *)
Theorem active_profile_entry (self : t) (name : string)
    (Hstr : str_keyed (_config self)) (Hkeys : distinct_keys (_config self)) :
  get_active_profile (set_active_profile self name) = VStr name
  /\ (exists reloaded,
        init (config_file (set_active_profile self name)) = Ok reloaded
        /\ get_active_profile reloaded = VStr name)
  /\ dict_lookup (KStr "active_profile") (_config (reset_app_settings self)) = None
  /\ get_active_profile (reset_app_settings self) = VStr "default"
  /\ (exists reloaded,
        init (config_file (reset_app_settings self)) = Ok reloaded
        /\ get_active_profile reloaded = VStr "default").
Proof.
  split; [|split; [|split; [|split]]].
  - unfold get_active_profile, get, set_active_profile, set. cbn [_save_config _config].
    rewrite dict_lookup_store_eq. reflexivity.
  - destruct (reload_lookup (dict_store (KStr "active_profile") (VStr name) (_config self))
                "active_profile") as (reloaded & H1 & H2).
    + apply dict_store_str_keyed. exact Hstr.
    + apply dict_store_distinct. exact Hkeys.
    + exists reloaded. split; [exact H1|].
      unfold get_active_profile, get. rewrite H2, dict_lookup_store_eq. reflexivity.
  - reflexivity.
  - reflexivity.
  - eexists. split; [vm_compute; reflexivity|]. reflexivity.
Qed.

Lemma active_profile_entry_witness :
  str_keyed DEFAULT_CONFIG
  /\ get_active_profile
       (set_active_profile {| _config := DEFAULT_CONFIG; config_file := None |} "xbox")
     = VStr "xbox".
Proof.
  assert (Hs : str_keyed DEFAULT_CONFIG).
  { unfold str_keyed, DEFAULT_CONFIG. repeat constructor; eexists; reflexivity. }
  assert (Hk : distinct_keys DEFAULT_CONFIG).
  { unfold distinct_keys, DEFAULT_CONFIG. cbn [map fst].
    repeat (apply NoDup_cons; split;
      [rewrite ?elem_of_cons, elem_of_nil; intros Hx; repeat destruct Hx as [Hx|Hx];
       try discriminate Hx; exact Hx|]).
    apply NoDup_nil. trivial. }
  split; [exact Hs|].
  exact (proj1 (active_profile_entry
                  {| _config := DEFAULT_CONFIG; config_file := None |} "xbox" Hs Hk)).
Defined.

End ActiveProfile.

(** ** The window: tabs and focus *)

Section WindowTabs.
Import MainWindow.

Lemma tab_step (tabs : QTabWidget) (a : Z) :
  0 < count tabs ->
  (new_index <-! py_mod a (count tabs); Ok (setCurrentIndex tabs new_index))
  = Ok {| count := count tabs; currentIndex := a mod count tabs |}.
Proof.
  intros Hn. unfold py_mod.
  destruct (count tabs =? 0) eqn:E; [apply Z.eqb_eq in E; lia|].
  cbn [rbind]. unfold setCurrentIndex.
  pose proof (Z.mod_pos_bound a (count tabs) Hn) as [H1 H2].
  apply Z.leb_le in H1. apply Z.ltb_lt in H2. rewrite H1, H2. reflexivity.
Qed.

(** [next_tab] and [prev_tab] undo each other on any valid tab, in both
    orders, and always land on a valid index; with no tabs at all both
    raise [ZeroDivisionError]. *)
Theorem tab_switches_are_inverse (tabs : QTabWidget)
    (Hn : 0 < count tabs) (Hc : 0 <= currentIndex tabs < count tabs) :
  (t <-! next_tab tabs; prev_tab t) = Ok tabs
  /\ (t <-! prev_tab tabs; next_tab t) = Ok tabs
  /\ (exists t, next_tab tabs = Ok t /\ 0 <= currentIndex t < count t
                /\ count t = count tabs)
  /\ (exists t, prev_tab tabs = Ok t /\ 0 <= currentIndex t < count t
                /\ count t = count tabs)
  /\ (forall c, next_tab {| count := 0; currentIndex := c |} = Raise ZeroDivisionError)
  /\ (forall c, prev_tab {| count := 0; currentIndex := c |} = Raise ZeroDivisionError).
Proof.
  assert (Hnext : next_tab tabs
    = Ok {| count := count tabs; currentIndex := (currentIndex tabs + 1) mod count tabs |})
    by (apply tab_step; exact Hn).
  assert (Hprev : prev_tab tabs
    = Ok {| count := count tabs; currentIndex := (currentIndex tabs - 1) mod count tabs |})
    by (apply tab_step; exact Hn).
  split; [|split; [|split; [|split; [|split]]]].
  - rewrite Hnext. cbn [rbind]. unfold prev_tab. rewrite tab_step by exact Hn.
    cbn [count currentIndex]. rewrite Zminus_mod_idemp_l.
    replace (currentIndex tabs + 1 - 1) with (currentIndex tabs) by lia.
    rewrite Z.mod_small by lia. destruct tabs; reflexivity.
  - rewrite Hprev. cbn [rbind]. unfold next_tab. rewrite tab_step by exact Hn.
    cbn [count currentIndex]. rewrite Zplus_mod_idemp_l.
    replace (currentIndex tabs - 1 + 1) with (currentIndex tabs) by lia.
    rewrite Z.mod_small by lia. destruct tabs; reflexivity.
  - eexists. split; [exact Hnext|]. cbn [count currentIndex].
    split; [apply Z.mod_pos_bound; exact Hn|reflexivity].
  - eexists. split; [exact Hprev|]. cbn [count currentIndex].
    split; [apply Z.mod_pos_bound; exact Hn|reflexivity].
  - reflexivity.
  - reflexivity.
Qed.

Lemma tab_switches_are_inverse_witness :
  0 < 7
  /\ (t <-! next_tab {| count := 7; currentIndex := 6 |}; prev_tab t)
     = Ok {| count := 7; currentIndex := 6 |}.
Proof.
  split; [reflexivity|].
  refine (proj1 (tab_switches_are_inverse {| count := 7; currentIndex := 6 |} eq_refl _)).
  cbn [count currentIndex]. lia.
Defined.

End WindowTabs.

Section WindowFocus.
Import MainWindow.

Lemma navigate_focus_skips (current x : QWidget) (l1 l2 : list QWidget)
    (direction : string) :
  cand_score direction current x = None ->
  _navigate_focus (Some current) (l1 ++ x :: l2) direction
  = _navigate_focus (Some current) (l1 ++ l2) direction.
Proof.
  intros Hx. rewrite !navigate_focus_fold, !fold_left_app. cbn [fold_left].
  unfold pick at 2. rewrite Hx. reflexivity.
Qed.

(** Widgets that are hidden, disabled, refuse focus or are the focused
    widget itself have no influence on navigation: with or without such a
    widget among the children, in any place, the outcome is the same. *)
Theorem ineligible_widgets_do_not_matter (current x : QWidget)
    (l1 l2 : list QWidget) (direction : string)
    (Hx : isVisible x = false \/ isEnabled x = false
          \/ focusPolicy x = NoFocus \/ wid x = wid current) :
  _navigate_focus (Some current) (l1 ++ x :: l2) direction
  = _navigate_focus (Some current) (l1 ++ l2) direction.
Proof.
  apply navigate_focus_skips. unfold cand_score, is_focusable.
  destruct Hx as [H|[H|[H|H]]].
  - rewrite H. reflexivity.
  - rewrite H, andb_false_r. reflexivity.
  - rewrite (bool_decide_eq_false_2 (focusPolicy x <> NoFocus)) by (intros Hn; exact (Hn H)).
    rewrite andb_false_r. reflexivity.
  - rewrite (bool_decide_eq_false_2 (wid x <> wid current)) by (intros Hn; exact (Hn H)).
    rewrite andb_false_r. reflexivity.
Qed.

Lemma ineligible_widgets_do_not_matter_witness :
  _navigate_focus (Some (widget_at 0 100 100))
    ([widget_at 1 100 200] ++ widget_at 0 100 100 :: [widget_at 2 100 150]) "down"
  = _navigate_focus (Some (widget_at 0 100 100))
      ([widget_at 1 100 200] ++ [widget_at 2 100 150]) "down".
Proof.
  apply (ineligible_widgets_do_not_matter (widget_at 0 100 100) (widget_at 0 100 100)).
  right. right. right. reflexivity.
Defined.

(** A direction other than ['down'], ['up'], ['right'], ['left'] selects
    no widget: from a focused widget that is true nothing moves, whatever
    the children; from one that is false (an empty [QComboBox] or
    [QListWidget]) the toolkit's focus-advance is called, as for any
    direction. *)
Theorem unknown_direction_selects_nothing (current : QWidget) (children : list QWidget)
    (direction : string)
    (Hdir : direction ∉ ["down"; "up"; "right"; "left"]) :
  _navigate_focus (Some current) children direction
  = if widget_truthy current then NoChange else FocusNextChild.
Proof.
  assert (Hnone : forall w, cand_score direction current w = None).
  { intros w. unfold cand_score, direction_score.
    destruct (is_focusable current w); [|reflexivity].
    assert (H : forall s, s ∈ ["down"; "up"; "right"; "left"] ->
                  String.eqb direction s = false).
    { intros s Hs. apply String.eqb_neq. intros ->. contradiction. }
    rewrite !H by (repeat ((left; reflexivity) || right)). reflexivity. }
  rewrite navigate_focus_fold. destruct (widget_truthy current); [|reflexivity].
  destruct (fold_pick_first_min direction current children)
    as [[-> _]|(before & w & after & s & _ & _ & Hw & _)]; [reflexivity|].
  rewrite Hnone in Hw. discriminate.
Qed.

Lemma unknown_direction_selects_nothing_witness :
  ("Down" ∉ ["down"; "up"; "right"; "left"])
  /\ _navigate_focus (Some (widget_at 0 100 100))
       [widget_at 1 100 200; widget_at 2 300 100] "Down" = NoChange
  /\ _navigate_focus (Some (list_widget_at 0 100 100 0))
       [widget_at 1 100 200; widget_at 2 300 100] "Down" = FocusNextChild.
Proof.
  assert (H : "Down" ∉ ["down"; "up"; "right"; "left"]).
  { rewrite !elem_of_cons, elem_of_nil.
    intros [H|[H|[H|[H|H]]]]; try discriminate H; exact H. }
  split; [exact H|]. split.
  - exact (unknown_direction_selects_nothing (widget_at 0 100 100) _ "Down" H).
  - exact (unknown_direction_selects_nothing (list_widget_at 0 100 100 0) _ "Down" H).
Defined.

(** Around the focused widget there is a zone that navigation cannot
    reach: a widget whose centre is within 20 units of the current centre
    on both axes is never focused, in any direction; and no widget is
    reachable in two opposite directions. *)
Theorem near_widgets_are_unreachable (d : direction) (current w : QWidget)
    (children : list QWidget)
    (Hsel : _navigate_focus (Some current) children (direction_name d) = SetFocus w) :
  (Z.abs (dx_of current w) > 20 \/ Z.abs (dy_of current w) > 20)
  /\ w ∈ children
  /\ wid w <> wid current
  /\ forall children',
       _navigate_focus (Some current) children'
         (direction_name match d with Down => Up | Up => Down
                                      | Right => Left | Left => Right end)
       <> SetFocus w.
Proof.
  assert (Hcand : forall d' l, _navigate_focus (Some current) l (direction_name d') = SetFocus w ->
            spec_candidate d' current w /\ w ∈ l).
  { intros d' l H. rewrite navigate_focus_fold in H.
    destruct (widget_truthy current); [|discriminate].
    destruct (fold_pick_first_min (direction_name d') current l)
      as [[Hacc _]|(before & w' & after & s & Hacc & Hl & Hw & _)];
      rewrite Hacc in H; cbn [fst] in H; [discriminate|].
    destruct (widget_truthy w'); [|discriminate].
    injection H as ->. apply cand_score_spec in Hw as [Hw _].
    split; [exact Hw|]. rewrite Hl. apply elem_of_app. right. left. }
  destruct (Hcand d children Hsel) as [(_ & _ & _ & Hid & Hdir) Hin].
  split; [|split; [exact Hin|split; [exact Hid|]]].
  - destruct d; cbn [spec_in_direction] in Hdir; lia.
  - intros children' H'. destruct (Hcand _ children' H') as [(_ & _ & _ & _ & Hdir') _].
    destruct d; cbn [spec_in_direction] in Hdir, Hdir'; lia.
Qed.

Lemma near_widgets_are_unreachable_witness :
  _navigate_focus (Some (widget_at 0 100 100))
    [widget_at 1 110 115; widget_at 2 100 200] (direction_name Down)
  = SetFocus (widget_at 2 100 200)
  /\ widget_at 2 100 200 ∈ [widget_at 1 110 115; widget_at 2 100 200].
Proof.
  assert (H : _navigate_focus (Some (widget_at 0 100 100))
                [widget_at 1 110 115; widget_at 2 100 200] (direction_name Down)
              = SetFocus (widget_at 2 100 200)) by reflexivity.
  split; [exact H|].
  exact (proj1 (proj2 (near_widgets_are_unreachable Down _ _ _ H))).
Defined.

End WindowFocus.

(** ** From the d-pad to the focus *)

Section EndToEnd.

(** With the built-in mapping, a hat that moves to one of its eight
    directions makes the manager emit one action, which the window turns
    into a focus move: up or down when the hat has a vertical part, else
    left or right. The release of the direction left behind triggers
    nothing. *)
Theorem hat_moves_focus (last hat : Z * Z) (w : MainWindow.t)
    (Hne : hat <> last)
    (Hx : -1 <= fst hat <= 1) (Hy : -1 <= snd hat <= 1) (Hoff : hat <> (0, 0)) :
  exists b action dir,
    GamepadWorker.hat_buttons hat = Some b
    /\ hat_moves hat = Some dir
    /\ GamepadManager.deliver_all GamepadManager.fresh
         (snd (GamepadWorker.poll_hat last hat))
       = Ok (GamepadManager.fresh, [GamepadManager.button_pressed b (VStr action)])
    /\ MainWindow.on_gamepad_button w b action
       = Ok (MainWindow.Focus
               (MainWindow._navigate_focus (MainWindow.focusWidget w)
                  (MainWindow.children w) dir)).
Proof.
  assert (Hrel : forall b',
            GamepadManager.deliver GamepadManager.fresh (GamepadWorker.button_released b')
            = Ok (GamepadManager.fresh, [])) by reflexivity.
  assert (Hout : forall evs b action,
            GamepadManager.deliver GamepadManager.fresh (GamepadWorker.button_pressed b)
            = Ok (GamepadManager.fresh, [GamepadManager.button_pressed b (VStr action)]) ->
            evs = match GamepadWorker.hat_buttons last with
                  | Some b' => [GamepadWorker.button_released b']
                  | None => []
                  end ->
            GamepadManager.deliver_all GamepadManager.fresh
              (evs ++ [GamepadWorker.button_pressed b])
            = Ok (GamepadManager.fresh, [GamepadManager.button_pressed b (VStr action)])).
  { intros evs b action Hb ->. rewrite deliver_all_app.
    assert (Hfirst : GamepadManager.deliver_all GamepadManager.fresh
              match GamepadWorker.hat_buttons last with
              | Some b' => [GamepadWorker.button_released b']
              | None => []
              end = Ok (GamepadManager.fresh, []))
      by (destruct (GamepadWorker.hat_buttons last); reflexivity).
    rewrite Hfirst. cbn [rbind fst snd GamepadManager.deliver_all].
    rewrite Hb. reflexivity. }
  rewrite (poll_hat_changed last hat Hne). cbn [snd].
  destruct hat as [x y]. cbn [fst snd] in Hx, Hy.
  assert (Hxs : x = -1 \/ x = 0 \/ x = 1) by lia.
  assert (Hys : y = -1 \/ y = 0 \/ y = 1) by lia.
  destruct Hxs as [Ex|[Ex|Ex]], Hys as [Ey|[Ey|Ey]]; subst x y; try contradiction;
    cbn [GamepadWorker.hat_buttons];
    eexists; eexists; eexists;
    (split; [reflexivity|]); (split; [reflexivity|]);
    (split; [apply Hout; reflexivity|reflexivity]).
Qed.

Lemma hat_moves_focus_witness :
  (1, 1) <> (0, 0)
  /\ exists b action,
       GamepadManager.deliver_all GamepadManager.fresh
         (snd (GamepadWorker.poll_hat (0, 0) (1, 1)))
       = Ok (GamepadManager.fresh, [GamepadManager.button_pressed b (VStr action)])
       /\ hat_moves (1, 1) = Some "up".
Proof.
  assert (Hne : ((1, 1) : Z * Z) <> (0, 0)) by discriminate.
  split; [exact Hne|].
  destruct (hat_moves_focus (0, 0) (1, 1)
              {| MainWindow.tabs := {| MainWindow.count := 7; MainWindow.currentIndex := 0 |};
                 MainWindow.focusWidget := None; MainWindow.children := [] |}
              Hne ltac:(cbn; lia) ltac:(cbn; lia) Hne)
    as (b & action & dir & _ & _ & H & _).
  exists b, action. split; [exact H|reflexivity].
Defined.

End EndToEnd.

(** ** Addresses of the API *)

Section Addresses.
Import APIClient.





End Addresses.
